(** * Load-balancer driver adapters: edge appliance, REST client, agent driver

    A shallow embedding of

    - [neutron/plugins/nicira/vshield/edge_loadbalancer_driver.py]
    - [neutron/services/loadbalancer/drivers/netscaler/rest_client.py]
    - [neutron/services/loadbalancer/drivers/netscaler/plugin_driver.py]

    Python dictionaries are finite maps with string keys, exceptions are an
    inductive type, and a method that talks to a collaborator is a function in
    a state-and-exception monad: it takes the state of the world and returns
    either a value or the exception raised, together with the state it left
    behind (what was done before a [raise] stays done). *)

From Stdlib Require Import ZArith String Ascii List Lia.
From stdpp Require Import gmap strings list.
Import ListNotations.

Set Warnings "-register-all".
Local Open Scope string_scope.
Local Open Scope Z_scope.
Local Open Scope list_scope.

(** ** Python values, exceptions and control flow *)

Module Py.

(** The values that travel in the drivers' dictionaries. *)
Inductive value :=
| VNone
| VBool (b : bool)
| VInt (z : Z)
| VStr (s : string)
| VList (l : list value)
| VDict (d : gmap string value).

Abbreviation dict := (gmap string value).

(** Exception classes raised or handled by the three source files.  The
    classes of [vcns_exc], [q_exc] and [lbaas_agentscheduler] carry the
    arguments they are built with. *)
Inductive exn :=
| KeyError (key : string)
| IndexError
| TypeError
| LookupError
| ImportError
| VcnsApiException (detail : string)
| VcnsNotFound (resource msg : string)
| PortNotFound (port_id : string)
| SubnetNotFound (subnet_id : string)
| NetworkNotFound (network_id : string)
| NoActiveLbaasAgent (pool_id : string)
| NoEligibleLbaasAgent (pool_id : string)
| ServiceUnavailable
| OtherError (detail : string).

(** [isinstance(e, vcns_exc.VcnsApiException)]: [VcnsNotFound] derives
    from the API exception. *)
Definition is_VcnsApiException (e : exn) : bool :=
  match e with
  | VcnsApiException _ | VcnsNotFound _ _ => true
  | _ => false
  end.

Definition is_PortNotFound (e : exn) : bool :=
  match e with PortNotFound _ => true | _ => false end.

(** [isinstance(e, (LookupError, ImportError))]: [KeyError] and
    [IndexError] are the built-in subclasses of [LookupError]. *)
Definition is_LookupError_or_ImportError (e : exn) : bool :=
  match e with
  | LookupError | KeyError _ | IndexError | ImportError => true
  | _ => false
  end.

Inductive result (A : Type) :=
| Ok (a : A)
| Raise (e : exn).
Arguments Ok {A} a.
Arguments Raise {A} e.

(** A computation over a world of type [S]. *)
Definition M (S A : Type) : Type := S -> result A * S.

Definition ret {S A} (a : A) : M S A := fun w => (Ok a, w).

Definition bind {S A B} (m : M S A) (k : A -> M S B) : M S B :=
  fun w =>
    match m w with
    | (Ok a, w') => k a w'
    | (Raise e, w') => (Raise e, w')
    end.

Definition raise {S A} (e : exn) : M S A := fun w => (Raise e, w).

Definition lift {S A} (r : result A) : M S A := fun w => (r, w).

Definition gets {S A} (f : S -> A) : M S A := fun w => (Ok (f w), w).

Definition modify {S} (f : S -> S) : M S unit := fun w => (Ok tt, f w).

(** [try: body  except C as e: handler(e)], where [catches] decides
    [isinstance(e, C)]. *)
Definition try_except {S A} (body : M S A) (catches : exn -> bool)
    (handler : exn -> M S A) : M S A :=
  fun w =>
    match body w with
    | (Raise e, w') => if catches e then handler e w' else (Raise e, w')
    | r => r
    end.

(** [with excutils.save_and_reraise_exception(): body] inside a handler
    for [e]: run [body], then raise [e] again, the very same exception. *)
Definition save_and_reraise_exception {S A} (e : exn) (body : M S unit)
    : M S A :=
  bind body (fun _ => raise e).

(** Truth value of an object, as [if x:] and [not x] take it. *)
Definition truthy (v : value) : bool :=
  match v with
  | VNone => false
  | VBool b => b
  | VInt z => negb (Z.eqb z 0)
  | VStr s => negb (String.eqb s "")
  | VList l => match l with [] => false | _ => true end
  | VDict d => negb (Nat.eqb (size d) 0)
  end.

(** [d[k]] on a dictionary. *)
Definition getitem {A} (d : gmap string A) (k : string) : result A :=
  match d !! k with
  | Some v => Ok v
  | None => Raise (KeyError k)
  end.

(** [d.get(k)], with the default [None]. *)
Definition get (d : dict) (k : string) : value :=
  default VNone (d !! k).

(** [v[k]] for a string [k] on any object: dictionaries look the key up,
    nothing else in [value] takes a string subscript. *)
Definition subscript (v : value) (k : string) : result value :=
  match v with
  | VDict d => getitem d k
  | _ => Raise TypeError
  end.

(** [v[0]]. *)
Definition first_item (v : value) : result value :=
  match v with
  | VList (x :: _) => Ok x
  | VList [] => Raise IndexError
  | VStr (String c _) => Ok (VStr (String c ""))
  | VStr "" => Raise IndexError
  | VDict _ => Raise (KeyError "0")
  | _ => Raise TypeError
  end.

(** [m.get(k, dflt)] on a table with string keys: a key that is not a
    string is not in the table, and a list or dictionary is not hashable. *)
Definition table_get (m : gmap string string) (k : value) (dflt : string)
    : result string :=
  match k with
  | VStr s => Ok (default dflt (m !! s))
  | VList _ | VDict _ => Raise TypeError
  | _ => Ok dflt
  end.

(** [str(o)] for an optional string. *)
Definition str (o : option string) : string :=
  match o with Some s => s | None => "None" end.

(** [s.rfind(sub)]: the highest index at which [sub] starts in [s], or
    [-1].  [rfind_from] scans the part of the string that starts at
    index [i]. *)
Fixpoint rfind_from (sub s : string) (i : Z) : Z :=
  let here := if String.prefix sub s then i else -1 in
  match s with
  | EmptyString => here
  | String _ s' =>
      let later := rfind_from sub s' (i + 1) in
      if 0 <=? later then later else here
  end.

Definition rfind (s sub : string) : Z := rfind_from sub s 0.

(** [c in s] for a character. *)
Fixpoint occurs (c : ascii) (s : string) : bool :=
  match s with
  | EmptyString => false
  | String a s' => Ascii.eqb a c || occurs c s'
  end.

Fixpoint drop_chars (n : nat) (s : string) : string :=
  match n, s with
  | O, _ => s
  | S n', String _ s' => drop_chars n' s'
  | S _, EmptyString => EmptyString
  end.

(** [s[i:]]: a negative [i] counts from the end, and the start is
    clipped to the string. *)
Definition slice_from (s : string) (i : Z) : string :=
  let n := Z.of_nat (String.length s) in
  let start := if i <? 0 then Z.max 0 (n + i) else Z.min i n in
  drop_chars (Z.to_nat start) s.

End Py.

Export Py.

(** The computations form a monad for stdpp's [x ← m; k] notation. *)
#[global] Instance M_ret {S} : MRet (M S) := @Py.ret S.
#[global] Instance M_bind {S} : MBind (M S) := fun A B k m => Py.bind m k.

(** ** The binding tables of [vcns_db] *)

Module VcnsDb.

(** Rows of the three binding tables, with the columns the driver reads
    and writes ([vcns_const.EDGE_ID] is the column [edge_id]). *)
Record VcnsEdgeVipBinding := {
  vip_id : value;
  vip_vseid : string;
  vip_edge_id : string;
  app_profileid : string
}.

Record VcnsEdgePoolBinding := {
  pool_id : value;
  pool_vseid : string;
  pool_edge_id : string
}.

Record VcnsEdgeMonitorBinding := {
  monitor_id : value;
  monitor_vseid : string;
  monitor_edge_id : string
}.

Record session := {
  vip_bindings : list VcnsEdgeVipBinding;
  pool_bindings : list VcnsEdgePoolBinding;
  monitor_bindings : list VcnsEdgeMonitorBinding
}.

(** Modelled from the spec: the comparison of a column of the absent
    [vcns_db] tables with a key.  A stored identifier matches a key when
    both are the same string or the same number; [None] matches
    nothing. *)
Definition column_eqb (stored key : value) : bool :=
  match stored, key with
  | VStr a, VStr b => String.eqb a b
  | VInt a, VInt b => Z.eqb a b
  | _, _ => false
  end.

(** Modelled from the spec: [vcns_db] is not among the sources.  The
    binding store offers [put], [get] by logical id, [getByBackendId] and
    [delete]; a table is the list of its rows and a lookup is the first
    row that matches. *)
Definition add_vcns_edge_vip_binding (b : VcnsEdgeVipBinding) (s : session)
    : session :=
  {| vip_bindings := vip_bindings s ++ [b];
     pool_bindings := pool_bindings s;
     monitor_bindings := monitor_bindings s |}.

(** Modelled from the spec: the row of a vip in the table of the absent
    [vcns_db], the first one with the logical id. *)
Definition find_vip_binding (s : session) (id : value)
    : option VcnsEdgeVipBinding :=
  List.find (fun b => column_eqb (vip_id b) id) (vip_bindings s).

(** Modelled from the spec: the vip lookup of the absent [vcns_db]
    "fails with NotFound if absent"; the driver reads the row it
    returns without a test of its own. *)
Definition get_vcns_edge_vip_binding (s : session) (id : value)
    : result VcnsEdgeVipBinding :=
  match find_vip_binding s id with
  | Some b => Ok b
  | None =>
      Raise (VcnsNotFound "router_service_binding"
               "VIP Resource binding not found!")
  end.

(** Modelled from the spec: [delete(kind, logicalId, ...)] of the absent
    [vcns_db] removes the rows of the logical id. *)
Definition delete_vcns_edge_vip_binding (id : value) (s : session)
    : session :=
  {| vip_bindings :=
       List.filter (fun b => negb (column_eqb (vip_id b) id))
         (vip_bindings s);
     pool_bindings := pool_bindings s;
     monitor_bindings := monitor_bindings s |}.

(** Modelled from the spec: [put] on the pool table of the absent
    [vcns_db]. *)
Definition add_vcns_edge_pool_binding (b : VcnsEdgePoolBinding)
    (s : session) : session :=
  {| vip_bindings := vip_bindings s;
     pool_bindings := pool_bindings s ++ [b];
     monitor_bindings := monitor_bindings s |}.

(** Modelled from the spec: [get] on the pool table of the absent
    [vcns_db], by logical id and edge.  The driver tests the row it gets
    with [if not pool_binding], so an absent row is the value [None]. *)
Definition get_vcns_edge_pool_binding (s : session) (id : value)
    (edge_id : string) : option VcnsEdgePoolBinding :=
  List.find
    (fun b => column_eqb (pool_id b) id && String.eqb (pool_edge_id b) edge_id)
    (pool_bindings s).

(** Modelled from the spec: the row of a backend pool id in the pool
    table of the absent [vcns_db], the first one with the id on the
    edge. *)
Definition find_pool_binding_by_vseid (s : session) (edge_id : string)
    (vseid : value) : option VcnsEdgePoolBinding :=
  List.find
    (fun b =>
       column_eqb (VStr (pool_vseid b)) vseid
       && String.eqb (pool_edge_id b) edge_id)
    (pool_bindings s).

(** Modelled from the spec: the reverse lookup [getByBackendId] of the
    absent [vcns_db]; it "fails with BindingNotFound if no reverse
    binding exists". *)
Definition get_vcns_edge_pool_binding_by_vseid (s : session)
    (edge_id : string) (vseid : value) : result VcnsEdgePoolBinding :=
  match find_pool_binding_by_vseid s edge_id vseid with
  | Some b => Ok b
  | None =>
      Raise (VcnsNotFound "router_service_binding"
               "Pool Resource binding not found!")
  end.

(** Modelled from the spec: [delete] on the pool table of the absent
    [vcns_db]. *)
Definition delete_vcns_edge_pool_binding (id : value) (edge_id : string)
    (s : session) : session :=
  {| vip_bindings := vip_bindings s;
     pool_bindings :=
       List.filter
         (fun b =>
            negb (column_eqb (pool_id b) id
                  && String.eqb (pool_edge_id b) edge_id))
         (pool_bindings s);
     monitor_bindings := monitor_bindings s |}.

(** Modelled from the spec: [put] on the monitor table of the absent
    [vcns_db]. *)
Definition add_vcns_edge_monitor_binding (b : VcnsEdgeMonitorBinding)
    (s : session) : session :=
  {| vip_bindings := vip_bindings s;
     pool_bindings := pool_bindings s;
     monitor_bindings := monitor_bindings s ++ [b] |}.

(** Modelled from the spec: [get] on the monitor table of the absent
    [vcns_db]; the driver tests the row it gets with
    [if not monitor_binding], so an absent row is the value [None]. *)
Definition get_vcns_edge_monitor_binding (s : session) (id : value)
    (edge_id : string) : option VcnsEdgeMonitorBinding :=
  List.find
    (fun b =>
       column_eqb (monitor_id b) id
       && String.eqb (monitor_edge_id b) edge_id)
    (monitor_bindings s).

(** Modelled from the spec: [delete] on the monitor table of the absent
    [vcns_db]. *)
Definition delete_vcns_edge_monitor_binding (id : value)
    (edge_id : string) (s : session) : session :=
  {| vip_bindings := vip_bindings s;
     pool_bindings := pool_bindings s;
     monitor_bindings :=
       List.filter
         (fun b =>
            negb (column_eqb (monitor_id b) id
                  && String.eqb (monitor_edge_id b) edge_id))
         (monitor_bindings s) |}.

End VcnsDb.

(** ** The management API of the edge appliance *)

Module Vcns.

(** The calls the driver makes on [self.vcns]. *)
Inductive call :=
| create_app_profile (edge_id : string) (app_profile : dict)
| create_vip (edge_id : string) (vip : dict)
| get_vip (edge_id vip_vseid : string)
| update_vip (edge_id vip_vseid : string) (vip : dict)
| delete_vip (edge_id vip_vseid : string)
| delete_app_profile (edge_id app_profileid : string)
| create_pool (edge_id : string) (pool : dict)
| get_pool (edge_id pool_vseid : string)
| update_pool (edge_id pool_vseid : string) (pool : dict)
| delete_pool (edge_id pool_vseid : string)
| create_health_monitor (edge_id : string) (monitor : dict)
| get_health_monitor (edge_id monitor_vseid : string)
| update_health_monitor (edge_id monitor_vseid : string) (monitor : dict)
| delete_health_monitor (edge_id monitor_vseid : string).

Abbreviation header := (gmap string string).

(** The appliance is a collaborator: what it answers to a call, a pair of
    response header and body or an exception, may depend on every call
    it has served before. *)
Definition api : Type := list call -> call -> result (header * value).

End Vcns.

(** ** [edge_loadbalancer_driver.py] *)

(** The names of [neutron.services.loadbalancer.constants] the driver
    builds its tables from; the module is not among the sources, so the
    driver is read for any value of them. *)
Class LbConstants := {
  LB_METHOD_ROUND_ROBIN : string;
  LB_METHOD_LEAST_CONNECTIONS : string;
  LB_METHOD_SOURCE_IP : string;
  PROTOCOL_TCP : string;
  PROTOCOL_HTTP : string;
  PROTOCOL_HTTPS : string
}.

Module EdgeLb.
Import VcnsDb.

(** A dictionary display [{k1: v1, k2: v2, k3: v3}] is filled from left
    to right: a later pair replaces an earlier one with the same key. *)
Definition BALANCE_MAP `{LbConstants} : gmap string string :=
  <[LB_METHOD_SOURCE_IP := "source"]>
    (<[LB_METHOD_LEAST_CONNECTIONS := "leastconn"]>
       (<[LB_METHOD_ROUND_ROBIN := "round-robin"]> ∅)).

Definition PROTOCOL_MAP `{LbConstants} : gmap string string :=
  <[PROTOCOL_HTTPS := "tcp"]>
    (<[PROTOCOL_HTTP := "http"]>
       (<[PROTOCOL_TCP := "tcp"]> ∅)).

(** The driver object: its only attribute is the appliance client. *)
Record EdgeLbDriver := { vcns : Vcns.api }.

(** What the driver can change: the database session of [context], the
    calls served by the appliance so far, and the log. *)
Record world := {
  session : VcnsDb.session;
  vcns_calls : list Vcns.call;
  log : list string
}.

Definition with_session (f : VcnsDb.session -> VcnsDb.session) (w : world)
    : world :=
  {| session := f (session w);
     vcns_calls := vcns_calls w;
     log := log w |}.

(** [LOG.exception(msg)] and [LOG.error(msg)]. *)
Definition LOG (msg : string) : M world unit :=
  modify (fun w =>
    {| session := session w;
       vcns_calls := vcns_calls w;
       log := log w ++ [msg] |}).

(** [self.vcns.<call>]: the appliance answers, and the call is served. *)
Definition invoke (self : EdgeLbDriver) (c : Vcns.call)
    : M world (Vcns.header * value) :=
  fun w =>
    (vcns self (vcns_calls w) c,
     {| session := session w;
        vcns_calls := vcns_calls w ++ [c];
        log := log w |}).

(** [try: body  except vcns_exc.VcnsApiException:
       with excutils.save_and_reraise_exception(): LOG.exception(msg)] *)
Definition logging_failure {A} (body : M world A) (msg : string)
    : M world A :=
  try_except body is_VcnsApiException
    (fun e => save_and_reraise_exception e (LOG msg)).

Definition _convert_lb_vip (edge_id : string) (vip : dict)
    (app_profileid : value) : M world dict :=
  let pool_id := get vip "pool_id" in
  poolid_map ← gets (fun w =>
    get_vcns_edge_pool_binding (session w) pool_id edge_id);
  pool_vseid ← lift
    (match poolid_map with
     | Some b => Ok (pool_vseid b)
     | None => Raise TypeError
     end);
  mret
    (<["applicationProfileId" := app_profileid]>
       (<["defaultPoolId" := VStr pool_vseid]>
          (<["port" := get vip "protocol_port"]>
             (<["protocol" := get vip "protocol"]>
                (<["ipAddress" := get vip "address"]>
                   (<["name" := get vip "name"]> ∅)))))).

Definition _restore_lb_vip (edge_id : string) (vip_vse : value)
    : M world dict :=
  default_pool ← lift (subscript vip_vse "defaultPoolId");
  pool_binding ← (fun w =>
    (get_vcns_edge_pool_binding_by_vseid (session w) edge_id default_pool,
     w));
  name ← lift (subscript vip_vse "name");
  address ← lift (subscript vip_vse "ipAddress");
  protocol ← lift (subscript vip_vse "protocol");
  port ← lift (subscript vip_vse "port");
  mret
    (<["pool_id" := pool_id pool_binding]>
       (<["protocol_port" := port]>
          (<["protocol" := protocol]>
             (<["address" := address]>
                (<["name" := name]> ∅))))).

(** The members of the loop [for member in members: ...append({...})]. *)
Fixpoint convert_members (members : list value) : result (list value) :=
  match members with
  | [] => Ok []
  | member :: rest =>
      match subscript member "address" with
      | Raise e => Raise e
      | Ok address =>
          match subscript member "protocol_port" with
          | Raise e => Raise e
          | Ok port =>
              match convert_members rest with
              | Raise e => Raise e
              | Ok l =>
                  Ok (VDict (<["port" := port]>
                               (<["ipAddress" := address]> ∅)) :: l)
              end
          end
      end
  end.

Definition _convert_lb_pool `{LbConstants} (edge_id : string) (pool : dict)
    (members : list value) : M world dict :=
  algorithm ← lift (table_get BALANCE_MAP (get pool "lb_method")
                      "round-robin");
  member ← lift (convert_members members);
  let vsepool (monitorId : list value) : dict :=
    <["monitorId" := VList monitorId]>
      (<["member" := VList member]>
         (<["algorithm" := VStr algorithm]>
            (<["name" := get pool "name"]> ∅))) in
  let monitors := get pool "health_monitors" in
  if negb (truthy monitors) then mret (vsepool [])
  else
    monitor0 ← lift (first_item monitors);
    monitorid_map ← gets (fun w =>
      get_vcns_edge_monitor_binding (session w) monitor0 edge_id);
    match monitorid_map with
    | Some b => mret (vsepool [VStr (monitor_vseid b)])
    | None => raise TypeError
    end.

Definition _restore_lb_pool (edge_id : string) (pool_vse : value)
    : M world dict :=
  name ← lift (subscript pool_vse "name");
  mret (<["name" := name]> ∅).

Definition _convert_lb_monitor `{LbConstants} (monitor : dict)
    : M world dict :=
  type ← lift (table_get PROTOCOL_MAP (get monitor "type") "http");
  mret
    (<["name" := get monitor "id"]>
       (<["maxRetries" := get monitor "max_retries"]>
          (<["timeout" := get monitor "timeout"]>
             (<["interval" := get monitor "delay"]>
                (<["type" := VStr type]> ∅))))).

Definition _restore_lb_monitor (edge_id : string) (monitor_vse : value)
    : M world dict :=
  delay ← lift (subscript monitor_vse "interval");
  timeout ← lift (subscript monitor_vse "timeout");
  max_retries ← lift (subscript monitor_vse "maxRetries");
  id ← lift (subscript monitor_vse "name");
  mret
    (<["id" := id]>
       (<["max_retries" := max_retries]>
          (<["timeout" := timeout]>
             (<["delay" := delay]> ∅)))).

Definition _convert_app_profile (name : value) (app_profile : value)
    : dict :=
  <["template" := VStr "HTTP"]>
    (<["sslPassthrough" := VBool false]>
       (<["serverSslEnabled" := VBool false]>
          (<["persistence" := VDict (<["method" := VStr "sourceip"]> ∅)]>
             (<["name" := name]>
                (<["insertXForwardedFor" := VBool false]> ∅))))).

Definition create_vip (self : EdgeLbDriver) (edge_id : string) (vip : dict)
    : M world unit :=
  name ← lift (getitem vip "name");
  let app_profile :=
    _convert_app_profile name (get vip "session_persistence") in
  '(header, response) ← logging_failure
    (invoke self (Vcns.create_app_profile edge_id app_profile))
    ("Failed to create app profile on edge: " +:+ edge_id);
  objuri ← lift (getitem header "location");
  let app_profileid := slice_from objuri (rfind objuri "/" + 1) in
  vip_new ← _convert_lb_vip edge_id vip (VStr app_profileid);
  '(header, response) ← logging_failure
    (invoke self (Vcns.create_vip edge_id vip_new))
    ("Failed to create vip on vshield edge: " +:+ edge_id);
  objuri ← lift (getitem header "location");
  let vip_vseid := slice_from objuri (rfind objuri "/" + 1) in
  id ← lift (getitem vip "id");
  modify (with_session (add_vcns_edge_vip_binding
    {| vip_id := id;
       vip_vseid := vip_vseid;
       vip_edge_id := edge_id;
       app_profileid := app_profileid |})).

(** The calls of a vip creation, in their order: the application profile,
    then the vip; a creation that fails stops on the way. *)
Definition profile_then_vip (sent : list Vcns.call) : Prop :=
  match sent with
  | [] => True
  | [Vcns.create_app_profile _ _] => True
  | [Vcns.create_app_profile _ _; Vcns.create_vip _ _] => True
  | _ => False
  end.

Definition get_vip (self : EdgeLbDriver) (id : string) : M world dict :=
  vip_binding ← (fun w =>
    (get_vcns_edge_vip_binding (session w) (VStr id), w));
  let edge_id := vip_edge_id vip_binding in
  let vip_vseid := vip_vseid vip_binding in
  response ← logging_failure
    ('(_, body) ← invoke self (Vcns.get_vip edge_id vip_vseid); mret body)
    "Failed to get vip on edge";
  _restore_lb_vip edge_id response.

Definition update_vip (self : EdgeLbDriver) (vip : dict) : M world unit :=
  id ← lift (getitem vip "id");
  vip_binding ← (fun w => (get_vcns_edge_vip_binding (session w) id, w));
  let edge_id := vip_edge_id vip_binding in
  let vip_vseid := vip_vseid vip_binding in
  let app_profileid := app_profileid vip_binding in
  vip_new ← _convert_lb_vip edge_id vip (VStr app_profileid);
  logging_failure
    (invoke self (Vcns.update_vip edge_id vip_vseid vip_new);; mret tt)
    ("Failed to update vip on edge: " +:+ edge_id).

Definition delete_vip (self : EdgeLbDriver) (id : string) : M world unit :=
  vip_binding ← (fun w =>
    (get_vcns_edge_vip_binding (session w) (VStr id), w));
  let edge_id := vip_edge_id vip_binding in
  let vip_vseid := vip_vseid vip_binding in
  let app_profileid := app_profileid vip_binding in
  logging_failure
    (invoke self (Vcns.delete_vip edge_id vip_vseid);;
     invoke self (Vcns.delete_app_profile edge_id app_profileid);;
     mret tt)
    ("Failed to delete vip on edge: " +:+ edge_id);;
  modify (with_session (delete_vcns_edge_vip_binding (VStr id))).

Definition create_pool `{LbConstants} (self : EdgeLbDriver)
    (edge_id : string) (pool : dict) (members : list value)
    : M world unit :=
  pool_new ← _convert_lb_pool edge_id pool members;
  header ← logging_failure
    ('(header, _) ← invoke self (Vcns.create_pool edge_id pool_new);
     mret header)
    "Failed to create pool";
  objuri ← lift (getitem header "location");
  let pool_vseid := slice_from objuri (rfind objuri "/" + 1) in
  id ← lift (getitem pool "id");
  modify (with_session (add_vcns_edge_pool_binding
    {| pool_id := id;
       pool_vseid := pool_vseid;
       pool_edge_id := edge_id |})).

Definition get_pool (self : EdgeLbDriver) (id : string) (edge_id : string)
    : M world dict :=
  pool_binding ← gets (fun w =>
    get_vcns_edge_pool_binding (session w) (VStr id) edge_id);
  match pool_binding with
  | None =>
      let msg := "pool_binding not found with id: " +:+ id
                 +:+ " edge_id: " +:+ edge_id in
      LOG msg;;
      raise (VcnsNotFound "router_service_binding" msg)
  | Some pool_binding =>
      let pool_vseid := pool_vseid pool_binding in
      response ← logging_failure
        ('(_, body) ← invoke self (Vcns.get_pool edge_id pool_vseid);
         mret body)
        "Failed to get pool on edge";
      _restore_lb_pool edge_id response
  end.

Definition update_pool `{LbConstants} (self : EdgeLbDriver)
    (edge_id : string) (pool : dict) (members : list value)
    : M world unit :=
  id ← lift (getitem pool "id");
  pool_binding ← gets (fun w =>
    get_vcns_edge_pool_binding (session w) id edge_id);
  pool_vseid ← lift
    (match pool_binding with
     | Some b => Ok (pool_vseid b)
     | None => Raise TypeError
     end);
  pool_new ← _convert_lb_pool edge_id pool members;
  logging_failure
    (invoke self (Vcns.update_pool edge_id pool_vseid pool_new);; mret tt)
    "Failed to update pool".

Definition delete_pool (self : EdgeLbDriver) (id : string)
    (edge_id : string) : M world unit :=
  pool_binding ← gets (fun w =>
    get_vcns_edge_pool_binding (session w) (VStr id) edge_id);
  pool_vseid ← lift
    (match pool_binding with
     | Some b => Ok (pool_vseid b)
     | None => Raise TypeError
     end);
  logging_failure
    (invoke self (Vcns.delete_pool edge_id pool_vseid);; mret tt)
    "Failed to delete pool";;
  modify (with_session (delete_vcns_edge_pool_binding (VStr id) edge_id)).

Definition create_health_monitor `{LbConstants} (self : EdgeLbDriver)
    (edge_id : string) (health_monitor : dict) : M world unit :=
  monitor_new ← _convert_lb_monitor health_monitor;
  header ← logging_failure
    ('(header, _) ←
       invoke self (Vcns.create_health_monitor edge_id monitor_new);
     mret header)
    ("Failed to create monitor on edge: " +:+ edge_id);
  objuri ← lift (getitem header "location");
  let monitor_vseid := slice_from objuri (rfind objuri "/" + 1) in
  id ← lift (getitem health_monitor "id");
  modify (with_session (add_vcns_edge_monitor_binding
    {| monitor_id := id;
       monitor_vseid := monitor_vseid;
       monitor_edge_id := edge_id |})).

(** [e.response] of an API exception. *)
Definition response_of (e : exn) : string :=
  match e with
  | VcnsApiException detail => detail
  | VcnsNotFound _ msg => msg
  | _ => ""
  end.

Definition get_health_monitor (self : EdgeLbDriver) (id : string)
    (edge_id : string) : M world dict :=
  monitor_binding ← gets (fun w =>
    get_vcns_edge_monitor_binding (session w) (VStr id) edge_id);
  match monitor_binding with
  | None =>
      let msg := "monitor_binding not found with id: " +:+ id
                 +:+ " edge_id: " +:+ edge_id in
      LOG msg;;
      raise (VcnsNotFound "router_service_binding" msg)
  | Some monitor_binding =>
      let monitor_vseid := monitor_vseid monitor_binding in
      response ← try_except
        ('(_, body) ←
           invoke self (Vcns.get_health_monitor edge_id monitor_vseid);
         mret body)
        is_VcnsApiException
        (fun e => save_and_reraise_exception e
           (LOG ("Failed to get monitor on edge: " +:+ response_of e)));
      _restore_lb_monitor edge_id response
  end.

Definition update_health_monitor `{LbConstants} (self : EdgeLbDriver)
    (edge_id : string) (old_health_monitor health_monitor : dict)
    : M world unit :=
  id ← lift (getitem old_health_monitor "id");
  monitor_binding ← gets (fun w =>
    get_vcns_edge_monitor_binding (session w) id edge_id);
  monitor_vseid ← lift
    (match monitor_binding with
     | Some b => Ok (monitor_vseid b)
     | None => Raise TypeError
     end);
  monitor_new ← _convert_lb_monitor health_monitor;
  logging_failure
    (invoke self
       (Vcns.update_health_monitor edge_id monitor_vseid monitor_new);;
     mret tt)
    ("Failed to update monitor on edge: " +:+ edge_id).

Definition delete_health_monitor (self : EdgeLbDriver) (id : string)
    (edge_id : string) : M world unit :=
  monitor_binding ← gets (fun w =>
    get_vcns_edge_monitor_binding (session w) (VStr id) edge_id);
  monitor_vseid ← lift
    (match monitor_binding with
     | Some b => Ok (monitor_vseid b)
     | None => Raise TypeError
     end);
  logging_failure
    (invoke self (Vcns.delete_health_monitor edge_id monitor_vseid);;
     mret tt)
    "Failed to delete monitor";;
  modify (with_session
    (delete_vcns_edge_monitor_binding (VStr id) edge_id)).

End EdgeLb.

(** ** [netscaler/plugin_driver.py]

    The driver and its callbacks are written against their collaborators
    (the service plugin, its core plugin, the scheduler, the RPC proxy), so
    they are functions of any implementation of these, over any state.
    The calls on [LOG] write nothing the driver reads and are left out. *)

Module NetScaler.

(** *** The objects of the platform *)

Record Subnet := { subnet_id : string; subnet_network_id : string }.

(** A network, by the two keys the driver reads in it; both are optional
    (['provider:network_type'] and ['provider:segmentation_id']). *)
Record Network := {
  provider_network_type : option value;
  provider_segmentation_id : option value
}.

(** [attributes.ATTR_NOT_SPECIFIED] is a sentinel object. *)
Inductive attr (A : Type) :=
| ATTR_NOT_SPECIFIED
| Specified (a : A).
Arguments ATTR_NOT_SPECIFIED {A}.
Arguments Specified {A} a.

(** [{'subnet_id': ..., 'ip_address': ...}], the address being an
    optional key. *)
Record FixedIp := {
  fixed_subnet_id : string;
  fixed_ip_address : option string
}.

(** The body of a port, as [create_port] takes it. *)
Record PortData := {
  tenant_id : string;
  name : string;
  port_network_id : string;
  mac_address : attr string;
  admin_state_up : bool;
  device_id : string;
  device_owner : string;
  fixed_ips : list FixedIp
}.

Record Port := { port_id : string; port_data : PortData }.

Record Pool := {
  pool_id : string;
  pool_tenant_id : string;
  pool_subnet_id : string
}.

Record Agent := { host : string }.

(** [filters={'key': [v1, ...], ...}] *)
Abbreviation filters := (gmap string (list string)).

(** *** The collaborators, as the driver calls them *)

(** [self.plugin._core_plugin]: the network provider. *)
Record CorePlugin (S : Type) := {
  get_subnet : string -> M S Subnet;
  get_network : string -> M S Network;
  get_port : string -> M S Port;
  get_ports : filters -> M S (list Port);
  create_port : PortData -> M S Port;
  update_port : string -> Port -> M S Port;
  delete_port : string -> M S unit
}.
Arguments get_subnet {S}.
Arguments get_network {S}.
Arguments get_port {S}.
Arguments get_ports {S}.
Arguments create_port {S}.
Arguments update_port {S}.
Arguments delete_port {S}.

(** [self.plugin]: the load-balancer service plugin. *)
Record LbPlugin (S : Type) := {
  _core_plugin : CorePlugin S;
  get_pools : filters -> M S (list Pool);
  _delete_db_pool : string -> M S unit;
  get_lbaas_agent_hosting_pool : string -> M S (option Agent);
  update_pool_stats : string -> value -> M S unit
}.
Arguments _core_plugin {S}.
Arguments get_pools {S}.
Arguments _delete_db_pool {S}.
Arguments get_lbaas_agent_hosting_pool {S}.
Arguments update_pool_stats {S}.

(** The messages [make_msg] builds for the pool methods. *)
Inductive message :=
| msg_create_pool (pool : Pool) (netinfo : dict)
| msg_update_pool (old_pool pool : Pool) (old_netinfo netinfo : dict)
| msg_delete_pool (pool : Pool) (netinfo : dict).

(** [LoadBalancerAgentApi]: an RPC proxy with its topic and its [cast]. *)
Record LoadBalancerAgentApi (S : Type) := {
  topic : string;
  cast : message -> string -> M S unit
}.
Arguments topic {S}.
Arguments cast {S}.

Record NetScalerPluginDriver (S : Type) := {
  plugin : LbPlugin S;
  agent_rpc : LoadBalancerAgentApi S;
  pool_scheduler : Pool -> M S (option Agent)
}.
Arguments plugin {S}.
Arguments agent_rpc {S}.
Arguments pool_scheduler {S}.

(** What the Python run time and [neutron.plugins.common.constants]
    supply to [plug_vip_port]. *)
Class Runtime := {
  LOADBALANCER : string;
  uuid5_NAMESPACE_DNS : string -> string
}.

(** *** [LoadBalancerCallbacks] *)

Section Callbacks.
Context {S : Type} `{Runtime} (self_plugin : LbPlugin S).

Definition set_plugged (p : Port) (up : bool) (owner id : string)
    : Port :=
  {| port_id := port_id p;
     port_data :=
       {| tenant_id := tenant_id (port_data p);
          name := name (port_data p);
          port_network_id := port_network_id (port_data p);
          mac_address := mac_address (port_data p);
          admin_state_up := up;
          device_id := id;
          device_owner := owner;
          fixed_ips := fixed_ips (port_data p) |} |}.

(** [if not port_id]: the default [None] and the empty string. *)
Definition no_port_id (port_id : option string) : bool :=
  match port_id with
  | None => true
  | Some s => String.eqb s ""
  end.

Definition plug_vip_port (port_id : option string) (host : option string)
    : M S unit :=
  if no_port_id port_id then mret tt
  else
    let port_id := default "" port_id in
    try_except
      (port ← get_port (_core_plugin self_plugin) port_id;
       mret (Some port))
      is_PortNotFound
      (fun _ => mret None)
    ≫= fun found =>
      match found with
      | None => mret tt
      | Some port =>
          let port :=
            set_plugged port true ("neutron:" +:+ LOADBALANCER)
              (uuid5_NAMESPACE_DNS (str host)) in
          update_port (_core_plugin self_plugin) port_id port;;
          mret tt
      end.

Definition unplug_vip_port (port_id : option string)
    (host : option string) : M S unit :=
  if no_port_id port_id then mret tt
  else
    let port_id := default "" port_id in
    try_except
      (port ← get_port (_core_plugin self_plugin) port_id;
       mret (Some port))
      is_PortNotFound
      (fun _ => mret None)
    ≫= fun found =>
      match found with
      | None => mret tt
      | Some port =>
          let port := set_plugged port false "" "" in
          try_except
            (update_port (_core_plugin self_plugin) port_id port;;
             mret tt)
            is_PortNotFound
            (fun _ => mret tt)
      end.

Definition callback_update_pool_stats (pool_id : string) (stats : value)
    : M S unit :=
  update_pool_stats self_plugin pool_id stats.

End Callbacks.

(** *** [LoadBalancerAgentApi] *)

Section AgentApi.
Context {S : Type} (self : LoadBalancerAgentApi S).

(** ['%s.%s' % (self.topic, host)] *)
Definition topic_of (host : string) : string :=
  topic self +:+ "." +:+ host.

Definition agent_create_pool (pool : Pool) (netinfo : dict)
    (host : string) : M S unit :=
  cast self (msg_create_pool pool netinfo) (topic_of host).

Definition agent_update_pool (old_pool pool : Pool)
    (old_netinfo netinfo : dict) (host : string) : M S unit :=
  cast self (msg_update_pool old_pool pool old_netinfo netinfo)
    (topic_of host).

Definition agent_delete_pool (pool : Pool) (netinfo : dict)
    (host : string) : M S unit :=
  cast self (msg_delete_pool pool netinfo) (topic_of host).

End AgentApi.

(** *** [NetScalerPluginDriver] *)

Section Driver.
Context {S : Type} (self : NetScalerPluginDriver S).

Let core := _core_plugin (plugin self).

(** [if key in network: network_info[target] = network[key]] *)
Definition copy_if_present (o : option value) (target : string)
    (network_info : dict) : dict :=
  match o with
  | Some v => <[target := v]> network_info
  | None => network_info
  end.

Definition _get_pool_network_info (pool : Pool) : M S dict :=
  let subnet_id := pool_subnet_id pool in
  subnet ← get_subnet core subnet_id;
  let network_id := subnet_network_id subnet in
  network ← get_network core network_id;
  let network_info : dict :=
    <["subnet_id" := VStr subnet_id]>
      (<["network_id" := VStr network_id]> ∅) in
  let network_info :=
    copy_if_present (provider_network_type network) "network_type"
      network_info in
  let network_info :=
    copy_if_present (provider_segmentation_id network) "segmentation_id"
      network_info in
  mret network_info.

Definition _get_pools_on_subnet (tenant_id subnet_id : string)
    : M S (list Pool) :=
  let filter : filters :=
    <["tenant_id" := [tenant_id]]> (<["subnet_id" := [subnet_id]]> ∅) in
  get_pools (plugin self) filter.

Definition snatport_name (subnet_id : string) : string :=
  "_lb-snatport-" +:+ subnet_id.

Definition _get_snatport_for_subnet (tenant_id subnet_id : string)
    : M S (option Port) :=
  let name := snatport_name subnet_id in
  subnet ← get_subnet core subnet_id;
  let network_id := subnet_network_id subnet in
  let filter : filters :=
    <["name" := [name]]>
      (<["tenant_id" := [tenant_id]]>
         (<["network_id" := [network_id]]> ∅)) in
  ports ← get_ports core filter;
  match ports with
  | port :: _ => mret (Some port)
  | [] => mret None
  end.

(** [ip_address and ip_address != attributes.ATTR_NOT_SPECIFIED] *)
Definition requested_address (ip_address : option (attr string))
    : option string :=
  match ip_address with
  | Some (Specified a) => if String.eqb a "" then None else Some a
  | _ => None
  end.

Definition _create_snatport_for_subnet (tenant_id subnet_id : string)
    (ip_address : option (attr string)) : M S Port :=
  subnet ← get_subnet core subnet_id;
  let fixed_ip :=
    {| fixed_subnet_id := NetScaler.subnet_id subnet;
       fixed_ip_address := requested_address ip_address |} in
  let port_data :=
    {| tenant_id := tenant_id;
       name := snatport_name subnet_id;
       port_network_id := subnet_network_id subnet;
       mac_address := ATTR_NOT_SPECIFIED;
       admin_state_up := false;
       device_id := "";
       device_owner := "";
       fixed_ips := [fixed_ip] |} in
  create_port core port_data.

Definition _remove_snatport_for_subnet (tenant_id subnet_id : string)
    : M S unit :=
  port ← _get_snatport_for_subnet tenant_id subnet_id;
  match port with
  | Some port => delete_port core (port_id port)
  | None => mret tt
  end.

(** [port['fixed_ips'][0]['ip_address']] *)
Definition first_fixed_ip_address (port : Port) : result string :=
  match fixed_ips (port_data port) with
  | [] => Raise IndexError
  | ip :: _ =>
      match fixed_ip_address ip with
      | Some a => Ok a
      | None => Raise (KeyError "ip_address")
      end
  end.

(** The method writes two keys into the caller's [network_info]; the
    dictionary it leaves is returned here. *)
Definition _create_snatport_for_subnet_if_not_exists
    (tenant_id subnet_id : string) (network_info : dict) : M S dict :=
  port ← _get_snatport_for_subnet tenant_id subnet_id;
  port ← match port with
         | Some port => mret port
         | None => _create_snatport_for_subnet tenant_id subnet_id None
         end;
  let network_info := <["port_id" := VStr (port_id port)]> network_info in
  snat_ip ← lift (first_fixed_ip_address port);
  mret (<["snat_ip" := VStr snat_ip]> network_info).

Definition _remove_snatport_for_subnet_if_not_used
    (tenant_id subnet_id : string) : M S unit :=
  pools ← _get_pools_on_subnet tenant_id subnet_id;
  match pools with
  | [] => _remove_snatport_for_subnet tenant_id subnet_id
  | _ :: _ => mret tt
  end.

Definition get_pool_agent (pool_id : string) : M S Agent :=
  agent ← get_lbaas_agent_hosting_pool (plugin self) pool_id;
  match agent with
  | None => raise (NoActiveLbaasAgent pool_id)
  | Some agent => mret agent
  end.

Definition create_pool (pool : Pool) : M S unit :=
  agent ← pool_scheduler self pool;
  match agent with
  | None => raise (NoEligibleLbaasAgent (pool_id pool))
  | Some agent =>
      network_info ← _get_pool_network_info pool;
      network_info ← _create_snatport_for_subnet_if_not_exists
        (pool_tenant_id pool) (pool_subnet_id pool) network_info;
      agent_create_pool (agent_rpc self) pool network_info (host agent)
  end.

Definition update_pool (old_pool pool : Pool) : M S unit :=
  agent ← get_pool_agent (pool_id pool);
  old_network_info ← _get_pool_network_info old_pool;
  network_info ← _get_pool_network_info pool;
  network_info ←
    (if negb (String.eqb (pool_subnet_id pool) (pool_subnet_id old_pool))
     then
       network_info ← _create_snatport_for_subnet_if_not_exists
         (pool_tenant_id pool) (pool_subnet_id pool) network_info;
       _remove_snatport_for_subnet_if_not_used
         (pool_tenant_id old_pool) (pool_subnet_id old_pool);;
       mret network_info
     else mret network_info);
  agent_update_pool (agent_rpc self) old_pool pool old_network_info
    network_info (host agent).

Definition delete_pool (pool : Pool) : M S unit :=
  agent ← get_pool_agent (pool_id pool);
  network_info ← _get_pool_network_info pool;
  agent_delete_pool (agent_rpc self) pool network_info (host agent);;
  _delete_db_pool (plugin self) (pool_id pool);;
  _remove_snatport_for_subnet_if_not_used
    (pool_tenant_id pool) (pool_subnet_id pool).

End Driver.

End NetScaler.


(** ** [netscaler/rest_client.py]

    The client keeps no state between two operations: an operation is a
    function of the client, of the connection and of its arguments.  The
    calls on [LOG] are left out. *)

Module RestClient.

(** What [httplib] hands back: [response.status], [response.read()] and
    [response.getheaders()]. *)
Record HTTPResponse := {
  status : Z;
  body : string;
  headers : list (string * string)
}.

Record Request := {
  method : string;
  url_path : string;
  request_body : string;
  request_headers : gmap string (option string)
}.

(** The connection is a collaborator: [connection.request(...)] may raise,
    and so may [connection.getresponse()]. *)
Record Http := {
  send : Request -> result unit;
  getresponse : Request -> result HTTPResponse
}.

(** [neutron...netscaler.serialization.Serializer] is not among the
    sources; the client is read for any serializer. *)
Class Serializer := {
  serialize : string -> value -> result string;
  deserialize : string -> result value
}.

(** The attributes [__init__] leaves on the client. *)
Record RESTClient := {
  uri : string;
  host : string;
  protocol : string;
  service_path : string;
  auth : option string;
  client_headers : gmap string (option string);
  is_proxy : bool
}.

(** The dictionary [_get_response_dict] builds; the key ['dict'] is
    optional and holds the parsed body, or the raw body. *)
Record response_dict := {
  rd_status : Z;
  rd_body : string;
  rd_headers : list (string * string);
  rd_dict : option value
}.

Definition BAD_REQUEST : Z := 400.

Definition _get_connection (self : RESTClient) : result unit :=
  if String.eqb (protocol self) "http" then Ok tt
  else if String.eqb (protocol self) "https" then Ok tt
  else Raise ServiceUnavailable.

Definition _is_valid_response (response_status : Z) : bool :=
  if response_status <? BAD_REQUEST then true else false.

(** [serializer] is [None] or the serializer object. *)
Definition _get_response_dict `{Serializer} (response : HTTPResponse)
    (serializer : bool) : result response_dict :=
  let response_status := status response in
  let response_body := body response in
  let mk d :=
    {| rd_status := response_status;
       rd_body := response_body;
       rd_headers := headers response;
       rd_dict := d |} in
  if _is_valid_response response_status then
    if 0 <? Z.of_nat (String.length response_body) then
      if serializer then
        match deserialize response_body with
        | Ok parsed_body => Ok (mk (Some parsed_body))
        | Raise e => Raise e
        end
      else Ok (mk (Some (VStr response_body)))
    else Ok (mk None)
  else Ok (mk None).

(** A computation without state: [bind] on results. *)
Definition and_then {A B} (r : result A) (k : A -> result B) : result B :=
  match r with
  | Ok a => k a
  | Raise e => Raise e
  end.

(** [try: body  except (LookupError, ImportError): raise
    q_exc.ServiceUnavailable()] *)
Definition guarded {A} (body : result A) : result A :=
  match body with
  | Raise e =>
      if is_LookupError_or_ImportError e then Raise ServiceUnavailable
      else Raise e
  | r => r
  end.

(** The request headers: the three fixed ones, then [self.headers]. *)
Definition build_headers (self : RESTClient) : gmap string (option string) :=
  client_headers self ∪
    (<["Authorization" := auth self]>
       (<["Accept" := Some "application/xml"]>
          (<["Content-Type" := Some "application/xml"]> ∅))).

(** [isinstance(object_data, str)] picks the body; otherwise a true
    [object_data] asks for a serializer.  The first component of the pair is
    the body when one is bound before serialization, the second tells
    whether a serializer was made. *)
Definition choose_body (object_data : value) : option string * bool :=
  match object_data with
  | VStr s => (Some s, false)
  | _ => (None, truthy object_data)
  end.

(** The part that [create_resource], [update_resource] and
    [remove_resource] share after the response dictionary is built. *)
Definition check_status (self : RESTClient) (resp_dict : response_dict)
    : result (Z * response_dict) :=
  let response_status := rd_status resp_dict in
  if is_proxy self then Ok (response_status, resp_dict)
  else if response_status =? 401 then Raise ServiceUnavailable
  else if negb (_is_valid_response response_status)
       then Raise ServiceUnavailable
  else Ok (response_status, resp_dict).

Definition create_resource `{Serializer} (self : RESTClient) (http : Http)
    (resource_path object_name : string) (object_data : value)
    : result (Z * response_dict) :=
  let method := "POST" in
  let headers := build_headers self in
  let '(bound, serializer) := choose_body object_data in
  and_then
    (if serializer then serialize object_name object_data
     else Ok (default "" bound))
    (fun request_body =>
       let url_path := service_path self +:+ "/" +:+ resource_path in
       let req :=
         {| method := method; url_path := url_path;
            request_body := request_body; request_headers := headers |} in
       guarded
         (and_then (_get_connection self) (fun _ =>
          and_then (send http req) (fun _ =>
          and_then (getresponse http req) (fun response =>
          and_then (_get_response_dict response serializer) (fun resp_dict =>
          check_status self resp_dict)))))).

Definition retrieve_resource `{Serializer} (self : RESTClient) (http : Http)
    (resource_path : string) (parse_response : bool)
    : result (Z * response_dict) :=
  let method := "GET" in
  let headers := build_headers self in
  let url_path := service_path self +:+ "/" +:+ resource_path in
  let req :=
    {| method := method; url_path := url_path;
       request_body := ""; request_headers := headers |} in
  and_then (_get_connection self) (fun _ =>
  and_then (send http req) (fun _ =>
  let serializer := parse_response in
  and_then
    (guarded
       (and_then (getresponse http req) (fun response =>
        and_then (_get_response_dict response serializer) (fun resp_dict =>
        let response_status := rd_status resp_dict in
        if is_proxy self then Ok (Some (response_status, resp_dict), resp_dict)
        else if response_status =? 401 then Raise ServiceUnavailable
        else Ok (None, resp_dict)))))
    (fun '(returned, resp_dict) =>
       match returned with
       | Some r => Ok r
       | None => Ok (rd_status resp_dict, resp_dict)
       end))).

Definition update_resource `{Serializer} (self : RESTClient) (http : Http)
    (resource_path object_name : string) (object_data : value)
    : result (Z * response_dict) :=
  let method := "PUT" in
  let headers := build_headers self in
  let '(bound, serializer) := choose_body object_data in
  and_then
    (if serializer then serialize object_name object_data
     else match bound with
          | Some s => Ok s
          | None => Raise (OtherError "UnboundLocalError")
          end)
    (fun request_body =>
       let url_path := service_path self +:+ "/" +:+ resource_path in
       let req :=
         {| method := method; url_path := url_path;
            request_body := request_body; request_headers := headers |} in
       guarded
         (and_then (_get_connection self) (fun _ =>
          and_then (send http req) (fun _ =>
          and_then (getresponse http req) (fun response =>
          and_then (_get_response_dict response serializer) (fun resp_dict =>
          check_status self resp_dict)))))).

Definition remove_resource `{Serializer} (self : RESTClient) (http : Http)
    (resource_path : string) (parse_response : bool)
    : result (Z * response_dict) :=
  let method := "DELETE" in
  let headers := build_headers self in
  let url_path := service_path self +:+ "/" +:+ resource_path in
  let req :=
    {| method := method; url_path := url_path;
       request_body := ""; request_headers := headers |} in
  and_then (_get_connection self) (fun _ =>
  and_then (send http req) (fun _ =>
  and_then (getresponse http req) (fun response =>
  let serializer := parse_response in
  and_then (_get_response_dict response serializer) (fun resp_dict =>
  check_status self resp_dict)))).

End RestClient.


(** ** The platform around the agent driver *)

Module Platform.
Import NetScaler.

(** Every call the driver makes on a collaborator, in the order made. *)
Inductive event :=
| ev_get_subnet (id : string)
| ev_get_network (id : string)
| ev_get_port (id : string)
| ev_get_ports (f : filters)
| ev_create_port (data : PortData)
| ev_update_port (id : string) (port : Port)
| ev_delete_port (id : string)
| ev_get_pools (f : filters)
| ev_delete_db_pool (id : string)
| ev_get_lbaas_agent_hosting_pool (pool_id : string)
| ev_update_pool_stats (pool_id : string)
| ev_schedule (pool : Pool)
| ev_cast (topic : string) (msg : message).

(** The state of the platform: the subnets with the network of each, the
    networks, the ports, the stored pools, the agents that can take a pool,
    the agent that hosts each pool, and the calls served so far. *)
Record world := {
  subnets : gmap string string;
  networks : gmap string Network;
  ports : list Port;
  pools : list Pool;
  agents : list Agent;
  hosting : gmap string Agent;
  events : list event
}.

Definition record (e : event) (w : world) : world :=
  {| subnets := subnets w; networks := networks w; ports := ports w;
     pools := pools w; agents := agents w; hosting := hosting w;
     events := events w ++ [e] |}.

Definition set_ports (l : list Port) (w : world) : world :=
  {| subnets := subnets w; networks := networks w; ports := l;
     pools := pools w; agents := agents w; hosting := hosting w;
     events := events w |}.

Definition set_pools (l : list Pool) (w : world) : world :=
  {| subnets := subnets w; networks := networks w; ports := ports w;
     pools := l; agents := agents w; hosting := hosting w;
     events := events w |}.

Definition set_hosting (h : gmap string Agent) (w : world) : world :=
  {| subnets := subnets w; networks := networks w; ports := ports w;
     pools := pools w; agents := agents w; hosting := h;
     events := events w |}.

(** Modelled from the spec: [listPorts(filter)] of the absent network
    provider reads these attributes of a port. *)
Definition port_attr (p : Port) (key : string) : option string :=
  if String.eqb key "id" then Some (port_id p)
  else if String.eqb key "name" then Some (name (port_data p))
  else if String.eqb key "tenant_id" then Some (tenant_id (port_data p))
  else if String.eqb key "network_id"
       then Some (port_network_id (port_data p))
  else if String.eqb key "device_id" then Some (device_id (port_data p))
  else if String.eqb key "device_owner"
       then Some (device_owner (port_data p))
  else None.

(** Modelled from the spec: the pool store of the absent service plugin
    reads these attributes of a pool in a filter. *)
Definition pool_attr (p : Pool) (key : string) : option string :=
  if String.eqb key "id" then Some (pool_id p)
  else if String.eqb key "tenant_id" then Some (pool_tenant_id p)
  else if String.eqb key "subnet_id" then Some (pool_subnet_id p)
  else None.

(** Modelled from the spec: the filters of the absent plugins.  An
    object passes a filter when, for every key of the filter, its attribute
    is one of the values listed. *)
Definition passes {A} (attr_of : A -> string -> option string) (f : filters)
    (x : A) : Prop :=
  map_Forall
    (fun key allowed =>
       match attr_of x key with
       | Some v => v ∈ allowed
       | None => False
       end) f.

#[global] Instance passes_dec {A} attr_of f (x : A)
  : Decision (passes attr_of f x).
Proof.
  unfold passes. apply map_Forall_dec. intros key allowed.
  destruct (attr_of x key); apply _.
Defined.

(** The addresses held by the ports. *)
Definition addresses_in_use (l : list Port) : list string :=
  p ← l; ip ← fixed_ips (port_data p); option_list (fixed_ip_address ip).

(** Modelled from the spec: the [NetworkProvider] capability
    ([getSubnet], [getNetwork], [getPort], [listPorts], [createPort],
    [updatePort], [deletePort]) stands for the core plugin, which is
    not among the sources.  [getPort], [updatePort] fail with
    [PortNotFound] for a port that is gone; a created port gets an
    identifier no port has, and an address not in use where none was
    requested. *)
Definition core_plugin : CorePlugin world := {|
  get_subnet id := fun w =>
    (match subnets w !! id with
     | Some net => Ok {| subnet_id := id; subnet_network_id := net |}
     | None => Raise (SubnetNotFound id)
     end, record (ev_get_subnet id) w);
  get_network id := fun w =>
    (match networks w !! id with
     | Some n => Ok n
     | None => Raise (NetworkNotFound id)
     end, record (ev_get_network id) w);
  get_port id := fun w =>
    (match List.find (fun p => String.eqb (port_id p) id) (ports w) with
     | Some p => Ok p
     | None => Raise (PortNotFound id)
     end, record (ev_get_port id) w);
  get_ports f := fun w =>
    (Ok (filter (passes port_attr f) (ports w)), record (ev_get_ports f) w);
  create_port data := fun w =>
    let id := fresh (port_id <$> ports w) in
    let address := fresh (addresses_in_use (ports w)) in
    let allocate ip :=
      {| fixed_subnet_id := fixed_subnet_id ip;
         fixed_ip_address :=
           Some (default address (fixed_ip_address ip)) |} in
    let port :=
      {| port_id := id;
         port_data :=
           {| tenant_id := tenant_id data;
              name := name data;
              port_network_id := port_network_id data;
              mac_address := mac_address data;
              admin_state_up := admin_state_up data;
              device_id := device_id data;
              device_owner := device_owner data;
              fixed_ips := allocate <$> fixed_ips data |} |} in
    (Ok port, record (ev_create_port data) (set_ports (ports w ++ [port]) w));
  update_port id port := fun w =>
    if decide (id ∈ port_id <$> ports w) then
      let port := {| port_id := id; port_data := port_data port |} in
      (Ok port,
       record (ev_update_port id port)
         (set_ports
            ((fun p => if decide (port_id p = id) then port else p)
               <$> ports w) w))
    else (Raise (PortNotFound id), record (ev_update_port id port) w);
  delete_port id := fun w =>
    if decide (id ∈ port_id <$> ports w) then
      (Ok tt,
       record (ev_delete_port id)
         (set_ports (filter (fun p => port_id p ≠ id) (ports w)) w))
    else (Raise (PortNotFound id), record (ev_delete_port id) w)
|}.

(** Modelled from the spec: the platform's load-balancer service owns the
    [Pool] entities ("recomputes the set of Pools currently on (tenant,
    subnet)", "remove the logical object's own database record") and the
    assignment of pools to agents; the service plugin is not among the
    sources. *)
Definition lb_plugin : LbPlugin world := {|
  _core_plugin := core_plugin;
  get_pools f := fun w =>
    (Ok (filter (passes pool_attr f) (pools w)), record (ev_get_pools f) w);
  _delete_db_pool id := fun w =>
    (Ok tt,
     record (ev_delete_db_pool id)
       (set_pools (filter (fun p => pool_id p ≠ id) (pools w)) w));
  get_lbaas_agent_hosting_pool id := fun w =>
    (Ok (hosting w !! id), record (ev_get_lbaas_agent_hosting_pool id) w);
  update_pool_stats id stats := fun w =>
    (Ok tt, record (ev_update_pool_stats id) w)
|}.

(** Modelled from the spec: [PoolScheduler.schedule(pool) -> Agent | None]
    of the absent scheduler: the first agent that can take the pool, which
    then hosts it, or [None] when there is none. *)
Definition schedule (pool : Pool) : M world (option Agent) :=
  fun w =>
    match agents w with
    | [] => (Ok None, record (ev_schedule pool) w)
    | agent :: _ =>
        (Ok (Some agent),
         record (ev_schedule pool)
           (set_hosting (<[pool_id pool := agent]> (hosting w)) w))
    end.

(** Modelled from the spec: [Messenger.cast], "fire-and-forget, no return
    value". *)
Definition messenger : LoadBalancerAgentApi world := {|
  topic := "lbaas_netscaler_agent";
  cast msg topic := fun w => (Ok tt, record (ev_cast topic msg) w)
|}.

(** The driver [__init__] builds, on this platform. *)
Definition driver : NetScalerPluginDriver world := {|
  plugin := lb_plugin;
  agent_rpc := messenger;
  pool_scheduler := schedule
|}.

(** Modelled from the spec: "the platform's load-balancer service calls
    the driver's [...] entry points"; the service, which is not among the
    sources, stores a new pool under an identifier no pool has and hands
    it to the driver, and hands the stored pool to the driver to delete
    it. *)
Definition service_create_pool (pool : Pool) : M world unit :=
  stored ← gets pools;
  if decide (pool_id pool ∈ pool_id <$> stored)
  then raise (OtherError "DBDuplicateEntry")
  else
    modify (fun w => set_pools (pools w ++ [pool]) w);;
    create_pool driver pool.

(** Modelled from the spec: the absent service hands the stored pool to
    the driver to delete it, and fails on an identifier it does not
    know. *)
Definition service_delete_pool (id : string) : M world unit :=
  stored ← gets pools;
  match List.find (fun p => String.eqb (pool_id p) id) stored with
  | None => raise (OtherError "PoolNotFound")
  | Some pool => delete_pool driver pool
  end.

(** A sequence of pool operations of the service. *)
Inductive operation :=
| CreatePool (pool : Pool)
| DeletePool (id : string).

Definition run_operation (op : operation) : M world unit :=
  match op with
  | CreatePool pool => service_create_pool pool
  | DeletePool id => service_delete_pool id
  end.

Fixpoint run (ops : list operation) : M world unit :=
  match ops with
  | [] => mret tt
  | op :: rest => run_operation op;; run rest
  end.

(** The world after further calls. *)
Definition emit (evs : list event) (w : world) : world :=
  {| subnets := subnets w; networks := networks w; ports := ports w;
     pools := pools w; agents := agents w; hosting := hosting w;
     events := events w ++ evs |}.

(** The filters of [_get_snatport_for_subnet] and
    [_get_pools_on_subnet]. *)
Definition snat_filter (network tenant subnet : string) : filters :=
  <["name" := [snatport_name subnet]]>
    (<["tenant_id" := [tenant]]> (<["network_id" := [network]]> ∅)).

Definition pool_filter (tenant subnet : string) : filters :=
  <["tenant_id" := [tenant]]> (<["subnet_id" := [subnet]]> ∅).

(** The port [create_port] makes of the body of a SNAT port, the body
    itself, and what the two filters let through. *)
Definition new_snat_port (network tenant subnet : string) (w : world)
    : Port :=
  {| port_id := fresh (port_id <$> ports w);
     port_data :=
       {| tenant_id := tenant;
          name := snatport_name subnet;
          port_network_id := network;
          mac_address := ATTR_NOT_SPECIFIED;
          admin_state_up := false;
          device_id := "";
          device_owner := "";
          fixed_ips :=
            [{| fixed_subnet_id := subnet;
                fixed_ip_address :=
                  Some (fresh (addresses_in_use (ports w))) |}] |} |}.

Definition snat_port_data (network tenant subnet : string) : PortData :=
  {| tenant_id := tenant;
     name := snatport_name subnet;
     port_network_id := network;
     mac_address := ATTR_NOT_SPECIFIED;
     admin_state_up := false;
     device_id := "";
     device_owner := "";
     fixed_ips :=
       [{| fixed_subnet_id := subnet; fixed_ip_address := None |}] |}.

Definition snat_ports (network tenant subnet : string) (w : world)
    : list Port :=
  filter (passes port_attr (snat_filter network tenant subnet)) (ports w).

Definition pools_on (tenant subnet : string) (w : world) : list Pool :=
  filter (passes pool_attr (pool_filter tenant subnet)) (pools w).





(** The two sides of the invariant. *)
Definition snat_port_exists (w : world) (tenant subnet : string) : Prop :=
  ∃ p, p ∈ ports w
       ∧ name (port_data p) = snatport_name subnet
       ∧ tenant_id (port_data p) = tenant.

Definition pool_references (w : world) (tenant subnet : string) : Prop :=
  ∃ p, p ∈ pools w ∧ pool_tenant_id p = tenant ∧ pool_subnet_id p = subnet.

(** A platform in order: ports and pools have identifiers of their own,
    every SNAT port sits on the network of its subnet and serves a stored
    pool, every pool has its SNAT port, and no tenant has two SNAT ports on
    a subnet. *)
Record consistent (w : world) : Prop := {
  port_ids_unique : NoDup (port_id <$> ports w);
  pool_ids_unique : NoDup (pool_id <$> pools w);
  snat_port_placed : ∀ p subnet,
    p ∈ ports w → name (port_data p) = snatport_name subnet →
    subnets w !! subnet = Some (port_network_id (port_data p))
    ∧ pool_references w (tenant_id (port_data p)) subnet;
  pool_served : ∀ p,
    p ∈ pools w → snat_port_exists w (pool_tenant_id p) (pool_subnet_id p);
  snat_port_unique : ∀ p q,
    p ∈ ports w → q ∈ ports w →
    name (port_data p) = name (port_data q) →
    tenant_id (port_data p) = tenant_id (port_data q) →
    (∃ subnet, name (port_data p) = snatport_name subnet) →
    p = q
}.

End Platform.


(** ** Concrete objects *)

Module Examples.
Import VcnsDb.

(** Modelled from the spec: the values of the enumerations of the data
    model, standing for the absent constants module. *)
Definition constants : LbConstants := {|
  LB_METHOD_ROUND_ROBIN := "round-robin";
  LB_METHOD_LEAST_CONNECTIONS := "least-connections";
  LB_METHOD_SOURCE_IP := "source-ip";
  PROTOCOL_TCP := "tcp";
  PROTOCOL_HTTP := "http";
  PROTOCOL_HTTPS := "https"
|}.

Definition https_monitor : dict :=
  <["id" := VStr "M"]>
    (<["type" := VStr "https"]>
       (<["delay" := VInt 5]>
          (<["timeout" := VInt 3]> (<["max_retries" := VInt 2]> ∅)))).

Definition vip : dict :=
  <["id" := VStr "V"]>
    (<["name" := VStr "web"]>
       (<["address" := VStr "10.0.0.5"]>
          (<["protocol" := VStr "HTTP"]>
             (<["protocol_port" := VInt 80]>
                (<["pool_id" := VStr "P"]> ∅))))).

Definition pool : dict :=
  <["id" := VStr "Q"]>
    (<["name" := VStr "web-pool"]>
       (<["lb_method" := VStr "round-robin"]> ∅)).

Definition pool_binding : VcnsEdgePoolBinding :=
  {| pool_id := VStr "P"; pool_vseid := "pool-1"; pool_edge_id := "edge-1" |}.

Definition vip_binding : VcnsEdgeVipBinding :=
  {| vip_id := VStr "W";
     vip_vseid := "virtualServer-7";
     vip_edge_id := "edge-1";
     app_profileid := "applicationProfile-7" |}.

(** An edge on which the pool [P] and the vip [W] are bound. *)
Definition edge_world : EdgeLb.world :=
  {| EdgeLb.session :=
       {| vip_bindings := [vip_binding];
          pool_bindings := [pool_binding];
          monitor_bindings := [] |};
     EdgeLb.vcns_calls := [];
     EdgeLb.log := [] |}.

(** An appliance that numbers what it creates and accepts every call. *)
Definition appliance : Vcns.api :=
  fun served c =>
    let location (kind : string) : Vcns.header :=
      <["location" :=
          "/api/4.0/edges/edge-1/loadbalancer/config/" +:+ kind +:+ "-1"]> ∅ in
    match c with
    | Vcns.create_app_profile _ _ =>
        Ok (location "applicationprofiles/applicationProfile", VNone)
    | Vcns.create_vip _ _ =>
        Ok (location "virtualservers/virtualServer", VNone)
    | Vcns.create_pool _ _ => Ok (location "pools/pool", VNone)
    | Vcns.create_health_monitor _ _ =>
        Ok (location "monitors/monitor", VNone)
    | _ => Ok (∅, VNone)
    end.

(** An appliance that accepts the deletion of a vip and refuses the
    deletion of an application profile. *)
Definition refusing_appliance : Vcns.api :=
  fun served c =>
    match c with
    | Vcns.delete_app_profile _ _ =>
        Raise (VcnsApiException "profile in use")
    | _ => appliance served c
    end.

Definition edge_driver : EdgeLb.EdgeLbDriver := {| EdgeLb.vcns := appliance |}.

Definition refusing_edge_driver : EdgeLb.EdgeLbDriver :=
  {| EdgeLb.vcns := refusing_appliance |}.

(** A serializer that keeps the text it is given. *)
Definition plain_serializer : RestClient.Serializer := {|
  RestClient.serialize := fun object_name object_data => Ok object_name;
  RestClient.deserialize := fun text => Ok (VStr text)
|}.

Definition rest_client (proxy : bool) : RestClient.RESTClient :=
  {| RestClient.uri := "https://ns.example/api";
     RestClient.host := "ns.example";
     RestClient.protocol := "https";
     RestClient.service_path := "/api";
     RestClient.auth := Some "Basic dXNlcjpwdw==";
     RestClient.client_headers := ∅;
     RestClient.is_proxy := proxy |}.

(** A server that answers every request with the given status. *)
Definition answering (status : Z) : RestClient.Http :=
  {| RestClient.send := fun _ => Ok tt;
     RestClient.getresponse := fun _ =>
       Ok {| RestClient.status := status;
             RestClient.body := "";
             RestClient.headers := [] |} |}.

(** The run time: the service name of the plugin constants, and a
    stand-in for the name-based UUID of a host. *)
Definition runtime : NetScaler.Runtime := {|
  NetScaler.LOADBALANCER := "LOADBALANCER";
  NetScaler.uuid5_NAMESPACE_DNS := fun name => "uuid5:" +:+ name
|}.

Definition vip_port : NetScaler.Port :=
  {| NetScaler.port_id := "vip-port";
     NetScaler.port_data :=
       {| NetScaler.tenant_id := "T";
          NetScaler.name := "vip-web";
          NetScaler.port_network_id := "N1";
          NetScaler.mac_address := NetScaler.Specified "fa:16:3e:00:00:01";
          NetScaler.admin_state_up := false;
          NetScaler.device_id := "";
          NetScaler.device_owner := "";
          NetScaler.fixed_ips :=
            [{| NetScaler.fixed_subnet_id := "S1";
                NetScaler.fixed_ip_address := Some "10.0.0.5" |}] |} |}.

(** A network provider on which the port of the vip is removed by another
    actor between the lookup and the update: [get_port] finds it,
    [update_port] does not.  The state counts the calls. *)
Definition racing_core_plugin : NetScaler.CorePlugin nat := {|
  NetScaler.get_subnet id := fun n => (Raise (SubnetNotFound id), S n);
  NetScaler.get_network id := fun n => (Raise (NetworkNotFound id), S n);
  NetScaler.get_port id := fun n => (Ok vip_port, S n);
  NetScaler.get_ports f := fun n => (Ok [], S n);
  NetScaler.create_port data := fun n =>
    (Ok {| NetScaler.port_id := "new"; NetScaler.port_data := data |}, S n);
  NetScaler.update_port id port := fun n => (Raise (PortNotFound id), S n);
  NetScaler.delete_port id := fun n => (Raise (PortNotFound id), S n)
|}.

Definition racing_plugin : NetScaler.LbPlugin nat := {|
  NetScaler._core_plugin := racing_core_plugin;
  NetScaler.get_pools f := fun n => (Ok [], S n);
  NetScaler._delete_db_pool id := fun n => (Ok tt, S n);
  NetScaler.get_lbaas_agent_hosting_pool id := fun n => (Ok None, S n);
  NetScaler.update_pool_stats id stats := fun n => (Ok tt, S n)
|}.

(** A platform with two subnets, an agent, and nothing else yet. *)
Definition bare_platform : Platform.world :=
  {| Platform.subnets := <["S1" := "N1"]> (<["S2" := "N2"]> ∅);
     Platform.networks :=
       <["N1" := {| NetScaler.provider_network_type := Some (VStr "vlan");
                    NetScaler.provider_segmentation_id := Some (VInt 100) |}]>
         (<["N2" := {| NetScaler.provider_network_type := None;
                       NetScaler.provider_segmentation_id := None |}]> ∅);
     Platform.ports := [];
     Platform.pools := [];
     Platform.agents := [{| NetScaler.host := "h1" |}];
     Platform.hosting := ∅;
     Platform.events := [] |}.

Definition pool_A : NetScaler.Pool :=
  {| NetScaler.pool_id := "A";
     NetScaler.pool_tenant_id := "T";
     NetScaler.pool_subnet_id := "S1" |}.

Definition pool_B : NetScaler.Pool :=
  {| NetScaler.pool_id := "B";
     NetScaler.pool_tenant_id := "T";
     NetScaler.pool_subnet_id := "S1" |}.


(** The platform once the pool [A] is created, then once the pool [B] is
    created too. *)
Definition platform_with_A : Platform.world :=
  snd (Platform.run [Platform.CreatePool pool_A] bare_platform).




(** A pool balanced by source address, and an edge on which the health
    monitor [M] is bound too. *)
Definition source_pool : dict :=
  <["id" := VStr "R"]>
    (<["name" := VStr "db-pool"]> (<["lb_method" := VStr "source-ip"]> ∅)).

Definition monitor_binding : VcnsEdgeMonitorBinding :=
  {| monitor_id := VStr "M";
     monitor_vseid := "monitor-3";
     monitor_edge_id := "edge-1" |}.

Definition monitored_world : EdgeLb.world :=
  {| EdgeLb.session :=
       {| vip_bindings := [vip_binding];
          pool_bindings := [pool_binding];
          monitor_bindings := [monitor_binding] |};
     EdgeLb.vcns_calls := [];
     EdgeLb.log := [] |}.

(** An appliance that keeps the monitors it creates: a read gives the
    monitor of the last creation it has served. *)
Definition keeping_appliance : Vcns.api :=
  fun served c =>
    match c with
    | Vcns.get_health_monitor _ _ =>
        Ok (∅,
            default VNone
              (last
                 (omap
                    (fun c =>
                       match c with
                       | Vcns.create_health_monitor _ monitor =>
                           Some (VDict monitor)
                       | _ => None
                       end)
                    served)))
    | _ => appliance served c
    end.

Definition keeping_edge_driver : EdgeLb.EdgeLbDriver :=
  {| EdgeLb.vcns := keeping_appliance |}.

(** The vip [W] of the pool [P], and a vip of a pool nothing is bound
    to. *)
Definition bound_vip : dict := <["id" := VStr "W"]> vip.

Definition stray_vip : dict := <["pool_id" := VStr "nobody"]> vip.

(** The platform with the pool [A] once no agent hosts the pool. *)
Definition platform_unhosted : Platform.world :=
  Platform.set_hosting ∅ platform_with_A.

End Examples.


(** ** Vocabulary of the further properties *)

Module Vocabulary.

(** The relation between a member and the entry made of it. *)
Definition member_entry (member entry : value) : Prop :=
  ∃ address port,
    subscript member "address" = Ok address
    ∧ subscript member "protocol_port" = Ok port
    ∧ entry = VDict (<["port" := port]> (<["ipAddress" := address]> ∅)).

End Vocabulary.


(** ** The construction of the REST client *)

Module RestClientSetup.
Import RestClient.

(** [urlparse] and [base64.encodestring] belong to the Python library;
    the constructor is read for any implementation of them.  [urlparse]
    gives the scheme, the network location and the path of a URI. *)
Class Library := {
  urlparse : string -> string * string * string;
  encodestring : string -> string
}.

(** [s.split(sep)] for a separator of one character. *)
Fixpoint split (sep : ascii) (s : string) : list string :=
  match s with
  | EmptyString => [EmptyString]
  | String c s' =>
      if Ascii.eqb c sep then EmptyString :: split sep s'
      else match split sep s' with
           | [] => [String c EmptyString]
           | part :: parts => String c part :: parts
           end
  end.

(** [s.lower()] on a byte string. *)
Definition lower_char (c : ascii) : ascii :=
  let n := nat_of_ascii c in
  if (Nat.leb 65 n && Nat.leb n 90)%bool then ascii_of_nat (n + 32) else c.

Fixpoint lower (s : string) : string :=
  match s with
  | EmptyString => EmptyString
  | String c s' => String (lower_char c) (lower s')
  end.

(** [s[:-1]]. *)
Fixpoint all_but_last (s : string) : string :=
  match s with
  | EmptyString => EmptyString
  | String c EmptyString => EmptyString
  | String c s' => String c (all_but_last s')
  end.

(** The client with the two attributes that only the connection and the
    serializer read: [self.port], which is [None], the text after the
    colon or a default number, and [self.plurals]. *)
Record Built := {
  client : RESTClient;
  port : value;
  plurals : value
}.

(** [RESTClient(uri, username, password, plurals, headers, is_proxy)].
    The strings of the model are byte strings, so the two [encode] steps
    for [unicode] values do not apply. *)
Definition __init__ `{Library} (uri : string) (username password : option string)
    (plurals : value) (headers : option (gmap string (option string)))
    (is_proxy : bool) : result Built :=
  let plurals := if truthy plurals then plurals else VDict ∅ in
  if negb (truthy (VStr uri))
  then Raise (OtherError "No uri passed. Cannot connect")
  else
    let headers := default ∅ headers in
    let '(scheme, netloc, path) := urlparse uri in
    let host_port_parts := split ":" netloc in
    let '(host, port) :=
      match host_port_parts with
      | host :: port :: _ => (host, VStr port)
      | host :: [] => (host, VNone)
      | [] => (EmptyString, VNone)
      end in
    let auth :=
      match username, password with
      | Some username, Some password =>
          Some ("Basic "
                +:+ all_but_last (encodestring (username +:+ ":" +:+ password)))
      | _, _ => None
      end in
    let built (protocol : string) (port : value) :=
      {| client :=
           {| RestClient.uri := uri;
              RestClient.host := host;
              RestClient.protocol := protocol;
              RestClient.service_path := path;
              RestClient.auth := auth;
              RestClient.client_headers := headers;
              RestClient.is_proxy := is_proxy |};
         port := port;
         plurals := plurals |} in
    if String.eqb (lower scheme) "http"
    then Ok (built "http" (if truthy port then port else VInt 80))
    else if String.eqb (lower scheme) "https"
    then Ok (built "https" (if truthy port then port else VInt 443))
    else Raise ServiceUnavailable.

(** [update_headers]: a true [headers] is merged into [self.headers],
    its values replacing the ones of the same name. *)
Definition update_headers (self : RESTClient)
    (headers : gmap string (option string)) : RESTClient :=
  if negb (Nat.eqb (size headers) 0)
  then {| RestClient.uri := RestClient.uri self;
          RestClient.host := RestClient.host self;
          RestClient.protocol := RestClient.protocol self;
          RestClient.service_path := RestClient.service_path self;
          RestClient.auth := RestClient.auth self;
          RestClient.client_headers := headers ∪ client_headers self;
          RestClient.is_proxy := RestClient.is_proxy self |}
  else self.

(** The one request of an operation on a resource. *)
Definition request_of (self : RESTClient) (method resource_path body : string)
    : Request :=
  {| RestClient.method := method;
     RestClient.url_path := service_path self +:+ "/" +:+ resource_path;
     RestClient.request_body := body;
     RestClient.request_headers := build_headers self |}.

End RestClientSetup.


Module SetupExamples.
Import RestClientSetup.

(** A library that knows the parts of two URIs, and a stand-in for the
    encoding of the credentials, which ends with a line feed as the one
    of [base64] does. *)
Definition library : Library := {|
  urlparse uri :=
    if String.eqb uri "HTTPS://ns.example:8443/api"
    then ("HTTPS", "ns.example:8443", "/api")
    else if String.eqb uri "http://ns.example/api"
    then ("http", "ns.example", "/api")
    else ("", "", uri);
  encodestring text := "base64:" +:+ text +:+ String "010" ""
|}.

End SetupExamples.


(** ** The agent driver: vips, members and health monitors *)

Module NetScalerService.
Import NetScaler.

(** A vip, a member and a health monitor, by the keys the driver
    reads. *)
Record Vip := {
  vip_id : string;
  vip_pool_id : string;
  vip_subnet_id : string;
  vip_port_id : string
}.

Record Member := { member_id : string; member_pool_id : string }.

Record HealthMonitor := { monitor_id : string }.

(** The messages [make_msg] builds for these methods. *)
Inductive service_message :=
| msg_create_vip (vip : Vip) (netinfo : dict)
| msg_update_vip (old_vip vip : Vip) (old_netinfo netinfo : dict)
| msg_delete_vip (vip : Vip) (netinfo : dict)
| msg_create_member (member : Member) (netinfo : dict)
| msg_update_member (old_member member : Member) (old_netinfo netinfo : dict)
| msg_delete_member (member : Member) (netinfo : dict)
| msg_create_pool_health_monitor (health_monitor : HealthMonitor)
    (pool_id : string) (netinfo : dict)
| msg_update_health_monitor (old_health_monitor health_monitor : HealthMonitor)
    (pool_id : string) (netinfo : dict)
| msg_delete_pool_health_monitor (health_monitor : HealthMonitor)
    (pool_id : string) (netinfo : dict).

(** The driver with the part of its collaborators that these methods
    use beside those of the pool methods: three more entry points of the
    service plugin, and the [cast] of the RPC proxy on their messages. *)
Record ServiceDriver (S : Type) := {
  pool_driver : NetScalerPluginDriver S;
  get_pool : string -> M S Pool;
  _delete_db_vip : string -> M S unit;
  _delete_db_member : string -> M S unit;
  _delete_db_pool_health_monitor : string -> string -> M S unit;
  service_cast : service_message -> string -> M S unit
}.
Arguments pool_driver {S}.
Arguments get_pool {S}.
Arguments _delete_db_vip {S}.
Arguments _delete_db_member {S}.
Arguments _delete_db_pool_health_monitor {S}.
Arguments service_cast {S}.

Section Service.
Context {S : Type} (self : ServiceDriver S).

Let core := _core_plugin (plugin (pool_driver self)).

(** [self.agent_rpc.<method>(context, ..., host)] *)
Definition to_agent (msg : service_message) (host : string) : M S unit :=
  service_cast self msg (topic_of (agent_rpc (pool_driver self)) host).

Definition _get_vip_network_info (vip : Vip) : M S dict :=
  let subnet_id := vip_subnet_id vip in
  subnet ← get_subnet core subnet_id;
  let network_id := subnet_network_id subnet in
  network ← get_network core network_id;
  let network_info : dict :=
    <["subnet_id" := VStr subnet_id]>
      (<["network_id" := VStr (subnet_network_id subnet)]>
         (<["port_id" := VStr (vip_port_id vip)]> ∅)) in
  let network_info :=
    copy_if_present (provider_network_type network) "network_type"
      network_info in
  let network_info :=
    copy_if_present (provider_segmentation_id network) "segmentation_id"
      network_info in
  mret network_info.

Definition create_vip (vip : Vip) : M S unit :=
  agent ← get_pool_agent (pool_driver self) (vip_pool_id vip);
  network_info ← _get_vip_network_info vip;
  to_agent (msg_create_vip vip network_info) (host agent).

Definition update_vip (old_vip vip : Vip) : M S unit :=
  agent ← get_pool_agent (pool_driver self) (vip_pool_id vip);
  old_network_info ← _get_vip_network_info old_vip;
  network_info ← _get_vip_network_info vip;
  to_agent (msg_update_vip old_vip vip old_network_info network_info)
    (host agent).

Definition delete_vip (vip : Vip) : M S unit :=
  agent ← get_pool_agent (pool_driver self) (vip_pool_id vip);
  network_info ← _get_vip_network_info vip;
  to_agent (msg_delete_vip vip network_info) (host agent);;
  _delete_db_vip self (vip_id vip).

Definition create_member (member : Member) : M S unit :=
  agent ← get_pool_agent (pool_driver self) (member_pool_id member);
  pool ← get_pool self (member_pool_id member);
  network_info ← _get_pool_network_info (pool_driver self) pool;
  to_agent (msg_create_member member network_info) (host agent).

Definition update_member (old_member member : Member) : M S unit :=
  agent ← get_pool_agent (pool_driver self) (member_pool_id member);
  old_pool ← get_pool self (member_pool_id old_member);
  pool ← get_pool self (member_pool_id member);
  old_network_info ← _get_pool_network_info (pool_driver self) old_pool;
  network_info ← _get_pool_network_info (pool_driver self) pool;
  to_agent
    (msg_update_member old_member member old_network_info network_info)
    (host agent).

Definition delete_member (member : Member) : M S unit :=
  agent ← get_pool_agent (pool_driver self) (member_pool_id member);
  pool ← get_pool self (member_pool_id member);
  network_info ← _get_pool_network_info (pool_driver self) pool;
  to_agent (msg_delete_member member network_info) (host agent);;
  _delete_db_member self (member_id member).

Definition create_pool_health_monitor (health_monitor : HealthMonitor)
    (pool_id : string) : M S unit :=
  agent ← get_pool_agent (pool_driver self) pool_id;
  pool ← get_pool self pool_id;
  network_info ← _get_pool_network_info (pool_driver self) pool;
  to_agent (msg_create_pool_health_monitor health_monitor pool_id network_info)
    (host agent).

Definition update_health_monitor
    (old_health_monitor health_monitor : HealthMonitor) (pool_id : string)
    : M S unit :=
  agent ← get_pool_agent (pool_driver self) pool_id;
  pool ← get_pool self pool_id;
  network_info ← _get_pool_network_info (pool_driver self) pool;
  to_agent
    (msg_update_health_monitor old_health_monitor health_monitor pool_id
       network_info)
    (host agent).

Definition delete_pool_health_monitor (health_monitor : HealthMonitor)
    (pool_id : string) : M S unit :=
  agent ← get_pool_agent (pool_driver self) pool_id;
  pool ← get_pool self pool_id;
  network_info ← _get_pool_network_info (pool_driver self) pool;
  to_agent (msg_delete_pool_health_monitor health_monitor pool_id network_info)
    (host agent);;
  _delete_db_pool_health_monitor self (monitor_id health_monitor) pool_id.

(** [stats] is [pass]. *)
Definition stats (pool_id : string) : M S unit := mret tt.

End Service.

(** *** Collaborators that keep a record of what they are asked

    The state is the list of the calls served so far; what a
    collaborator answers, a value or an exception, may depend on it. *)

Inductive call :=
| c_hosting (pool_id : string)
| c_get_pool (id : string)
| c_get_subnet (id : string)
| c_get_network (id : string)
| c_cast (topic : string) (msg : service_message)
| c_delete_db_vip (id : string)
| c_delete_db_member (id : string)
| c_delete_db_pool_health_monitor (id pool_id : string)
| c_other (name : string).

Record answers := {
  hosting_of : list call -> string -> result (option Agent);
  pool_of : list call -> string -> result Pool;
  subnet_of : list call -> string -> result Subnet;
  network_of : list call -> string -> result Network;
  cast_of : list call -> string -> service_message -> result unit;
  deleted : list call -> call -> result unit
}.

Definition asked {A} (c : call) (answer : list call -> result A)
    : M (list call) A :=
  fun served => (answer served, served ++ [c]).

(** A collaborator these methods have no use for. *)
Definition unused {A} (name : string) : M (list call) A :=
  asked (c_other name) (fun _ => Raise (OtherError name)).

Definition recorder (a : answers) : ServiceDriver (list call) := {|
  pool_driver := {|
    plugin := {|
      _core_plugin := {|
        get_subnet id := asked (c_get_subnet id) (fun l => subnet_of a l id);
        get_network id :=
          asked (c_get_network id) (fun l => network_of a l id);
        get_port id := unused "get_port";
        get_ports f := unused "get_ports";
        create_port data := unused "create_port";
        update_port id port := unused "update_port";
        NetScaler.delete_port id := unused "delete_port"
      |};
      get_pools f := unused "get_pools";
      _delete_db_pool id := unused "_delete_db_pool";
      get_lbaas_agent_hosting_pool id :=
        asked (c_hosting id) (fun l => hosting_of a l id);
      update_pool_stats id stats := unused "update_pool_stats"
    |};
    agent_rpc := {|
      topic := "lbaas_netscaler_agent";
      cast msg topic := unused "cast"
    |};
    pool_scheduler pool := unused "schedule"
  |};
  get_pool id := asked (c_get_pool id) (fun l => pool_of a l id);
  _delete_db_vip id :=
    asked (c_delete_db_vip id) (fun l => deleted a l (c_delete_db_vip id));
  _delete_db_member id :=
    asked (c_delete_db_member id)
      (fun l => deleted a l (c_delete_db_member id));
  _delete_db_pool_health_monitor id pool_id :=
    asked (c_delete_db_pool_health_monitor id pool_id)
      (fun l => deleted a l (c_delete_db_pool_health_monitor id pool_id));
  service_cast msg topic :=
    asked (c_cast topic msg) (fun l => cast_of a l topic msg)
|}.

(** The calls of a run that stops on the way through [full]: the first
    [k] of them, one at least. *)
Definition stops_within (full sent : list call) (k : nat) : Prop :=
  (1 <= k <= length full)%nat ∧ sent = take k full.

End NetScalerService.


Module ServiceExamples.
Import NetScaler NetScalerService.

Definition member : Member := {| member_id := "m1"; member_pool_id := "A" |}.

(** Collaborators that know the pool [A], its agent and its network,
    with a message broker that is down. *)
Definition broker_down : answers := {|
  hosting_of served id := Ok (Some {| host := "h1" |});
  pool_of served id :=
    Ok {| pool_id := id; pool_tenant_id := "T"; pool_subnet_id := "S1" |};
  subnet_of served id := Ok {| subnet_id := id; subnet_network_id := "N1" |};
  network_of served id :=
    Ok {| provider_network_type := None; provider_segmentation_id := None |};
  cast_of served topic msg := Raise (OtherError "broker down");
  deleted served c := Ok tt
|}.

End ServiceExamples.


(** * Properties *)

(** ** Strings: the last segment of a location *)

Module PyFacts.

Lemma append_empty (t : string) : "" +:+ t = t.
Proof. reflexivity. Qed.

Lemma append_cons a (s t : string) : String a s +:+ t = String a (s +:+ t).
Proof. reflexivity. Qed.

Lemma prefix_slash_cons a (s : string) :
  String.prefix "/" (String a s) = Ascii.eqb "/" a.
Proof.
  change (String.prefix "/" (String a s))
    with (if ascii_dec "/" a then String.prefix "" s else false).
  destruct (ascii_dec "/" a) as [<-|Hne].
  - destruct s; reflexivity.
  - symmetry. apply Ascii.eqb_neq. exact Hne.
Qed.

(** Without a slash there is nothing to find, wherever the scan starts. *)
Lemma rfind_from_absent (s : string) (i : Z) :
  occurs "/" s = false → rfind_from "/" s i = -1.
Proof.
  revert i. induction s as [|a s IH]; intros i Hno; [reflexivity|].
  cbn [occurs] in Hno. apply orb_false_elim in Hno as [Ha Hs].
  cbn [rfind_from]. rewrite (IH (i + 1) Hs), prefix_slash_cons.
  rewrite Ascii.eqb_sym, Ha. reflexivity.
Qed.

(** The scan stops on the slash that no other slash follows. *)
Lemma rfind_from_last (pre suf : string) (i : Z) :
  0 <= i → occurs "/" suf = false →
  rfind_from "/" (pre +:+ String "/" suf) i
  = i + Z.of_nat (String.length pre).
Proof.
  revert i. induction pre as [|a pre IH]; intros i Hi Hno.
  - rewrite append_empty. cbn [rfind_from String.length].
    rewrite (rfind_from_absent suf (i + 1) Hno), prefix_slash_cons.
    cbn. lia.
  - rewrite append_cons. cbn [rfind_from String.length].
    rewrite (IH (i + 1)) by (lia || assumption).
    destruct (0 <=? i + 1 + Z.of_nat (String.length pre)) eqn:E.
    + lia.
    + apply Z.leb_gt in E. lia.
Qed.

Lemma drop_chars_past (pre suf : string) c :
  drop_chars (S (String.length pre)) (pre +:+ String c suf) = suf.
Proof.
  induction pre as [|a pre IH]; [destruct suf; reflexivity|].
  rewrite append_cons. exact IH.
Qed.

Lemma length_append (s t : string) :
  String.length (s +:+ t) = (String.length s + String.length t)%nat.
Proof.
  induction s as [|a s IH]; [reflexivity|].
  rewrite append_cons. cbn [String.length]. rewrite IH. reflexivity.
Qed.

(** The text cut from a location. *)
Lemma last_segment (pre suf : string) :
  occurs "/" suf = false →
  slice_from (pre +:+ "/" +:+ suf) (rfind (pre +:+ "/" +:+ suf) "/" + 1)
  = suf.
Proof.
  intros Hno. unfold rfind, slice_from.
  change (pre +:+ "/" +:+ suf) with (pre +:+ String "/" suf).
  rewrite (rfind_from_last pre suf 0) by (lia || assumption).
  rewrite length_append. cbn [String.length].
  destruct (0 + Z.of_nat (String.length pre) + 1 <? 0) eqn:E;
    [apply Z.ltb_lt in E; lia|].
  rewrite Z.min_l by lia.
  replace (Z.to_nat (0 + Z.of_nat (String.length pre) + 1))
    with (S (String.length pre)) by lia.
  apply drop_chars_past.
Qed.

Lemma whole_without_slash (objuri : string) :
  occurs "/" objuri = false →
  slice_from objuri (rfind objuri "/" + 1) = objuri.
Proof.
  intros Hno. unfold rfind, slice_from.
  rewrite (rfind_from_absent objuri 0 Hno). simpl.
  destruct (String.length objuri); reflexivity.
Qed.

End PyFacts.

(** ** The edge driver *)

Module EdgeLbFacts.
Import VcnsDb EdgeLb.

(** Unfolds the monad down to the pairs of result and world. *)
Ltac run :=
  unfold logging_failure, save_and_reraise_exception, try_except, LOG,
    invoke, mbind, M_bind, mret, M_ret, Py.bind, Py.ret, Py.lift, Py.gets,
    Py.raise, Py.modify in *;
  cbn beta iota in *.

(** Looks a literal key up in a dictionary display. *)
Ltac lookup_key :=
  repeat first
    [ rewrite lookup_insert_eq
    | rewrite lookup_insert_ne by discriminate
    | rewrite lookup_empty ].

Lemma column_eqb_eq (stored key : value) :
  column_eqb stored key = true → stored = key.
Proof.
  destruct stored, key; cbn; try discriminate.
  - intros E. apply Z.eqb_eq in E. congruence.
  - intros E. apply String.eqb_eq in E. congruence.
Qed.

(** [C10] A health monitor of type [PROTOCOL_HTTPS] is converted to a
    backend monitor of type ['tcp']: the table [PROTOCOL_MAP] sends both
    [PROTOCOL_HTTPS] and [PROTOCOL_TCP] to ['tcp']. *)
Theorem https_monitor_becomes_tcp `{LbConstants} (monitor : dict)
    (w : world) :
  get monitor "type" = VStr PROTOCOL_HTTPS →
  (∃ monitor_vse,
     _convert_lb_monitor monitor w = (Ok monitor_vse, w)
     ∧ monitor_vse !! "type" = Some (VStr "tcp")
     ∧ monitor_vse !! "type" ≠ Some (VStr "https"))
  ∧ PROTOCOL_MAP !! PROTOCOL_HTTPS = Some "tcp"
  ∧ (PROTOCOL_TCP ≠ PROTOCOL_HTTP → PROTOCOL_MAP !! PROTOCOL_TCP = Some "tcp").
Proof.
  intros Htype.
  assert (Hhttps : PROTOCOL_MAP !! PROTOCOL_HTTPS = Some "tcp")
    by apply lookup_insert_eq.
  split; [|split; [exact Hhttps|]].
  - unfold _convert_lb_monitor. rewrite Htype. unfold table_get.
    rewrite Hhttps. run. eexists. split; [reflexivity|].
    split; [reflexivity | discriminate].
  - intros Hne. unfold PROTOCOL_MAP.
    destruct (decide (PROTOCOL_HTTPS = PROTOCOL_TCP)) as [->|Hne'].
    + apply lookup_insert_eq.
    + rewrite lookup_insert_ne by exact Hne'.
      rewrite lookup_insert_ne by congruence.
      apply lookup_insert_eq.
Qed.

(** The theorem at the monitor types of the data model. *)
Lemma https_monitor_becomes_tcp_witness :
  ∃ monitor_vse,
    @_convert_lb_monitor Examples.constants Examples.https_monitor
      Examples.edge_world = (Ok monitor_vse, Examples.edge_world)
    ∧ monitor_vse !! "type" = Some (VStr "tcp")
    ∧ monitor_vse !! "type" ≠ Some (VStr "https").
Proof.
  apply (@https_monitor_becomes_tcp Examples.constants
           Examples.https_monitor Examples.edge_world).
  reflexivity.
Defined.

(** [C8] Converting a vip to the backend shape and back gives a
    dictionary with the address, protocol and port of the vip, whenever the
    pool of the vip is bound and its backend id is bound back; the
    [pool_id] is the one of the row found by the backend id, hence the one
    of the vip when the two lookups agree. *)
Theorem vip_round_trip (w : world) (edge_id : string) (vip : dict)
    (app_profileid : value) (b b' : VcnsEdgePoolBinding) :
  get_vcns_edge_pool_binding (session w) (get vip "pool_id") edge_id
    = Some b →
  find_pool_binding_by_vseid (session w) edge_id (VStr (pool_vseid b))
    = Some b' →
  ∃ vip_vse restored,
    _convert_lb_vip edge_id vip app_profileid w = (Ok vip_vse, w)
    ∧ _restore_lb_vip edge_id (VDict vip_vse) w = (Ok restored, w)
    ∧ restored !! "address" = Some (get vip "address")
    ∧ restored !! "protocol" = Some (get vip "protocol")
    ∧ restored !! "protocol_port" = Some (get vip "protocol_port")
    ∧ restored !! "pool_id" = Some (pool_id b')
    ∧ (pool_id b' = pool_id b →
       restored !! "pool_id" = Some (get vip "pool_id")).
Proof.
  intros Hfwd Hback.
  unfold _convert_lb_vip, _restore_lb_vip. run. rewrite Hfwd.
  eexists. eexists. split; [reflexivity|].
  split.
  { unfold subscript, getitem, get_vcns_edge_pool_binding_by_vseid.
    rewrite lookup_insert_ne by discriminate. rewrite lookup_insert_eq.
    rewrite Hback. lookup_key. reflexivity. }
  lookup_key. repeat split.
  intros Hsame. rewrite Hsame. f_equal.
  unfold get_vcns_edge_pool_binding in Hfwd.
  apply List.find_some in Hfwd as [_ Hmatch].
  apply andb_prop in Hmatch as [Hmatch _].
  apply column_eqb_eq. exact Hmatch.
Qed.

(** The theorem at a vip whose pool is bound to the backend pool
    [pool-1]. *)
Lemma vip_round_trip_witness :
  ∃ vip_vse restored,
    _convert_lb_vip "edge-1" Examples.vip (VStr "applicationProfile-1")
      Examples.edge_world = (Ok vip_vse, Examples.edge_world)
    ∧ _restore_lb_vip "edge-1" (VDict vip_vse) Examples.edge_world
      = (Ok restored, Examples.edge_world)
    ∧ restored !! "address" = Some (VStr "10.0.0.5")
    ∧ restored !! "protocol" = Some (VStr "HTTP")
    ∧ restored !! "protocol_port" = Some (VInt 80)
    ∧ restored !! "pool_id" = Some (VStr "P")
    ∧ (VStr "P" = VStr "P" → restored !! "pool_id" = Some (VStr "P")).
Proof.
  apply (vip_round_trip Examples.edge_world "edge-1" Examples.vip
           (VStr "applicationProfile-1") Examples.pool_binding
           Examples.pool_binding); reflexivity.
Defined.

(** [C4] For a vip, a pool and a health monitor alike, [get] on a logical
    id without a binding raises [VcnsNotFound] and makes no call on the
    appliance. *)
Theorem get_unbound_raises_NotFound (self : EdgeLbDriver)
    (id edge_id : string) (w : world) :
  (find_vip_binding (session w) (VStr id) = None →
   ∃ resource msg w',
     get_vip self id w = (Raise (VcnsNotFound resource msg), w')
     ∧ vcns_calls w' = vcns_calls w)
  ∧ (get_vcns_edge_pool_binding (session w) (VStr id) edge_id = None →
     ∃ resource msg w',
       get_pool self id edge_id w = (Raise (VcnsNotFound resource msg), w')
       ∧ vcns_calls w' = vcns_calls w)
  ∧ (get_vcns_edge_monitor_binding (session w) (VStr id) edge_id = None →
     ∃ resource msg w',
       get_health_monitor self id edge_id w
       = (Raise (VcnsNotFound resource msg), w')
       ∧ vcns_calls w' = vcns_calls w).
Proof.
  split; [|split]; intros Hnone.
  - unfold get_vip, get_vcns_edge_vip_binding. run. rewrite Hnone.
    do 3 eexists. split; reflexivity.
  - unfold get_pool. run. rewrite Hnone. cbn.
    do 3 eexists. split; reflexivity.
  - unfold get_health_monitor. run. rewrite Hnone. cbn.
    do 3 eexists. split; reflexivity.
Qed.

(** The theorem at an identifier nothing is bound to, on an appliance
    that would answer. *)
Lemma get_unbound_raises_NotFound_witness :
  (∃ resource msg w',
     get_vip Examples.edge_driver "nobody" Examples.edge_world
     = (Raise (VcnsNotFound resource msg), w')
     ∧ vcns_calls w' = vcns_calls Examples.edge_world)
  ∧ (∃ resource msg w',
       get_pool Examples.edge_driver "nobody" "edge-1" Examples.edge_world
       = (Raise (VcnsNotFound resource msg), w')
       ∧ vcns_calls w' = vcns_calls Examples.edge_world)
  ∧ (∃ resource msg w',
       get_health_monitor Examples.edge_driver "nobody" "edge-1"
         Examples.edge_world
       = (Raise (VcnsNotFound resource msg), w')
       ∧ vcns_calls w' = vcns_calls Examples.edge_world).
Proof.
  destruct (get_unbound_raises_NotFound Examples.edge_driver "nobody"
              "edge-1" Examples.edge_world) as (Hvip & Hpool & Hmon).
  split; [|split].
  - apply Hvip. reflexivity.
  - apply Hpool. reflexivity.
  - apply Hmon. reflexivity.
Defined.

(** [C1] A vip creation calls the appliance for the application profile
    first and for the vip second, and for nothing else; when it returns,
    both calls were answered, the identifier taken from the location of
    the profile is the [applicationProfileId] of the vip sent, and the
    binding of the vip is added; when it raises, the bindings are what
    they were. *)
Theorem create_vip_profile_then_vip (self : EdgeLbDriver) (edge_id : string)
    (vip : dict) (w w' : world) (r : result unit) :
  create_vip self edge_id vip w = (r, w') →
  (∃ sent, vcns_calls w' = vcns_calls w ++ sent ∧ profile_then_vip sent)
  ∧ (r = Ok tt →
     ∃ name header1 body1 objuri1 vip_new header2 body2 objuri2 id,
       let app_profile :=
         _convert_app_profile name (get vip "session_persistence") in
       let app_profileid := slice_from objuri1 (rfind objuri1 "/" + 1) in
       let vip_vseid := slice_from objuri2 (rfind objuri2 "/" + 1) in
       vip !! "name" = Some name
       ∧ vcns self (vcns_calls w) (Vcns.create_app_profile edge_id app_profile)
         = Ok (header1, body1)
       ∧ header1 !! "location" = Some objuri1
       ∧ vip_new !! "applicationProfileId" = Some (VStr app_profileid)
       ∧ vcns self
           (vcns_calls w ++ [Vcns.create_app_profile edge_id app_profile])
           (Vcns.create_vip edge_id vip_new)
         = Ok (header2, body2)
       ∧ header2 !! "location" = Some objuri2
       ∧ vcns_calls w'
         = vcns_calls w
           ++ [Vcns.create_app_profile edge_id app_profile;
               Vcns.create_vip edge_id vip_new]
       ∧ vip !! "id" = Some id
       ∧ vip_bindings (session w')
         = vip_bindings (session w)
           ++ [{| vip_id := id;
                  vip_vseid := vip_vseid;
                  vip_edge_id := edge_id;
                  app_profileid := app_profileid |}])
  ∧ (∀ e, r = Raise e → session w' = session w).
Proof.
  intros Hrun. unfold create_vip, _convert_lb_vip in Hrun. run.
  unfold getitem in Hrun.
  destruct (vip !! "name") as [name|] eqn:Hname; cbn beta iota in Hrun.
  2:{ injection Hrun as <- <-. split; [|split]; [|discriminate|reflexivity].
      exists []. split; [symmetry; apply app_nil_r | exact I]. }
  destruct (vcns self (vcns_calls w) _) as [[header1 body1]|e1] eqn:Hcall1;
    cbn beta iota in Hrun.
  2:{ destruct (is_VcnsApiException e1); injection Hrun as <- <-;
        (split; [|split]; [|discriminate|reflexivity]);
        eexists; (split; [reflexivity | exact I]). }
  destruct (header1 !! "location") as [objuri1|] eqn:Hloc1;
    cbn beta iota in Hrun.
  2:{ injection Hrun as <- <-. split; [|split]; [|discriminate|reflexivity].
      eexists. split; [reflexivity | exact I]. }
  destruct (get_vcns_edge_pool_binding _ _ _) as [pb|] eqn:Hpool;
    cbn beta iota in Hrun.
  2:{ injection Hrun as <- <-. split; [|split]; [|discriminate|reflexivity].
      eexists. split; [reflexivity | exact I]. }
  cbn [session vcns_calls log] in Hrun.
  destruct (vcns self (vcns_calls w ++ _) _) as [[header2 body2]|e2]
    eqn:Hcall2; cbn beta iota in Hrun.
  2:{ destruct (is_VcnsApiException e2); injection Hrun as <- <-;
        (split; [|split]; [|discriminate|reflexivity]);
        eexists; (split; [cbn; rewrite <- app_assoc; reflexivity | exact I]). }
  destruct (header2 !! "location") as [objuri2|] eqn:Hloc2;
    cbn beta iota in Hrun.
  2:{ injection Hrun as <- <-. split; [|split]; [|discriminate|reflexivity].
      eexists. split; [cbn; rewrite <- app_assoc; reflexivity | exact I]. }
  destruct (vip !! "id") as [id|] eqn:Hid; cbn beta iota in Hrun.
  2:{ injection Hrun as <- <-. split; [|split]; [|discriminate|reflexivity].
      eexists. split; [cbn; rewrite <- app_assoc; reflexivity | exact I]. }
  injection Hrun as <- <-. split; [|split]; [| |discriminate].
  - eexists. split; [cbn; rewrite <- app_assoc; reflexivity | exact I].
  - intros _. exists name, header1, body1, objuri1. eexists.
    exists header2, body2, objuri2, id. cbn zeta.
    repeat split; try eassumption; try reflexivity;
      first [ apply lookup_insert_eq
            | cbn; rewrite <- app_assoc; reflexivity ].
Qed.

(** The theorem at a vip of the pool [P], on an appliance that answers. *)
Lemma create_vip_profile_then_vip_witness :
  let out :=
    create_vip Examples.edge_driver "edge-1" Examples.vip
      Examples.edge_world in
  fst out = Ok tt
  ∧ ∃ sent,
      vcns_calls (snd out) = vcns_calls Examples.edge_world ++ sent
      ∧ profile_then_vip sent.
Proof.
  split; [reflexivity|].
  apply (create_vip_profile_then_vip Examples.edge_driver "edge-1"
           Examples.vip Examples.edge_world _ (Ok tt)).
  reflexivity.
Defined.

Lemma find_vip_binding_deleted (s : VcnsDb.session) (id : value) :
  find_vip_binding (delete_vcns_edge_vip_binding id s) id = None.
Proof.
  unfold find_vip_binding, delete_vcns_edge_vip_binding. cbn.
  induction (vip_bindings s) as [|b l IH]; [reflexivity|].
  cbn. destruct (column_eqb (vip_id b) id) eqn:E; cbn; [exact IH|].
  rewrite E. exact IH.
Qed.

(** [C2] A vip deletion removes the binding once the appliance has
    deleted the vip and then its application profile; when either call
    raises, the caller gets that very exception and the bindings are what
    they were. *)
Theorem delete_vip_binding_outlives_failure (self : EdgeLbDriver)
    (id : string) (w w' : world) (r : result unit)
    (b : VcnsEdgeVipBinding) :
  delete_vip self id w = (r, w') →
  find_vip_binding (session w) (VStr id) = Some b →
  let vip_call := Vcns.delete_vip (vip_edge_id b) (vip_vseid b) in
  let profile_call :=
    Vcns.delete_app_profile (vip_edge_id b) (app_profileid b) in
  (∀ e, vcns self (vcns_calls w) vip_call = Raise e →
        r = Raise e ∧ session w' = session w
        ∧ vcns_calls w' = vcns_calls w ++ [vip_call])
  ∧ (∀ answer e,
       vcns self (vcns_calls w) vip_call = Ok answer →
       vcns self (vcns_calls w ++ [vip_call]) profile_call = Raise e →
       r = Raise e ∧ session w' = session w
       ∧ vcns_calls w' = vcns_calls w ++ [vip_call; profile_call])
  ∧ (∀ answer1 answer2,
       vcns self (vcns_calls w) vip_call = Ok answer1 →
       vcns self (vcns_calls w ++ [vip_call]) profile_call = Ok answer2 →
       r = Ok tt
       ∧ session w' = delete_vcns_edge_vip_binding (VStr id) (session w)
       ∧ find_vip_binding (session w') (VStr id) = None
       ∧ vcns_calls w' = vcns_calls w ++ [vip_call; profile_call])
  ∧ (session w' ≠ session w →
     ∃ answer1 answer2,
       vcns self (vcns_calls w) vip_call = Ok answer1
       ∧ vcns self (vcns_calls w ++ [vip_call]) profile_call = Ok answer2).
Proof.
  intros Hrun Hfind. unfold delete_vip, get_vcns_edge_vip_binding in Hrun.
  run. rewrite Hfind in Hrun. cbn beta iota in Hrun.
  destruct (vcns self (vcns_calls w) _) as [answer1|e1] eqn:Hcall1;
    cbn beta iota in Hrun.
  2:{ assert (r = Raise e1 ∧ w' =
              {| session := session w;
                 vcns_calls := vcns_calls w
                   ++ [Vcns.delete_vip (vip_edge_id b) (vip_vseid b)];
                 log := if is_VcnsApiException e1
                        then log w ++ ["Failed to delete vip on edge: "
                                       +:+ vip_edge_id b]
                        else log w |}) as [-> ->]
        by (destruct (is_VcnsApiException e1); injection Hrun as <- <-;
            split; reflexivity).
      cbn. repeat split; try discriminate; try congruence. }
  cbn [session vcns_calls log] in Hrun.
  destruct (vcns self (vcns_calls w ++ _) _) as [answer2|e2] eqn:Hcall2;
    cbn beta iota in Hrun.
  2:{ assert (r = Raise e2 ∧ session w' = session w
              ∧ vcns_calls w' = (vcns_calls w
                   ++ [Vcns.delete_vip (vip_edge_id b) (vip_vseid b)])
                   ++ [Vcns.delete_app_profile (vip_edge_id b)
                         (app_profileid b)]) as (-> & Hs & Hc)
        by (destruct (is_VcnsApiException e2); injection Hrun as <- <-;
            repeat split; reflexivity).
      rewrite <- app_assoc in Hc. cbn in Hc.
      cbn zeta. repeat split; try discriminate; try congruence. }
  injection Hrun as <- <-. cbn.
  repeat split; try discriminate; try congruence.
  - apply find_vip_binding_deleted.
  - rewrite <- app_assoc. reflexivity.
  - intros _. exists answer1, answer2. split; reflexivity.
Qed.

(** The theorem at the bound vip [W], on an appliance that deletes the
    vip and refuses to delete its profile. *)
Lemma delete_vip_binding_outlives_failure_witness :
  let out :=
    delete_vip Examples.refusing_edge_driver "W" Examples.edge_world in
  fst out = Raise (VcnsApiException "profile in use")
  ∧ session (snd out) = session Examples.edge_world
  ∧ vcns_calls (snd out)
    = vcns_calls Examples.edge_world
      ++ [Vcns.delete_vip "edge-1" "virtualServer-7";
          Vcns.delete_app_profile "edge-1" "applicationProfile-7"].
Proof.
  cbv zeta.
  apply (delete_vip_binding_outlives_failure Examples.refusing_edge_driver
           "W" Examples.edge_world _ _ Examples.vip_binding
           eq_refl eq_refl)
    with (answer := (∅, VNone));
    reflexivity.
Defined.

(** The conversion of a pool reads the bindings and leaves the world as
    it is. *)
Lemma convert_lb_pool_pure `{LbConstants} (edge_id : string) (pool : dict)
    (members : list value) (w : world) :
  snd (_convert_lb_pool edge_id pool members w) = w.
Proof.
  unfold _convert_lb_pool. run.
  destruct (table_get _ _ _); [|reflexivity]. cbn.
  destruct (convert_members members); [|reflexivity]. cbn.
  destruct (negb (truthy (get pool "health_monitors"))); [reflexivity|].
  cbn. destruct (first_item _); [|reflexivity]. cbn.
  destruct (get_vcns_edge_monitor_binding _ _ _); reflexivity.
Qed.

(** [C7] The identifier the driver takes from the location of a created
    object, [objuri[objuri.rfind("/") + 1:]], is what follows the last
    slash of the location, and the whole location when it has no slash;
    it is the backend id that [create_pool] binds to the pool. *)
Theorem location_id_is_last_segment `{LbConstants} (objuri : string) :
  (∀ pre suf,
     objuri = pre +:+ "/" +:+ suf → occurs "/" suf = false →
     slice_from objuri (rfind objuri "/" + 1) = suf)
  ∧ (occurs "/" objuri = false →
     slice_from objuri (rfind objuri "/" + 1) = objuri)
  ∧ (∀ self edge_id pool members w w' pool_new header body,
       create_pool self edge_id pool members w = (Ok tt, w') →
       _convert_lb_pool edge_id pool members w = (Ok pool_new, w) →
       vcns self (vcns_calls w) (Vcns.create_pool edge_id pool_new)
       = Ok (header, body) →
       header !! "location" = Some objuri →
       ∃ id,
         pool !! "id" = Some id
         ∧ pool_bindings (session w')
           = pool_bindings (session w)
             ++ [{| pool_id := id;
                    pool_vseid := slice_from objuri (rfind objuri "/" + 1);
                    pool_edge_id := edge_id |}]).
Proof.
  split; [|split].
  - intros pre suf -> Hno. apply PyFacts.last_segment. exact Hno.
  - apply PyFacts.whole_without_slash.
  - intros self edge_id pool members w w' pool_new header body Hrun Hconv
      Hcall Hloc.
    unfold create_pool in Hrun. run. rewrite Hconv in Hrun.
    cbn beta iota in Hrun. rewrite Hcall in Hrun. cbn beta iota in Hrun.
    unfold getitem in Hrun. rewrite Hloc in Hrun. cbn beta iota in Hrun.
    destruct (pool !! "id") as [id|]; [|discriminate].
    injection Hrun as <-. exists id. split; reflexivity.
Qed.

(** The theorem at the location of a created pool, at a bare identifier,
    and at the creation of a pool on an appliance that answers. *)
Lemma location_id_is_last_segment_witness :
  slice_from "/api/4.0/edges/edge-1/loadbalancer/config/pools/pool-1"
    (rfind "/api/4.0/edges/edge-1/loadbalancer/config/pools/pool-1" "/" + 1)
  = "pool-1"
  ∧ slice_from "pool-1" (rfind "pool-1" "/" + 1) = "pool-1"
  ∧ ∃ id,
      Examples.pool !! "id" = Some id
      ∧ pool_bindings
          (session
             (snd (@create_pool Examples.constants Examples.edge_driver
                     "edge-1" Examples.pool [] Examples.edge_world)))
        = pool_bindings (session Examples.edge_world)
          ++ [{| pool_id := id;
                 pool_vseid :=
                   slice_from
                     "/api/4.0/edges/edge-1/loadbalancer/config/pools/pool-1"
                     (rfind
                        "/api/4.0/edges/edge-1/loadbalancer/config/pools/pool-1"
                        "/" + 1);
                 pool_edge_id := "edge-1" |}].
Proof.
  split; [|split].
  - apply (proj1 (@location_id_is_last_segment Examples.constants _)
             "/api/4.0/edges/edge-1/loadbalancer/config/pools" "pool-1");
      reflexivity.
  - apply (proj1 (proj2 (@location_id_is_last_segment Examples.constants
                           "pool-1"))).
    reflexivity.
  - refine (proj2 (proj2 (@location_id_is_last_segment Examples.constants _))
              Examples.edge_driver "edge-1" Examples.pool []
              Examples.edge_world _ _ _ VNone eq_refl eq_refl eq_refl
              eq_refl).
Defined.

End EdgeLbFacts.

(** ** The REST client *)

Module RestClientFacts.
Import RestClient.

Lemma guarded_check_status (self : RESTClient) (resp_dict : response_dict) :
  guarded (check_status self resp_dict) = check_status self resp_dict.
Proof.
  unfold check_status.
  destruct (is_proxy self); [reflexivity|].
  destruct (rd_status resp_dict =? 401); [reflexivity|].
  destruct (negb (_is_valid_response (rd_status resp_dict))); reflexivity.
Qed.

(** What [check_status] does outside proxy mode. *)
Lemma check_status_direct (self : RESTClient) (resp_dict : response_dict) :
  is_proxy self = false →
  check_status self resp_dict
  = if rd_status resp_dict <? 400
    then Ok (rd_status resp_dict, resp_dict)
    else Raise ServiceUnavailable.
Proof.
  intros Hdirect. unfold check_status, _is_valid_response, BAD_REQUEST.
  rewrite Hdirect.
  destruct (rd_status resp_dict =? 401) eqn:E401.
  - apply Z.eqb_eq in E401. rewrite E401. reflexivity.
  - destruct (rd_status resp_dict <? 400); reflexivity.
Qed.

(** [C9, as the client has it] On a server that answers every request
    with the same response: a client that is not a proxy returns status
    and response from each of the four operations when the status is below
    400 and the body can be read; from 400 on, 401 included, create,
    update and remove raise the one error [ServiceUnavailable], and
    retrieve raises it at 401; a client that is a proxy returns status and
    response whatever the status. *)
Theorem rest_status_handling `{Serializer} (self : RESTClient) (http : Http)
    (response : HTTPResponse) (resource_path object_name : string)
    (object_data : value) (parse_response : bool) :
  _get_connection self = Ok tt →
  (∀ req, send http req = Ok tt) →
  (∀ req, getresponse http req = Ok response) →
  (∀ name data, ∃ text, serialize name data = Ok text) →
  (∃ parsed, deserialize (body response) = Ok parsed) →
  choose_body object_data ≠ (None, false) →
  let st := status response in
  let create :=
    create_resource self http resource_path object_name object_data in
  let retrieve := retrieve_resource self http resource_path parse_response in
  let update :=
    update_resource self http resource_path object_name object_data in
  let remove := remove_resource self http resource_path parse_response in
  let returned (r : result (Z * response_dict)) :=
    ∃ resp_dict, r = Ok (st, resp_dict) ∧ rd_status resp_dict = st
                 ∧ rd_body resp_dict = body response in
  (is_proxy self = false → st < 400 →
   returned create ∧ returned retrieve ∧ returned update ∧ returned remove)
  ∧ (is_proxy self = false → 400 <= st →
     create = Raise ServiceUnavailable
     ∧ update = Raise ServiceUnavailable
     ∧ remove = Raise ServiceUnavailable)
  ∧ (is_proxy self = false → st = 401 → retrieve = Raise ServiceUnavailable)
  ∧ (is_proxy self = true →
     returned create ∧ returned retrieve ∧ returned update ∧ returned remove).
Proof.
  intros Hconn Hsend Hget Hser [parsed Hparse] Hbody.
  cbv zeta.
  assert (Hdict : ∀ serializer, ∃ resp_dict,
             _get_response_dict response serializer = Ok resp_dict
             ∧ rd_status resp_dict = status response
             ∧ rd_body resp_dict = body response).
  { intros serializer. unfold _get_response_dict.
    destruct (_is_valid_response (status response));
      [destruct (0 <? Z.of_nat (String.length (body response)));
         [destruct serializer; [rewrite Hparse|]|]|];
      eexists; repeat split. }
  assert (Hcreate : ∃ resp_dict,
             rd_status resp_dict = status response
             ∧ rd_body resp_dict = body response
             ∧ create_resource self http resource_path object_name
                 object_data = check_status self resp_dict).
  { unfold create_resource.
    destruct (choose_body object_data) as [bound serializer].
    destruct (Hdict serializer) as (rd & Hrd & Hst & Hb).
    exists rd. split; [exact Hst|]. split; [exact Hb|].
    destruct serializer.
    - destruct (Hser object_name object_data) as [text ->]. cbn.
      rewrite Hconn, Hsend, Hget. cbn. rewrite Hrd. cbn.
      apply guarded_check_status.
    - cbn. rewrite Hconn, Hsend, Hget. cbn. rewrite Hrd. cbn.
      apply guarded_check_status. }
  assert (Hupdate : ∃ resp_dict,
             rd_status resp_dict = status response
             ∧ rd_body resp_dict = body response
             ∧ update_resource self http resource_path object_name
                 object_data = check_status self resp_dict).
  { unfold update_resource.
    destruct (choose_body object_data) as [bound serializer].
    destruct (Hdict serializer) as (rd & Hrd & Hst & Hb).
    exists rd. split; [exact Hst|]. split; [exact Hb|].
    destruct serializer.
    - destruct (Hser object_name object_data) as [text ->]. cbn.
      rewrite Hconn, Hsend, Hget. cbn. rewrite Hrd. cbn.
      apply guarded_check_status.
    - destruct bound as [text|]; [|congruence]. cbn.
      rewrite Hconn, Hsend, Hget. cbn. rewrite Hrd. cbn.
      apply guarded_check_status. }
  assert (Hremove : ∃ resp_dict,
             rd_status resp_dict = status response
             ∧ rd_body resp_dict = body response
             ∧ remove_resource self http resource_path parse_response
               = check_status self resp_dict).
  { unfold remove_resource.
    destruct (Hdict parse_response) as (rd & Hrd & Hst & Hb).
    exists rd. split; [exact Hst|]. split; [exact Hb|].
    rewrite Hconn, Hsend, Hget. cbn. rewrite Hrd. reflexivity. }
  assert (Hretrieve : ∃ resp_dict,
             rd_status resp_dict = status response
             ∧ rd_body resp_dict = body response
             ∧ retrieve_resource self http resource_path parse_response
               = if is_proxy self then Ok (status response, resp_dict)
                 else if status response =? 401 then Raise ServiceUnavailable
                 else Ok (status response, resp_dict)).
  { unfold retrieve_resource.
    destruct (Hdict parse_response) as (rd & Hrd & Hst & Hb).
    exists rd. split; [exact Hst|]. split; [exact Hb|].
    rewrite Hconn, Hsend, Hget. cbn. rewrite Hrd. cbn. rewrite Hst.
    destruct (is_proxy self); [reflexivity|].
    destruct (status response =? 401); cbn; rewrite ?Hst; reflexivity. }
  destruct Hcreate as (rdc & Hc1 & Hc2 & ->).
  destruct Hupdate as (rdu & Hu1 & Hu2 & ->).
  destruct Hremove as (rdr & Hr1 & Hr2 & ->).
  destruct Hretrieve as (rdg & Hg1 & Hg2 & ->).
  split; [|split; [|split]].
  - intros Hdirect Hst.
    rewrite !check_status_direct by exact Hdirect.
    rewrite Hdirect, Hc1, Hu1, Hr1.
    destruct (status response <? 400) eqn:E; [|apply Z.ltb_ge in E; lia].
    destruct (status response =? 401) eqn:E401;
      [apply Z.eqb_eq in E401; lia|].
    repeat split; eexists; (split; [reflexivity|]); split; assumption.
  - intros Hdirect Hst.
    rewrite !check_status_direct by exact Hdirect.
    rewrite Hc1, Hu1, Hr1.
    destruct (status response <? 400) eqn:E; [apply Z.ltb_lt in E; lia|].
    repeat split.
  - intros Hdirect Hst. rewrite Hdirect, Hst. reflexivity.
  - intros Hproxy. unfold check_status. rewrite Hproxy, Hc1, Hu1, Hr1.
    repeat split; eexists; (split; [reflexivity|]); split; assumption.
Qed.

(** The theorem at a client that is not a proxy, on a server that
    answers 503. *)
Lemma rest_status_handling_witness :
  @create_resource Examples.plain_serializer (Examples.rest_client false)
    (Examples.answering 503) "lbvservers" "lbvserver" (VStr "<lbvserver/>")
  = Raise ServiceUnavailable
  ∧ @update_resource Examples.plain_serializer (Examples.rest_client false)
      (Examples.answering 503) "lbvservers" "lbvserver"
      (VStr "<lbvserver/>")
    = Raise ServiceUnavailable
  ∧ @remove_resource Examples.plain_serializer (Examples.rest_client false)
      (Examples.answering 503) "lbvservers" true
    = Raise ServiceUnavailable.
Proof.
  refine (proj1 (proj2
    (@rest_status_handling Examples.plain_serializer
       (Examples.rest_client false) (Examples.answering 503)
       {| status := 503; body := ""; headers := [] |}
       "lbvservers" "lbvserver" (VStr "<lbvserver/>") true
       eq_refl (fun _ => eq_refl) (fun _ => eq_refl)
       (fun name _ => ex_intro _ name eq_refl)
       (ex_intro _ (VStr "") eq_refl) _)) eq_refl _).
  - discriminate.
  - cbn. lia.
Defined.

(** [C9, as stated, fails] A client built as a proxy raises nothing at
    500 nor at 401: it returns the status with the response.  And outside
    proxy mode 401 raises the error that 500 raises. *)
Lemma rest_status_handling_counterexample :
  (∃ resp_dict,
     @create_resource Examples.plain_serializer (Examples.rest_client true)
       (Examples.answering 500) "lbvservers" "lbvserver"
       (VStr "<lbvserver/>") = Ok (500, resp_dict))
  ∧ (∃ resp_dict,
       @remove_resource Examples.plain_serializer (Examples.rest_client true)
         (Examples.answering 401) "lbvservers" true = Ok (401, resp_dict))
  ∧ @create_resource Examples.plain_serializer (Examples.rest_client false)
      (Examples.answering 401) "lbvservers" "lbvserver" (VStr "<lbvserver/>")
    = @create_resource Examples.plain_serializer (Examples.rest_client false)
        (Examples.answering 500) "lbvservers" "lbvserver"
        (VStr "<lbvserver/>").
Proof.
  split; [|split].
  - eexists. reflexivity.
  - eexists. reflexivity.
  - reflexivity.
Qed.

End RestClientFacts.

(** ** The callbacks of the agent driver *)

Module CallbackFacts.
Import NetScaler.

Ltac run :=
  unfold try_except, mbind, M_bind, mret, M_ret, Py.bind, Py.ret, Py.lift,
    Py.gets, Py.raise, Py.modify in *;
  cbn beta iota in *.

Lemma no_port_id_Some (port_id : string) :
  port_id ≠ "" → no_port_id (Some port_id) = false.
Proof. intros Hne. cbn. apply String.eqb_neq. exact Hne. Qed.

(** [C6, as the callbacks have it] On any network provider: when the
    lookup of the port raises [PortNotFound], [unplug_vip_port] and
    [plug_vip_port] alike return without an update; when the lookup finds
    the port and the update raises [PortNotFound], [unplug_vip_port]
    returns and [plug_vip_port] raises that exception. *)
Theorem port_not_found_in_callbacks {S : Type} `{Runtime}
    (self_plugin : LbPlugin S) (port_id : string) (host : option string)
    (w : S) :
  port_id ≠ "" →
  let core := _core_plugin self_plugin in
  (∀ gone w1,
     get_port core port_id w = (Raise (PortNotFound gone), w1) →
     unplug_vip_port self_plugin (Some port_id) host w = (Ok tt, w1)
     ∧ plug_vip_port self_plugin (Some port_id) host w = (Ok tt, w1))
  ∧ (∀ port w1,
       get_port core port_id w = (Ok port, w1) →
       (∀ gone w2,
          update_port core port_id (set_plugged port false "" "") w1
          = (Raise (PortNotFound gone), w2) →
          unplug_vip_port self_plugin (Some port_id) host w = (Ok tt, w2))
       ∧ (∀ gone w2,
            update_port core port_id
              (set_plugged port true ("neutron:" +:+ LOADBALANCER)
                 (uuid5_NAMESPACE_DNS (str host))) w1
            = (Raise (PortNotFound gone), w2) →
            plug_vip_port self_plugin (Some port_id) host w
            = (Raise (PortNotFound gone), w2))).
Proof.
  intros Hne. cbv zeta. split.
  - intros gone w1 Hget. unfold unplug_vip_port, plug_vip_port.
    rewrite (no_port_id_Some _ Hne). run. change (default "" (Some port_id)) with port_id.
    rewrite Hget. cbn. split; reflexivity.
  - intros port w1 Hget. split; intros gone w2 Hupd.
    + unfold unplug_vip_port. rewrite (no_port_id_Some _ Hne). run.
      change (default "" (Some port_id)) with port_id. rewrite Hget. cbn beta iota. rewrite Hupd.
      reflexivity.
    + unfold plug_vip_port. rewrite (no_port_id_Some _ Hne). run.
      change (default "" (Some port_id)) with port_id. rewrite Hget. cbn beta iota. rewrite Hupd.
      reflexivity.
Qed.

(** The theorem on a provider that loses the port between the lookup and
    the update. *)
Lemma port_not_found_in_callbacks_witness :
  @unplug_vip_port nat Examples.racing_plugin (Some "vip-port") (Some "h1")
    0%nat = (Ok tt, 2%nat)
  ∧ @plug_vip_port nat Examples.runtime Examples.racing_plugin
      (Some "vip-port") (Some "h1") 0%nat
    = (Raise (PortNotFound "vip-port"), 2%nat).
Proof.
  destruct (@port_not_found_in_callbacks nat Examples.runtime
              Examples.racing_plugin "vip-port" (Some "h1") 0%nat)
    as [_ Hfound]; [discriminate|].
  destruct (Hfound Examples.vip_port 1%nat eq_refl) as [Hunplug Hplug].
  split.
  - apply (Hunplug "vip-port"). reflexivity.
  - apply (Hplug "vip-port"). reflexivity.
Defined.

(** [C6, as stated, fails] On the bare platform no port is called
    [gone]: the lookup of [plug_vip_port] raises [PortNotFound], and the
    callback returns instead of raising it. *)
Lemma port_not_found_in_callbacks_counterexample :
  fst (get_port Platform.core_plugin "gone" Examples.bare_platform)
  = Raise (PortNotFound "gone")
  ∧ fst (@plug_vip_port _ Examples.runtime Platform.lb_plugin (Some "gone")
           (Some "h1") Examples.bare_platform)
    = Ok tt
  ∧ Platform.ports
      (snd (@plug_vip_port _ Examples.runtime Platform.lb_plugin
              (Some "gone") (Some "h1") Examples.bare_platform))
    = Platform.ports Examples.bare_platform.
Proof. repeat split. Qed.

End CallbackFacts.

(** ** The agent driver on the platform *)

Module PlatformFacts.
Import NetScaler Platform.

Lemma bind_run {S A B} (m : M S A) (k : A → M S B) (w : S) :
  (m ≫= k) w
  = match m w with
    | (Ok a, w1) => k a w1
    | (Raise e, w1) => (Raise e, w1)
    end.
Proof. reflexivity. Qed.

(** Two descriptions of one world differ by the bracketing of the
    events. *)
Ltac same_world :=
  unfold mret, M_ret, Py.ret, Py.lift, emit, record, set_ports, set_pools,
    set_hosting;
  cbn;
  repeat first [ reflexivity
               | progress rewrite <- ?app_assoc
               | progress f_equal ].

(** *** Filters *)

Lemma passes_snat_filter (network tenant subnet : string) (p : Port) :
  passes port_attr (snat_filter network tenant subnet) p
  ↔ name (port_data p) = snatport_name subnet
    ∧ tenant_id (port_data p) = tenant
    ∧ port_network_id (port_data p) = network.
Proof.
  unfold passes, snat_filter.
  rewrite !map_Forall_insert
    by (repeat (rewrite lookup_insert_ne by discriminate);
        apply lookup_empty).
  cbn. rewrite !list_elem_of_singleton.
  pose proof (@map_Forall_empty string (gmap string) _ _ _ _ _ _ _ _ _
                (list string)
                (fun key allowed =>
                   match port_attr p key with
                   | Some v => v ∈ allowed
                   | None => False
                   end)) as Hempty.
  tauto.
Qed.

Lemma passes_pool_filter (tenant subnet : string) (p : Pool) :
  passes pool_attr (pool_filter tenant subnet) p
  ↔ pool_tenant_id p = tenant ∧ pool_subnet_id p = subnet.
Proof.
  unfold passes, pool_filter.
  rewrite !map_Forall_insert
    by (repeat (rewrite lookup_insert_ne by discriminate);
        apply lookup_empty).
  cbn. rewrite !list_elem_of_singleton.
  pose proof (@map_Forall_empty string (gmap string) _ _ _ _ _ _ _ _ _
                (list string)
                (fun key allowed =>
                   match pool_attr p key with
                   | Some v => v ∈ allowed
                   | None => False
                   end)) as Hempty.
  tauto.
Qed.


(** *** The helpers of the driver, call by call *)

Lemma get_pool_network_info_run (pool : Pool) (w : world) :
  _get_pool_network_info driver pool w
  = match subnets w !! pool_subnet_id pool with
    | None =>
        (Raise (SubnetNotFound (pool_subnet_id pool)),
         emit [ev_get_subnet (pool_subnet_id pool)] w)
    | Some network =>
        (match networks w !! network with
         | None => Raise (NetworkNotFound network)
         | Some n =>
             Ok (copy_if_present (provider_segmentation_id n)
                   "segmentation_id"
                   (copy_if_present (provider_network_type n) "network_type"
                      (<["subnet_id" := VStr (pool_subnet_id pool)]>
                         (<["network_id" := VStr network]> ∅))))
         end,
         emit [ev_get_subnet (pool_subnet_id pool); ev_get_network network] w)
    end.
Proof.
  unfold _get_pool_network_info. cbn.
  unfold mbind, M_bind, Py.bind. cbn.
  destruct (subnets w !! pool_subnet_id pool) as [network|]; [|reflexivity].
  cbn. destruct (networks w !! network); same_world.
Qed.

Lemma get_snatport_run (tenant subnet : string) (w : world) :
  _get_snatport_for_subnet driver tenant subnet w
  = match subnets w !! subnet with
    | None => (Raise (SubnetNotFound subnet), emit [ev_get_subnet subnet] w)
    | Some network =>
        (Ok (head (snat_ports network tenant subnet w)),
         emit [ev_get_subnet subnet;
               ev_get_ports (snat_filter network tenant subnet)] w)
    end.
Proof.
  unfold _get_snatport_for_subnet. cbn.
  unfold mbind, M_bind, Py.bind. cbn.
  destruct (subnets w !! subnet) as [network|]; [|reflexivity].
  cbn. fold (snat_filter network tenant subnet).
  fold (snat_ports network tenant subnet w).
  destruct (snat_ports network tenant subnet w); same_world.
Qed.

Lemma create_snatport_if_not_exists_run (tenant subnet : string)
    (network_info : dict) (w : world) :
  _create_snatport_for_subnet_if_not_exists driver tenant subnet network_info
    w
  = match subnets w !! subnet with
    | None => (Raise (SubnetNotFound subnet), emit [ev_get_subnet subnet] w)
    | Some network =>
        let finish (port : Port) : result dict :=
          match first_fixed_ip_address port with
          | Ok snat_ip =>
              Ok (<["snat_ip" := VStr snat_ip]>
                    (<["port_id" := VStr (port_id port)]> network_info))
          | Raise e => Raise e
          end in
        match head (snat_ports network tenant subnet w) with
        | Some port =>
            (finish port,
             emit [ev_get_subnet subnet;
                   ev_get_ports (snat_filter network tenant subnet)] w)
        | None =>
            (finish (new_snat_port network tenant subnet w),
             emit [ev_get_subnet subnet;
                   ev_get_ports (snat_filter network tenant subnet);
                   ev_get_subnet subnet;
                   ev_create_port (snat_port_data network tenant subnet)]
               (set_ports
                  (ports w ++ [new_snat_port network tenant subnet w]) w))
        end
    end.
Proof.
  unfold _create_snatport_for_subnet_if_not_exists.
  rewrite bind_run, get_snatport_run.
  destruct (subnets w !! subnet) as [network|] eqn:Hsubnet; [|reflexivity].
  cbv zeta.
  destruct (head (snat_ports network tenant subnet w)) as [port|].
  - rewrite bind_run. cbn.
    unfold mbind, M_bind, Py.bind, Py.lift. cbn.
    destruct (first_fixed_ip_address port); same_world.
  - rewrite bind_run. unfold _create_snatport_for_subnet.
    rewrite bind_run. cbn. rewrite Hsubnet. cbn.
    unfold mbind, M_bind, Py.bind, Py.lift. cbn. same_world.
Qed.

Lemma get_pools_on_subnet_run (tenant subnet : string) (w : world) :
  _get_pools_on_subnet driver tenant subnet w
  = (Ok (pools_on tenant subnet w),
     emit [ev_get_pools (pool_filter tenant subnet)] w).
Proof. reflexivity. Qed.

Lemma remove_snatport_if_not_used_run (tenant subnet : string) (w : world) :
  _remove_snatport_for_subnet_if_not_used driver tenant subnet w
  = match pools_on tenant subnet w with
    | _ :: _ => (Ok tt, emit [ev_get_pools (pool_filter tenant subnet)] w)
    | [] =>
        match subnets w !! subnet with
        | None =>
            (Raise (SubnetNotFound subnet),
             emit [ev_get_pools (pool_filter tenant subnet);
                   ev_get_subnet subnet] w)
        | Some network =>
            match head (snat_ports network tenant subnet w) with
            | None =>
                (Ok tt,
                 emit [ev_get_pools (pool_filter tenant subnet);
                       ev_get_subnet subnet;
                       ev_get_ports (snat_filter network tenant subnet)] w)
            | Some port =>
                (Ok tt,
                 emit [ev_get_pools (pool_filter tenant subnet);
                       ev_get_subnet subnet;
                       ev_get_ports (snat_filter network tenant subnet);
                       ev_delete_port (port_id port)]
                   (set_ports
                      (filter (fun p => port_id p ≠ port_id port) (ports w))
                      w))
            end
        end
    end.
Proof.
  unfold _remove_snatport_for_subnet_if_not_used.
  rewrite bind_run, get_pools_on_subnet_run.
  destruct (pools_on tenant subnet w); [|reflexivity].
  unfold _remove_snatport_for_subnet. rewrite bind_run, get_snatport_run.
  cbn [subnets emit].
  destruct (subnets w !! subnet) as [network|]; [|same_world].
  change (snat_ports network tenant subnet
            (emit [ev_get_pools (pool_filter tenant subnet)] w))
    with (snat_ports network tenant subnet w).
  destruct (head (snat_ports network tenant subnet w)) as [port|] eqn:Hhead;
    [|same_world].
  cbn. destruct (decide (port_id port ∈ port_id <$> ports w)) as [|Hout];
    [same_world|].
  contradiction Hout. apply list_elem_of_fmap_2.
  apply head_Some_elem_of in Hhead.
  unfold snat_ports in Hhead. apply list_elem_of_filter in Hhead. tauto.
Qed.

Lemma get_pool_agent_run (id : string) (w : world) :
  get_pool_agent driver id w
  = (match hosting w !! id with
     | Some agent => Ok agent
     | None => Raise (NoActiveLbaasAgent id)
     end,
     emit [ev_get_lbaas_agent_hosting_pool id] w).
Proof.
  unfold get_pool_agent. rewrite bind_run. cbn.
  destruct (hosting w !! id); reflexivity.
Qed.




(** *** The SNAT port of a subnet and the pools on it *)




(** Under the invariant the lookup of the driver finds the SNAT port of a
    tenant on a subnet exactly when there is one. *)
Lemma snat_ports_found (w : world) (network tenant subnet : string) :
  consistent w → subnets w !! subnet = Some network →
  (snat_port_exists w tenant subnet
   ↔ ∃ port, head (snat_ports network tenant subnet w) = Some port).
Proof.
  intros Hw Hsubnet. split.
  - intros (p & Hp & Hname & Htenant).
    destruct (snat_port_placed w Hw p subnet Hp Hname) as [Hnet _].
    assert (Hin : p ∈ snat_ports network tenant subnet w).
    { apply list_elem_of_filter. split; [|exact Hp].
      apply passes_snat_filter. repeat split; congruence. }
    destruct (snat_ports network tenant subnet w) as [|q l];
      [inversion Hin | exists q; reflexivity].
  - intros [port Hhead]. apply head_Some_elem_of in Hhead.
    apply list_elem_of_filter in Hhead as [Hpass Hin].
    apply passes_snat_filter in Hpass as (Hname & Htenant & _).
    exists port. auto.
Qed.






(** The invariant read as the equivalence of the claim. *)
Lemma consistent_iff (w : world) (tenant subnet : string) :
  consistent w →
  (snat_port_exists w tenant subnet ↔ pool_references w tenant subnet).
Proof.
  intros Hw. split.
  - intros (p & Hp & Hname & <-).
    apply (snat_port_placed w Hw p subnet Hp Hname).
  - intros (q & Hq & <- & <-). apply (pool_served w Hw q Hq).
Qed.

Lemma consistent_without_pools (w : world) :
  ports w = [] → pools w = [] → consistent w.
Proof.
  intros Hports Hpools.
  constructor; rewrite ?Hports, ?Hpools; try constructor;
    intros; match goal with H : _ ∈ [] |- _ => inversion H end.
Qed.






(** The ports along that run: one SNAT port after the first creation, the
    same after the second and after the first deletion, none at the
    end. *)
Lemma two_pools_one_snat_port :
  let ports_after ops :=
    (fun p => (port_id p, name (port_data p)))
      <$> ports (snd (run ops Examples.bare_platform)) in
  ports_after [CreatePool Examples.pool_A] = [("0", "_lb-snatport-S1")]
  ∧ ports_after [CreatePool Examples.pool_A; CreatePool Examples.pool_B]
    = [("0", "_lb-snatport-S1")]
  ∧ ports_after [CreatePool Examples.pool_A; CreatePool Examples.pool_B;
                 DeletePool "A"]
    = [("0", "_lb-snatport-S1")]
  ∧ ports_after [CreatePool Examples.pool_A; CreatePool Examples.pool_B;
                 DeletePool "A"; DeletePool "B"]
    = [].
Proof. vm_compute. repeat split. Qed.

End PlatformFacts.

(** ** The edge driver: conversions *)

Module EdgeLbConversions.
Import VcnsDb EdgeLb EdgeLbFacts Vocabulary.

(** What a pool conversion that returns is made of. *)
Lemma convert_lb_pool_returns `{LbConstants} (edge_id : string) (pool : dict)
    (members : list value) (w w' : world) (vsepool : dict) :
  _convert_lb_pool edge_id pool members w = (Ok vsepool, w') →
  w' = w
  ∧ ∃ algorithm member monitorId,
      table_get BALANCE_MAP (get pool "lb_method") "round-robin"
      = Ok algorithm
      ∧ convert_members members = Ok member
      ∧ vsepool
        = <["monitorId" := VList monitorId]>
            (<["member" := VList member]>
               (<["algorithm" := VStr algorithm]>
                  (<["name" := get pool "name"]> ∅)))
      ∧ (if truthy (get pool "health_monitors")
         then ∃ monitor0 b,
                first_item (get pool "health_monitors") = Ok monitor0
                ∧ get_vcns_edge_monitor_binding (session w) monitor0 edge_id
                  = Some b
                ∧ monitorId = [VStr (monitor_vseid b)]
         else monitorId = []).
Proof.
  unfold _convert_lb_pool. run.
  destruct (table_get _ _ _) as [algorithm|]; [|discriminate]. cbn.
  destruct (convert_members members) as [member|]; [|discriminate]. cbn.
  destruct (truthy (get pool "health_monitors")); cbn.
  - destruct (first_item _) as [monitor0|]; [|discriminate]. cbn.
    destruct (get_vcns_edge_monitor_binding _ _ _) as [b|] eqn:Hb;
      [|discriminate].
    intros E. injection E as <- <-. split; [reflexivity|].
    exists algorithm, member, [VStr (monitor_vseid b)].
    repeat split. exists monitor0, b. auto.
  - intros E. injection E as <- <-. split; [reflexivity|].
    exists algorithm, member, []. repeat split.
Qed.

(** [X1] The balancing algorithm of the backend pool, for three distinct
    method names: the table entry of the method, and ['round-robin'] for a
    method the table does not have and for a pool without a method. *)
Theorem pool_algorithm_of_method `{LbConstants} (edge_id : string)
    (pool : dict) (members : list value) (w w' : world) (vsepool : dict) :
  _convert_lb_pool edge_id pool members w = (Ok vsepool, w') →
  NoDup [LB_METHOD_ROUND_ROBIN; LB_METHOD_LEAST_CONNECTIONS;
         LB_METHOD_SOURCE_IP] →
  let algorithm := vsepool !! "algorithm" in
  (get pool "lb_method" = VStr LB_METHOD_ROUND_ROBIN →
   algorithm = Some (VStr "round-robin"))
  ∧ (get pool "lb_method" = VStr LB_METHOD_LEAST_CONNECTIONS →
     algorithm = Some (VStr "leastconn"))
  ∧ (get pool "lb_method" = VStr LB_METHOD_SOURCE_IP →
     algorithm = Some (VStr "source"))
  ∧ (∀ method,
       get pool "lb_method" = VStr method →
       method ∉ [LB_METHOD_ROUND_ROBIN; LB_METHOD_LEAST_CONNECTIONS;
                 LB_METHOD_SOURCE_IP] →
       algorithm = Some (VStr "round-robin"))
  ∧ (pool !! "lb_method" = None → algorithm = Some (VStr "round-robin")).
Proof.
  intros Hrun Hdistinct.
  apply NoDup_cons in Hdistinct as [Hr Hdistinct].
  apply NoDup_cons in Hdistinct as [Hl _].
  assert (Hrl : LB_METHOD_ROUND_ROBIN ≠ LB_METHOD_LEAST_CONNECTIONS)
    by (intros E; apply Hr; rewrite E; apply elem_of_cons; auto).
  assert (Hrs : LB_METHOD_ROUND_ROBIN ≠ LB_METHOD_SOURCE_IP)
    by (intros E; apply Hr; rewrite E; rewrite !elem_of_cons; auto).
  assert (Hls : LB_METHOD_LEAST_CONNECTIONS ≠ LB_METHOD_SOURCE_IP)
    by (intros E; apply Hl; rewrite E; apply elem_of_cons; auto).
  destruct (convert_lb_pool_returns _ _ _ _ _ _ Hrun)
    as (_ & algorithm & member & monitorId & Halg & _ & -> & _).
  cbv zeta. rewrite lookup_insert_ne by discriminate.
  rewrite lookup_insert_ne by discriminate. rewrite lookup_insert_eq.
  unfold table_get, BALANCE_MAP in Halg.
  split; [|split; [|split; [|split]]].
  - intros E. rewrite E in Halg.
    rewrite !lookup_insert_ne in Halg by congruence.
    rewrite lookup_insert_eq in Halg. cbn in Halg. congruence.
  - intros E. rewrite E in Halg.
    rewrite lookup_insert_ne in Halg by congruence.
    rewrite lookup_insert_eq in Halg. cbn in Halg. congruence.
  - intros E. rewrite E in Halg. rewrite lookup_insert_eq in Halg.
    cbn in Halg. congruence.
  - intros method E Hnew. rewrite E in Halg.
    assert (method ≠ LB_METHOD_ROUND_ROBIN
            ∧ method ≠ LB_METHOD_LEAST_CONNECTIONS
            ∧ method ≠ LB_METHOD_SOURCE_IP) as (? & ? & ?)
      by (repeat split; intros ->; apply Hnew; rewrite !elem_of_cons; auto).
    rewrite !lookup_insert_ne in Halg by congruence.
    rewrite lookup_empty in Halg. cbn in Halg. congruence.
  - intros E. unfold get in Halg. rewrite E in Halg. cbn in Halg.
    congruence.
Qed.

(** The theorem at a pool balanced by source address. *)
Lemma pool_algorithm_of_method_witness :
  ∃ vsepool,
    @_convert_lb_pool Examples.constants "edge-1" Examples.source_pool []
      Examples.edge_world = (Ok vsepool, Examples.edge_world)
    ∧ vsepool !! "algorithm" = Some (VStr "source").
Proof.
  eexists. split; [reflexivity|].
  refine (proj1 (proj2 (proj2
    (@pool_algorithm_of_method Examples.constants "edge-1"
       Examples.source_pool [] Examples.edge_world _ _ eq_refl _))) eq_refl).
  apply (bool_decide_unpack _). vm_compute. exact I.
Defined.

(** [X2] The members are converted one by one and in their order: the
    conversion returns exactly when every member has an address and a
    port, and then the entries are as many as the members. *)
Theorem members_flattened (members entries : list value) :
  convert_members members = Ok entries
  ↔ Forall2 member_entry members entries.
Proof.
  revert entries. induction members as [|member rest IH]; intros entries.
  - cbn. split.
    + intros E. injection E as <-. constructor.
    + intros Hall. inversion Hall. reflexivity.
  - cbn [convert_members]. split.
    + destruct (subscript member "address") as [address|] eqn:Ha;
        [|discriminate].
      destruct (subscript member "protocol_port") as [port|] eqn:Hp;
        [|discriminate].
      destruct (convert_members rest) as [l|] eqn:Hrest; [|discriminate].
      intros E. injection E as <-. constructor.
      * exists address, port. auto.
      * apply IH. reflexivity.
    + intros Hall. inversion Hall as [|? entry ? l Hentry Hrest]; subst.
      destruct Hentry as (address & port & -> & -> & ->).
      apply IH in Hrest. rewrite Hrest. reflexivity.
Qed.

(** [X3] Of the health monitors of a pool only the first reaches the backend
    pool: what follows it in the list changes nothing; a pool without
    monitors gets none, and with a first monitor that is not bound on the
    edge the conversion does not return. *)
Theorem only_first_monitor_attached `{LbConstants} (edge_id : string)
    (pool : dict) (members : list value) (monitor : value)
    (others : list value) (w : world) :
  let with_monitors (l : list value) :=
    <["health_monitors" := VList l]> pool in
  _convert_lb_pool edge_id (with_monitors (monitor :: others)) members w
  = _convert_lb_pool edge_id (with_monitors [monitor]) members w
  ∧ (∀ vsepool w',
       _convert_lb_pool edge_id (with_monitors (monitor :: others)) members w
       = (Ok vsepool, w') →
       ∃ b,
         get_vcns_edge_monitor_binding (session w) monitor edge_id = Some b
         ∧ vsepool !! "monitorId" = Some (VList [VStr (monitor_vseid b)]))
  ∧ (∀ vsepool w',
       _convert_lb_pool edge_id (with_monitors []) members w
       = (Ok vsepool, w') →
       vsepool !! "monitorId" = Some (VList []))
  ∧ (get_vcns_edge_monitor_binding (session w) monitor edge_id = None →
     ∀ vsepool w',
       _convert_lb_pool edge_id (with_monitors (monitor :: others)) members w
       ≠ (Ok vsepool, w')).
Proof.
  cbv zeta. split; [|split; [|split]].
  - unfold _convert_lb_pool, get. rewrite !lookup_insert_eq.
    rewrite !lookup_insert_ne by discriminate. reflexivity.
  - intros vsepool w' Hrun.
    destruct (convert_lb_pool_returns _ _ _ _ _ _ Hrun)
      as (_ & algorithm & member & monitorId & _ & _ & -> & Hmon).
    unfold get in Hmon. rewrite lookup_insert_eq in Hmon. cbn in Hmon.
    destruct Hmon as (monitor0 & b & E & Hb & ->). injection E as <-.
    exists b. split; [exact Hb | apply lookup_insert_eq].
  - intros vsepool w' Hrun.
    destruct (convert_lb_pool_returns _ _ _ _ _ _ Hrun)
      as (_ & algorithm & member & monitorId & _ & _ & -> & Hmon).
    unfold get in Hmon. rewrite lookup_insert_eq in Hmon. cbn in Hmon.
    subst monitorId. apply lookup_insert_eq.
  - intros Hnone vsepool w' Hrun.
    destruct (convert_lb_pool_returns _ _ _ _ _ _ Hrun)
      as (_ & algorithm & member & monitorId & _ & _ & _ & Hmon).
    unfold get in Hmon. rewrite lookup_insert_eq in Hmon. cbn in Hmon.
    destruct Hmon as (monitor0 & b & E & Hb & _). injection E as <-.
    congruence.
Qed.

(** The theorem at a pool with the bound monitor [M] and a second
    monitor. *)
Lemma only_first_monitor_attached_witness :
  ∃ b,
    get_vcns_edge_monitor_binding (session Examples.monitored_world)
      (VStr "M") "edge-1" = Some b
    ∧ ∀ vsepool w',
        @_convert_lb_pool Examples.constants "edge-1"
          (<["health_monitors" := VList [VStr "M"; VStr "M2"]]>
             Examples.source_pool) [] Examples.monitored_world
        = (Ok vsepool, w') →
        vsepool !! "monitorId" = Some (VList [VStr (monitor_vseid b)]).
Proof.
  exists Examples.monitor_binding. split; [reflexivity|].
  intros vsepool w' Hrun.
  destruct (proj1 (proj2
    (@only_first_monitor_attached Examples.constants "edge-1"
       Examples.source_pool [] (VStr "M") [VStr "M2"]
       Examples.monitored_world)) vsepool w' Hrun) as (b & Hb & Hid).
  injection Hb as <-. exact Hid.
Defined.

(** What a monitor conversion does: it fails for a type that cannot be
    a key, and returns the five fields otherwise, in the same world. *)
Lemma convert_lb_monitor_run `{LbConstants} (monitor : dict) (w : world) :
  _convert_lb_monitor monitor w
  = (match table_get PROTOCOL_MAP (get monitor "type") "http" with
     | Ok type =>
         Ok (<["name" := get monitor "id"]>
               (<["maxRetries" := get monitor "max_retries"]>
                  (<["timeout" := get monitor "timeout"]>
                     (<["interval" := get monitor "delay"]>
                        (<["type" := VStr type]> ∅)))))
     | Raise e => Raise e
     end, w).
Proof.
  unfold _convert_lb_monitor. run.
  destruct (table_get _ _ _); reflexivity.
Qed.

(** [X4] The type of a backend monitor is ['tcp'] or ['http'] and nothing
    else: ['http'] stands for every type the table does not have and for
    a monitor without a type, and a type that is a list or a dictionary
    fails the conversion with [TypeError]. *)
Theorem monitor_type_is_tcp_or_http `{LbConstants} (monitor : dict)
    (w : world) :
  (∀ monitor_vse w',
     _convert_lb_monitor monitor w = (Ok monitor_vse, w') →
     monitor_vse !! "type" = Some (VStr "tcp")
     ∨ monitor_vse !! "type" = Some (VStr "http"))
  ∧ (∀ type,
       get monitor "type" = VStr type →
       type ∉ [PROTOCOL_TCP; PROTOCOL_HTTP; PROTOCOL_HTTPS] →
       ∃ monitor_vse,
         _convert_lb_monitor monitor w = (Ok monitor_vse, w)
         ∧ monitor_vse !! "type" = Some (VStr "http"))
  ∧ (monitor !! "type" = None →
     ∃ monitor_vse,
       _convert_lb_monitor monitor w = (Ok monitor_vse, w)
       ∧ monitor_vse !! "type" = Some (VStr "http"))
  ∧ ((∃ l, get monitor "type" = VList l) ∨ (∃ d, get monitor "type" = VDict d)
     → _convert_lb_monitor monitor w = (Raise TypeError, w)).
Proof.
  rewrite convert_lb_monitor_run. split; [|split; [|split]].
  - intros monitor_vse w'. unfold table_get, PROTOCOL_MAP.
    assert (Htable : ∀ s,
              default "http"
                ((<[PROTOCOL_HTTPS := "tcp"]>
                    (<[PROTOCOL_HTTP := "http"]>
                       (<[PROTOCOL_TCP := "tcp"]> ∅)) : gmap string string)
                   !! s) = "tcp"
              ∨ default "http"
                  ((<[PROTOCOL_HTTPS := "tcp"]>
                      (<[PROTOCOL_HTTP := "http"]>
                         (<[PROTOCOL_TCP := "tcp"]> ∅)) : gmap string string)
                     !! s) = "http").
    { intros s.
      destruct (decide (PROTOCOL_HTTPS = s)) as [->|?];
        [rewrite lookup_insert_eq; auto|].
      rewrite lookup_insert_ne by assumption.
      destruct (decide (PROTOCOL_HTTP = s)) as [->|?];
        [rewrite lookup_insert_eq; auto|].
      rewrite lookup_insert_ne by assumption.
      destruct (decide (PROTOCOL_TCP = s)) as [->|?];
        [rewrite lookup_insert_eq; auto|].
      rewrite lookup_insert_ne by assumption. rewrite lookup_empty. auto. }
    destruct (get monitor "type") as [| | |s| |]; try discriminate;
      intros E; injection E as <- <-;
      rewrite !lookup_insert_ne by discriminate; rewrite lookup_insert_eq;
      try (right; reflexivity).
    destruct (Htable s) as [-> | ->]; auto.
  - intros type E Hnew. rewrite E. unfold table_get, PROTOCOL_MAP.
    assert (type ≠ PROTOCOL_TCP ∧ type ≠ PROTOCOL_HTTP
            ∧ type ≠ PROTOCOL_HTTPS) as (? & ? & ?)
      by (repeat split; intros ->; apply Hnew; rewrite !elem_of_cons; auto).
    rewrite !lookup_insert_ne by congruence. rewrite lookup_empty.
    eexists. split; [reflexivity|].
    rewrite !lookup_insert_ne by discriminate. apply lookup_insert_eq.
  - intros E. unfold get. rewrite E. cbn.
    eexists. split; [reflexivity|].
    rewrite !lookup_insert_ne by discriminate. apply lookup_insert_eq.
  - intros [[l ->]|[d ->]]; reflexivity.
Qed.

(** The theorem at a monitor of the type [PING]. *)
Lemma monitor_type_is_tcp_or_http_witness :
  ∃ monitor_vse,
    @_convert_lb_monitor Examples.constants
      (<["type" := VStr "PING"]> Examples.https_monitor) Examples.edge_world
    = (Ok monitor_vse, Examples.edge_world)
    ∧ monitor_vse !! "type" = Some (VStr "http").
Proof.
  apply (proj1 (proj2
    (@monitor_type_is_tcp_or_http Examples.constants
       (<["type" := VStr "PING"]> Examples.https_monitor)
       Examples.edge_world)) "PING"); [reflexivity|].
  apply (bool_decide_unpack _). vm_compute. exact I.
Defined.

(** [X5] Converting a monitor to the backend shape and back gives its delay,
    timeout, retries and id; the type is not among the fields that come
    back. *)
Theorem monitor_round_trip `{LbConstants} (monitor : dict)
    (edge_id : string) (w : world) (monitor_vse : dict) :
  _convert_lb_monitor monitor w = (Ok monitor_vse, w) →
  ∃ restored,
    _restore_lb_monitor edge_id (VDict monitor_vse) w = (Ok restored, w)
    ∧ restored !! "delay" = Some (get monitor "delay")
    ∧ restored !! "timeout" = Some (get monitor "timeout")
    ∧ restored !! "max_retries" = Some (get monitor "max_retries")
    ∧ restored !! "id" = Some (get monitor "id")
    ∧ restored !! "type" = None.
Proof.
  rewrite convert_lb_monitor_run.
  destruct (table_get _ _ _) as [type|]; [|discriminate].
  intros E. injection E as <-.
  eexists. split.
  { unfold _restore_lb_monitor, subscript, getitem. run.
    lookup_key. reflexivity. }
  lookup_key. repeat split.
Qed.

(** The theorem at the monitor [M]. *)
Lemma monitor_round_trip_witness :
  ∃ monitor_vse restored,
    @_convert_lb_monitor Examples.constants Examples.https_monitor
      Examples.edge_world = (Ok monitor_vse, Examples.edge_world)
    ∧ _restore_lb_monitor "edge-1" (VDict monitor_vse) Examples.edge_world
      = (Ok restored, Examples.edge_world)
    ∧ restored !! "delay" = Some (VInt 5)
    ∧ restored !! "id" = Some (VStr "M")
    ∧ restored !! "type" = None.
Proof.
  eexists.
  destruct (@monitor_round_trip Examples.constants Examples.https_monitor
              "edge-1" Examples.edge_world _ eq_refl)
    as (restored & Hrun & Hdelay & _ & _ & Hid & Htype).
  exists restored. repeat split; assumption.
Defined.

End EdgeLbConversions.

(** ** The operations of the edge driver *)

Module EdgeLbOperations.
Import VcnsDb EdgeLb EdgeLbFacts.

(** [X6] The creation of a health monitor makes one call on the appliance.
    An exception of the appliance reaches the caller as it is, logged
    when it is an API exception, and no binding is written; an answer
    without a [location], or a monitor without an [id], raises
    [KeyError] after the appliance has created the monitor, and no
    binding is written either; otherwise the binding of the monitor to
    the last segment of the location is added. *)
Theorem create_health_monitor_outcomes `{LbConstants} (self : EdgeLbDriver)
    (edge_id : string) (health_monitor monitor_new : dict) (w w' : world)
    (r : result unit) :
  _convert_lb_monitor health_monitor w = (Ok monitor_new, w) →
  create_health_monitor self edge_id health_monitor w = (r, w') →
  let call := Vcns.create_health_monitor edge_id monitor_new in
  vcns_calls w' = vcns_calls w ++ [call]
  ∧ (∀ e, vcns self (vcns_calls w) call = Raise e →
       r = Raise e
       ∧ session w' = session w
       ∧ log w'
         = if is_VcnsApiException e
           then log w ++ ["Failed to create monitor on edge: " +:+ edge_id]
           else log w)
  ∧ (∀ header body, vcns self (vcns_calls w) call = Ok (header, body) →
       log w' = log w
       ∧ match header !! "location", health_monitor !! "id" with
         | None, _ => r = Raise (KeyError "location") ∧ session w' = session w
         | Some _, None => r = Raise (KeyError "id") ∧ session w' = session w
         | Some objuri, Some id =>
             r = Ok tt
             ∧ session w'
               = add_vcns_edge_monitor_binding
                   {| monitor_id := id;
                      monitor_vseid :=
                        slice_from objuri (rfind objuri "/" + 1);
                      monitor_edge_id := edge_id |}
                   (session w)
         end).
Proof.
  intros Hconv Hrun. unfold create_health_monitor in Hrun. run.
  rewrite Hconv in Hrun. cbn beta iota in Hrun. cbn zeta.
  destruct (vcns self (vcns_calls w) _) as [[header body]|e] eqn:Hcall;
    cbn beta iota in Hrun.
  2:{ destruct (is_VcnsApiException e) eqn:Hapi; injection Hrun as <- <-;
        cbn; (split; [reflexivity|]);
        (split; [|intros ? ? E; discriminate E]);
        intros e' E; injection E as <-; rewrite ?Hapi; repeat split. }
  unfold getitem in Hrun.
  destruct (header !! "location") as [objuri|] eqn:Hloc;
    cbn beta iota in Hrun.
  2:{ injection Hrun as <- <-. cbn. split; [reflexivity|].
      split; [intros ? E; discriminate E|].
      intros header' body' E. injection E as <- <-.
      rewrite Hloc. repeat split. }
  destruct (health_monitor !! "id") as [id|] eqn:Hid; cbn beta iota in Hrun.
  2:{ injection Hrun as <- <-. cbn. split; [reflexivity|].
      split; [intros ? E; discriminate E|].
      intros header' body' E. injection E as <- <-.
      rewrite Hloc. repeat split. }
  injection Hrun as <- <-. cbn. split; [reflexivity|].
  split; [intros ? E; discriminate E|].
  intros header' body' E. injection E as <- <-.
  rewrite Hloc. repeat split.
Qed.

(** The theorem at the monitor [M], on an appliance that answers. *)
Lemma create_health_monitor_outcomes_witness :
  let out :=
    @create_health_monitor Examples.constants Examples.edge_driver "edge-1"
      Examples.https_monitor Examples.edge_world in
  fst out = Ok tt
  ∧ monitor_bindings (session (snd out))
    = [{| monitor_id := VStr "M";
          monitor_vseid := "monitor-1";
          monitor_edge_id := "edge-1" |}].
Proof.
  cbv zeta.
  destruct (@create_health_monitor_outcomes Examples.constants
              Examples.edge_driver "edge-1" Examples.https_monitor _
              Examples.edge_world _ _ eq_refl eq_refl)
    as (_ & _ & Hanswer).
  destruct (Hanswer _ _ eq_refl) as (_ & Hr & Hs).
  split; [exact Hr|].
  exact (eq_trans (f_equal monitor_bindings Hs) eq_refl).
Defined.

(** [X7] The creation of a pool writes its binding or nothing: a creation
    that raises leaves the bindings as they were; when the conversion of
    the pool fails, the appliance is not called at all; otherwise it is
    called once, with the converted pool, and its exception is the one
    the caller gets; a creation that returns has added one binding, of
    the [id] of the pool on the edge, and has touched no other table. *)
Theorem create_pool_all_or_nothing `{LbConstants} (self : EdgeLbDriver)
    (edge_id : string) (pool : dict) (members : list value) (w w' : world)
    (r : result unit) :
  create_pool self edge_id pool members w = (r, w') →
  (∀ e, r = Raise e → session w' = session w)
  ∧ (∀ e, fst (_convert_lb_pool edge_id pool members w) = Raise e →
       r = Raise e ∧ w' = w)
  ∧ (∀ pool_new,
       fst (_convert_lb_pool edge_id pool members w) = Ok pool_new →
       vcns_calls w' = vcns_calls w ++ [Vcns.create_pool edge_id pool_new]
       ∧ ∀ e, vcns self (vcns_calls w) (Vcns.create_pool edge_id pool_new)
              = Raise e → r = Raise e)
  ∧ (r = Ok tt →
     ∃ b,
       pool_bindings (session w') = pool_bindings (session w) ++ [b]
       ∧ pool !! "id" = Some (pool_id b)
       ∧ pool_edge_id b = edge_id
       ∧ vip_bindings (session w') = vip_bindings (session w)
       ∧ monitor_bindings (session w') = monitor_bindings (session w)).
Proof.
  intros Hrun. unfold create_pool in Hrun. run.
  pose proof (convert_lb_pool_pure edge_id pool members w) as Hpure.
  destruct (_convert_lb_pool edge_id pool members w) as [[pool_new|e0] w0];
    cbn in Hpure; subst w0; cbn beta iota in Hrun; cbn [fst].
  2:{ injection Hrun as <- <-.
      repeat split; try discriminate; congruence. }
  destruct (vcns self (vcns_calls w) _) as [[header body]|e] eqn:Hcall;
    cbn beta iota in Hrun.
  2:{ destruct (is_VcnsApiException e); injection Hrun as <- <-; cbn;
        (split; [reflexivity|]); (split; [discriminate|]);
        (split; [|discriminate]);
        intros ? E; injection E as <-; (split; [reflexivity|]);
        rewrite Hcall; congruence. }
  unfold getitem in Hrun.
  destruct (header !! "location") as [objuri|]; cbn beta iota in Hrun.
  2:{ injection Hrun as <- <-. cbn.
      split; [reflexivity|]. split; [discriminate|].
      split; [|discriminate].
      intros ? E. injection E as <-. split; [reflexivity|].
      rewrite Hcall. discriminate. }
  destruct (pool !! "id") as [id|]; cbn beta iota in Hrun.
  2:{ injection Hrun as <- <-. cbn.
      split; [reflexivity|]. split; [discriminate|].
      split; [|discriminate].
      intros ? E. injection E as <-. split; [reflexivity|].
      rewrite Hcall. discriminate. }
  injection Hrun as <- <-. cbn.
  split; [discriminate|]. split; [discriminate|]. split.
  - intros ? E. injection E as <-. split; [reflexivity|].
    rewrite Hcall. discriminate.
  - intros _. eexists. repeat split.
Qed.

(** The theorem at a pool with members that have no port: the conversion
    fails and nothing is done. *)
Lemma create_pool_all_or_nothing_witness :
  let w := Examples.edge_world in
  let out :=
    @create_pool Examples.constants Examples.edge_driver "edge-1"
      Examples.pool [VDict (<["address" := VStr "10.0.0.9"]> ∅)] w in
  fst out = Raise (KeyError "protocol_port") ∧ snd out = w.
Proof.
  cbv zeta.
  apply (proj1 (proj2
    (@create_pool_all_or_nothing Examples.constants Examples.edge_driver
       "edge-1" Examples.pool [VDict (<["address" := VStr "10.0.0.9"]> ∅)]
       Examples.edge_world _ _ (surjective_pairing _)))).
  reflexivity.
Defined.

(** A row that is looked up by the key it was added with, in a table
    where nothing had the key, is the row added. *)
Lemma find_app_new {A} (p : A → bool) (l : list A) (b : A) :
  List.find p l = None → p b = true → List.find p (l ++ [b]) = Some b.
Proof.
  intros Hnone Hb. induction l as [|a l IH]; cbn in *.
  - rewrite Hb. reflexivity.
  - destruct (p a); [discriminate|]. apply IH, Hnone.
Qed.

Lemma filter_app_new {A} (p : A → bool) (l : list A) (b : A) :
  List.find p l = None → p b = true →
  List.filter (fun x => negb (p x)) (l ++ [b]) = l.
Proof.
  intros Hnone Hb. induction l as [|a l IH]; cbn in *.
  - rewrite Hb. reflexivity.
  - destruct (p a); [discriminate|]. cbn. f_equal. apply IH, Hnone.
Qed.

Lemma find_filter_none {A} (p : A → bool) (l : list A) :
  List.find p (List.filter (fun x => negb (p x)) l) = None.
Proof.
  induction l as [|a l IH]; [reflexivity|].
  cbn. destruct (p a) eqn:E; cbn; [exact IH|]. rewrite E. exact IH.
Qed.

(** [X8] A health monitor that is created and then read, on an appliance that
    gives back the monitor it was sent, comes back with its id, delay,
    timeout and retries: the driver asks for the backend id it took from
    the location, and the reading writes no binding. *)
Theorem created_monitor_is_read_back `{LbConstants} (self : EdgeLbDriver)
    (edge_id id : string) (health_monitor monitor_new : dict)
    (header : Vcns.header) (body : value) (objuri : string) (w : world) :
  health_monitor !! "id" = Some (VStr id) →
  get_vcns_edge_monitor_binding (session w) (VStr id) edge_id = None →
  _convert_lb_monitor health_monitor w = (Ok monitor_new, w) →
  vcns self (vcns_calls w) (Vcns.create_health_monitor edge_id monitor_new)
  = Ok (header, body) →
  header !! "location" = Some objuri →
  let monitor_vseid := slice_from objuri (rfind objuri "/" + 1) in
  let created := Vcns.create_health_monitor edge_id monitor_new in
  let read := Vcns.get_health_monitor edge_id monitor_vseid in
  ∃ w1,
    create_health_monitor self edge_id health_monitor w = (Ok tt, w1)
    ∧ ∀ header',
        vcns self (vcns_calls w ++ [created]) read
        = Ok (header', VDict monitor_new) →
        ∃ w2,
          get_health_monitor self id edge_id w1
          = (Ok (<["id" := VStr id]>
                   (<["max_retries" := get health_monitor "max_retries"]>
                      (<["timeout" := get health_monitor "timeout"]>
                         (<["delay" := get health_monitor "delay"]> ∅)))),
             w2)
          ∧ vcns_calls w2 = vcns_calls w ++ [created; read]
          ∧ session w2 = session w1.
Proof.
  intros Hid Hnew Hconv Hcall Hloc. cbn zeta.
  eexists. split.
  { unfold create_health_monitor. run. rewrite Hconv. cbn beta iota.
    rewrite Hcall. cbn beta iota. unfold getitem. rewrite Hloc, Hid.
    cbn beta iota. reflexivity. }
  intros header' Hread.
  unfold get_health_monitor. run.
  unfold get_vcns_edge_monitor_binding, add_vcns_edge_monitor_binding,
    with_session in *.
  cbn [session vcns_calls log monitor_bindings].
  rewrite (find_app_new _ _ _ Hnew)
    by (cbn; rewrite !String.eqb_refl; reflexivity).
  cbn beta iota. cbn [monitor_vseid session vcns_calls log]. rewrite Hread. cbn beta iota.
  rewrite EdgeLbConversions.convert_lb_monitor_run in Hconv.
  destruct (table_get _ _ _) as [type|]; [|discriminate].
  injection Hconv as <-.
  eexists. split; [|split].
  - unfold _restore_lb_monitor, subscript, getitem. run. lookup_key.
    cbn beta iota. unfold get. rewrite Hid. reflexivity.
  - cbn. unfold get. rewrite Hid. rewrite <- app_assoc. reflexivity.
  - reflexivity.
Qed.

(** The theorem at the monitor [M], on an appliance that keeps what it
    creates. *)
Lemma created_monitor_is_read_back_witness :
  ∃ w1 w2,
    @create_health_monitor Examples.constants Examples.keeping_edge_driver
      "edge-1" Examples.https_monitor Examples.edge_world = (Ok tt, w1)
    ∧ get_health_monitor Examples.keeping_edge_driver "M" "edge-1" w1
      = (Ok (<["id" := VStr "M"]>
               (<["max_retries" := VInt 2]>
                  (<["timeout" := VInt 3]> (<["delay" := VInt 5]> ∅)))),
         w2).
Proof.
  destruct (@created_monitor_is_read_back Examples.constants
              Examples.keeping_edge_driver "edge-1" "M"
              Examples.https_monitor _ _ _ _ Examples.edge_world
              eq_refl eq_refl eq_refl eq_refl eq_refl)
    as (w1 & Hcreate & Hread).
  destruct (Hread ∅ eq_refl) as (w2 & Hget & _).
  exists w1, w2. split; [exact Hcreate | exact Hget].
Defined.

(** [X9] A pool that is created and then deleted leaves the bindings as they
    were before the creation: the deletion is asked of the appliance for
    the backend id taken from the location of the creation. *)
Theorem created_pool_is_deleted `{LbConstants} (self : EdgeLbDriver)
    (edge_id id : string) (pool pool_new : dict) (members : list value)
    (header : Vcns.header) (body : value) (objuri : string) (w : world) :
  pool !! "id" = Some (VStr id) →
  get_vcns_edge_pool_binding (session w) (VStr id) edge_id = None →
  _convert_lb_pool edge_id pool members w = (Ok pool_new, w) →
  vcns self (vcns_calls w) (Vcns.create_pool edge_id pool_new)
  = Ok (header, body) →
  header !! "location" = Some objuri →
  let created := Vcns.create_pool edge_id pool_new in
  let deleted :=
    Vcns.delete_pool edge_id (slice_from objuri (rfind objuri "/" + 1)) in
  ∃ w1,
    create_pool self edge_id pool members w = (Ok tt, w1)
    ∧ get_vcns_edge_pool_binding (session w1) (VStr id) edge_id
      = Some {| pool_id := VStr id;
                pool_vseid := slice_from objuri (rfind objuri "/" + 1);
                pool_edge_id := edge_id |}
    ∧ ∀ answer,
        vcns self (vcns_calls w ++ [created]) deleted = Ok answer →
        ∃ w2,
          delete_pool self id edge_id w1 = (Ok tt, w2)
          ∧ vcns_calls w2 = vcns_calls w ++ [created; deleted]
          ∧ session w2 = session w.
Proof.
  intros Hid Hnew Hconv Hcall Hloc. cbn zeta.
  assert (Hkey : (λ b : VcnsEdgePoolBinding,
                    column_eqb (pool_id b) (VStr id)
                    && String.eqb (pool_edge_id b) edge_id)
                   {| pool_id := VStr id;
                      pool_vseid := slice_from objuri (rfind objuri "/" + 1);
                      pool_edge_id := edge_id |} = true)
    by (cbn; rewrite !String.eqb_refl; reflexivity).
  eexists. split; [|split].
  { unfold create_pool. run. rewrite Hconv. cbn beta iota.
    rewrite Hcall. cbn beta iota. unfold getitem. rewrite Hloc, Hid.
    cbn beta iota. reflexivity. }
  { unfold get_vcns_edge_pool_binding, add_vcns_edge_pool_binding,
      with_session in *.
    cbn [session pool_bindings]. apply find_app_new; assumption. }
  intros answer Hdel.
  unfold delete_pool. run.
  unfold get_vcns_edge_pool_binding, add_vcns_edge_pool_binding,
    delete_vcns_edge_pool_binding, with_session in *.
  cbn [session vcns_calls log pool_bindings].
  rewrite (find_app_new _ _ _ Hnew Hkey).
  cbn beta iota. cbn [pool_vseid session vcns_calls log]. rewrite Hdel.
  cbn beta iota. eexists. split; [reflexivity|].
  cbn [session vcns_calls log pool_bindings vip_bindings monitor_bindings].
  split; [rewrite <- app_assoc; reflexivity|].
  rewrite (filter_app_new _ _ _ Hnew Hkey).
  destruct (session w); reflexivity.
Qed.

(** The theorem at the pool [Q], on an appliance that answers. *)
Lemma created_pool_is_deleted_witness :
  ∃ w1 w2,
    @create_pool Examples.constants Examples.edge_driver "edge-1"
      Examples.pool [] Examples.edge_world = (Ok tt, w1)
    ∧ delete_pool Examples.edge_driver "Q" "edge-1" w1 = (Ok tt, w2)
    ∧ session w2 = session Examples.edge_world.
Proof.
  destruct (@created_pool_is_deleted Examples.constants Examples.edge_driver
              "edge-1" "Q" Examples.pool _ [] _ _ _ Examples.edge_world
              eq_refl eq_refl eq_refl eq_refl eq_refl)
    as (w1 & Hcreate & _ & Hdelete).
  destruct (Hdelete (∅, VNone) eq_refl) as (w2 & Hrun & _ & Hsession).
  exists w1, w2. repeat split; assumption.
Defined.

(** [X10] A pool or a health monitor without a binding on the edge cannot be
    deleted or updated: the driver subscripts the row it did not get,
    which raises [TypeError], before it calls the appliance, and the
    world is as it was.  (Reading one raises [VcnsNotFound].) *)
Theorem unbound_change_raises_TypeError `{LbConstants} (self : EdgeLbDriver)
    (id edge_id : string) (w : world) :
  (get_vcns_edge_pool_binding (session w) (VStr id) edge_id = None →
   delete_pool self id edge_id w = (Raise TypeError, w)
   ∧ ∀ pool members,
       pool !! "id" = Some (VStr id) →
       update_pool self edge_id pool members w = (Raise TypeError, w))
  ∧ (get_vcns_edge_monitor_binding (session w) (VStr id) edge_id = None →
     delete_health_monitor self id edge_id w = (Raise TypeError, w)
     ∧ ∀ old_health_monitor health_monitor,
         old_health_monitor !! "id" = Some (VStr id) →
         update_health_monitor self edge_id old_health_monitor
           health_monitor w
         = (Raise TypeError, w)).
Proof.
  split; intros Hnone; split.
  - unfold delete_pool. run. rewrite Hnone. reflexivity.
  - intros pool members Hid. unfold update_pool, getitem. run.
    rewrite Hid. cbn beta iota. rewrite Hnone. reflexivity.
  - unfold delete_health_monitor. run. rewrite Hnone. reflexivity.
  - intros old new Hid. unfold update_health_monitor, getitem. run.
    rewrite Hid. cbn beta iota. rewrite Hnone. reflexivity.
Qed.

(** The theorem at a pool and a monitor nothing is bound to. *)
Lemma unbound_change_raises_TypeError_witness :
  delete_pool Examples.edge_driver "nobody" "edge-1" Examples.edge_world
  = (Raise TypeError, Examples.edge_world)
  ∧ delete_health_monitor Examples.edge_driver "nobody" "edge-1"
      Examples.edge_world
    = (Raise TypeError, Examples.edge_world).
Proof.
  destruct (@unbound_change_raises_TypeError Examples.constants
              Examples.edge_driver "nobody" "edge-1" Examples.edge_world)
    as (Hpool & Hmonitor).
  split.
  - apply Hpool. reflexivity.
  - apply Hmonitor. reflexivity.
Defined.

(** [X11] The deletion of a bound pool, and of a bound health monitor, makes
    one call on the appliance, for the backend id of the binding.  When
    the appliance raises, the caller gets that exception and the binding
    stays; when it answers, the binding is removed and a later lookup
    finds nothing. *)
Theorem delete_follows_appliance (self : EdgeLbDriver) (id edge_id : string)
    (w : world) :
  (∀ b r w',
     get_vcns_edge_pool_binding (session w) (VStr id) edge_id = Some b →
     delete_pool self id edge_id w = (r, w') →
     let call := Vcns.delete_pool edge_id (pool_vseid b) in
     vcns_calls w' = vcns_calls w ++ [call]
     ∧ (∀ e, vcns self (vcns_calls w) call = Raise e →
          r = Raise e ∧ session w' = session w)
     ∧ (∀ answer, vcns self (vcns_calls w) call = Ok answer →
          r = Ok tt
          ∧ session w'
            = delete_vcns_edge_pool_binding (VStr id) edge_id (session w)
          ∧ get_vcns_edge_pool_binding (session w') (VStr id) edge_id
            = None))
  ∧ (∀ b r w',
       get_vcns_edge_monitor_binding (session w) (VStr id) edge_id = Some b →
       delete_health_monitor self id edge_id w = (r, w') →
       let call := Vcns.delete_health_monitor edge_id (monitor_vseid b) in
       vcns_calls w' = vcns_calls w ++ [call]
       ∧ (∀ e, vcns self (vcns_calls w) call = Raise e →
            r = Raise e ∧ session w' = session w)
       ∧ (∀ answer, vcns self (vcns_calls w) call = Ok answer →
            r = Ok tt
            ∧ session w'
              = delete_vcns_edge_monitor_binding (VStr id) edge_id
                  (session w)
            ∧ get_vcns_edge_monitor_binding (session w') (VStr id) edge_id
              = None)).
Proof.
  split; intros b r w' Hbound Hrun; cbn zeta.
  - unfold delete_pool in Hrun. run. rewrite Hbound in Hrun.
    cbn beta iota in Hrun.
    destruct (vcns self (vcns_calls w) _) as [answer|e] eqn:Hcall;
      cbn beta iota in Hrun.
    + injection Hrun as <- <-. cbn. split; [reflexivity|].
      split; [intros ? E; discriminate E|]. intros _ _.
      repeat split. apply find_filter_none.
    + destruct (is_VcnsApiException e); injection Hrun as <- <-; cbn;
        (split; [reflexivity|]); (split; [|intros ? E; discriminate E]);
        intros ? E; injection E as <-; split; reflexivity.
  - unfold delete_health_monitor in Hrun. run. rewrite Hbound in Hrun.
    cbn beta iota in Hrun.
    destruct (vcns self (vcns_calls w) _) as [answer|e] eqn:Hcall;
      cbn beta iota in Hrun.
    + injection Hrun as <- <-. cbn. split; [reflexivity|].
      split; [intros ? E; discriminate E|]. intros _ _.
      repeat split. apply find_filter_none.
    + destruct (is_VcnsApiException e); injection Hrun as <- <-; cbn;
        (split; [reflexivity|]); (split; [|intros ? E; discriminate E]);
        intros ? E; injection E as <-; split; reflexivity.
Qed.

(** The theorem at the bound pool [P], on an appliance that answers. *)
Lemma delete_follows_appliance_witness :
  let out := delete_pool Examples.edge_driver "P" "edge-1"
               Examples.edge_world in
  fst out = Ok tt
  ∧ get_vcns_edge_pool_binding (session (snd out)) (VStr "P") "edge-1" = None.
Proof.
  cbv zeta.
  destruct (proj1 (delete_follows_appliance Examples.edge_driver "P" "edge-1"
                     Examples.edge_world)
              Examples.pool_binding _ _ eq_refl (surjective_pairing _))
    as (_ & _ & Hanswer).
  destruct (Hanswer (∅, VNone) eq_refl) as (Hr & _ & Hgone).
  split; [exact Hr | exact Hgone].
Defined.

(** Restoring a vip or a monitor leaves the world as it is. *)
Lemma restore_lb_vip_pure (edge_id : string) (vip_vse : value) (w : world) :
  snd (_restore_lb_vip edge_id vip_vse w) = w.
Proof.
  unfold _restore_lb_vip. run.
  destruct (subscript vip_vse "defaultPoolId"); [|reflexivity]. cbn.
  destruct (get_vcns_edge_pool_binding_by_vseid _ _ _); [|reflexivity].
  repeat (match goal with
          | |- context [subscript ?v ?k] => destruct (subscript v k)
          end; [|reflexivity]; cbn).
  reflexivity.
Qed.

Lemma restore_lb_monitor_pure (edge_id : string) (monitor_vse : value)
    (w : world) :
  snd (_restore_lb_monitor edge_id monitor_vse w) = w.
Proof.
  unfold _restore_lb_monitor. run.
  repeat (match goal with
          | |- context [subscript ?v ?k] => destruct (subscript v k)
          end; [|reflexivity]; cbn).
  reflexivity.
Qed.

(** [X12] Reading and updating never write a binding, and call the appliance
    once at most: whatever the appliance answers, and whether they
    return or raise, the six operations leave the three tables as they
    were. *)
Theorem reads_and_updates_keep_bindings `{LbConstants} (self : EdgeLbDriver)
    (w : world) :
  let kept {A} (out : result A * world) :=
    session (snd out) = session w
    ∧ ∃ sent, vcns_calls (snd out) = vcns_calls w ++ sent
              ∧ (length sent ≤ 1)%nat in
  (∀ id, kept (get_vip self id w))
  ∧ (∀ vip, kept (update_vip self vip w))
  ∧ (∀ id edge_id, kept (get_pool self id edge_id w))
  ∧ (∀ edge_id pool members, kept (update_pool self edge_id pool members w))
  ∧ (∀ id edge_id, kept (get_health_monitor self id edge_id w))
  ∧ (∀ edge_id old_health_monitor health_monitor,
       kept (update_health_monitor self edge_id old_health_monitor
               health_monitor w)).
Proof.
  cbn zeta.
  assert (Hone : ∀ c, ∃ sent, vcns_calls w ++ [c] = vcns_calls w ++ sent
                              ∧ (length sent ≤ 1)%nat).
  { intros c. exists [c]. split; [reflexivity | cbn; lia]. }
  assert (Hzero : ∃ sent, vcns_calls w = vcns_calls w ++ sent
                          ∧ (length sent ≤ 1)%nat).
  { exists []. split; [symmetry; apply app_nil_r | cbn; lia]. }
  repeat split.
  - unfold get_vip. run.
    destruct (get_vcns_edge_vip_binding _ _) as [b|]; [|reflexivity].
    cbn beta iota.
    destruct (vcns self (vcns_calls w) _) as [[header body]|e];
      cbn beta iota.
    + rewrite restore_lb_vip_pure. reflexivity.
    + destruct (is_VcnsApiException e); reflexivity.
  - unfold get_vip. run.
    destruct (get_vcns_edge_vip_binding _ _) as [b|]; [|exact Hzero].
    cbn beta iota.
    destruct (vcns self (vcns_calls w) _) as [[header body]|e];
      cbn beta iota.
    + rewrite restore_lb_vip_pure. apply Hone.
    + destruct (is_VcnsApiException e); apply Hone.
  - unfold update_vip. run.
    destruct (getitem vip "id") as [id|]; [|reflexivity]. cbn beta iota.
    destruct (get_vcns_edge_vip_binding _ _) as [b|]; [|reflexivity].
    cbn beta iota.
    unfold _convert_lb_vip. run.
    destruct (get_vcns_edge_pool_binding _ _ _); [|reflexivity].
    cbn beta iota.
    destruct (vcns self (vcns_calls w) _) as [[header body]|e];
      cbn beta iota; [reflexivity|].
    destruct (is_VcnsApiException e); reflexivity.
  - unfold update_vip. run.
    destruct (getitem vip "id") as [id|]; [|exact Hzero]. cbn beta iota.
    destruct (get_vcns_edge_vip_binding _ _) as [b|]; [|exact Hzero].
    cbn beta iota. unfold _convert_lb_vip. run.
    destruct (get_vcns_edge_pool_binding _ _ _); [|exact Hzero].
    cbn beta iota.
    destruct (vcns self (vcns_calls w) _) as [[header body]|e];
      cbn beta iota; [apply Hone|].
    destruct (is_VcnsApiException e); apply Hone.
  - unfold get_pool. run.
    destruct (get_vcns_edge_pool_binding _ _ _) as [b|]; [|reflexivity].
    cbn beta iota.
    destruct (vcns self (vcns_calls w) _) as [[header body]|e];
      cbn beta iota.
    + unfold _restore_lb_pool. run. destruct (subscript body "name");
        reflexivity.
    + destruct (is_VcnsApiException e); reflexivity.
  - unfold get_pool. run.
    destruct (get_vcns_edge_pool_binding _ _ _) as [b|]; [|exact Hzero].
    cbn beta iota.
    destruct (vcns self (vcns_calls w) _) as [[header body]|e];
      cbn beta iota.
    + unfold _restore_lb_pool. run. destruct (subscript body "name");
        apply Hone.
    + destruct (is_VcnsApiException e); apply Hone.
  - unfold update_pool. run.
    destruct (getitem pool "id") as [id|]; [|reflexivity]. cbn beta iota.
    destruct (get_vcns_edge_pool_binding _ _ _) as [b|]; [|reflexivity].
    cbn beta iota.
    pose proof (convert_lb_pool_pure edge_id pool members w) as Hpure.
    destruct (_convert_lb_pool edge_id pool members w) as [[pool_new|e0] w0];
      cbn in Hpure; subst w0; [|reflexivity]. cbn beta iota.
    destruct (vcns self (vcns_calls w) _) as [[header body]|e];
      cbn beta iota; [reflexivity|].
    destruct (is_VcnsApiException e); reflexivity.
  - unfold update_pool. run.
    destruct (getitem pool "id") as [id|]; [|exact Hzero]. cbn beta iota.
    destruct (get_vcns_edge_pool_binding _ _ _) as [b|]; [|exact Hzero].
    cbn beta iota.
    pose proof (convert_lb_pool_pure edge_id pool members w) as Hpure.
    destruct (_convert_lb_pool edge_id pool members w) as [[pool_new|e0] w0];
      cbn in Hpure; subst w0; [|exact Hzero]. cbn beta iota.
    destruct (vcns self (vcns_calls w) _) as [[header body]|e];
      cbn beta iota; [apply Hone|].
    destruct (is_VcnsApiException e); apply Hone.
  - unfold get_health_monitor. run.
    destruct (get_vcns_edge_monitor_binding _ _ _) as [b|]; [|reflexivity].
    cbn beta iota.
    destruct (vcns self (vcns_calls w) _) as [[header body]|e];
      cbn beta iota.
    + rewrite restore_lb_monitor_pure. reflexivity.
    + destruct (is_VcnsApiException e); reflexivity.
  - unfold get_health_monitor. run.
    destruct (get_vcns_edge_monitor_binding _ _ _) as [b|]; [|exact Hzero].
    cbn beta iota.
    destruct (vcns self (vcns_calls w) _) as [[header body]|e];
      cbn beta iota.
    + rewrite restore_lb_monitor_pure. apply Hone.
    + destruct (is_VcnsApiException e); apply Hone.
  - unfold update_health_monitor. run.
    destruct (getitem old_health_monitor "id") as [id|]; [|reflexivity].
    cbn beta iota.
    destruct (get_vcns_edge_monitor_binding _ _ _) as [b|]; [|reflexivity].
    cbn beta iota. unfold _convert_lb_monitor. run.
    destruct (table_get _ _ _); [|reflexivity]. cbn beta iota.
    destruct (vcns self (vcns_calls w) _) as [[header body]|e];
      cbn beta iota; [reflexivity|].
    destruct (is_VcnsApiException e); reflexivity.
  - unfold update_health_monitor. run.
    destruct (getitem old_health_monitor "id") as [id|]; [|exact Hzero].
    cbn beta iota.
    destruct (get_vcns_edge_monitor_binding _ _ _) as [b|]; [|exact Hzero].
    cbn beta iota. unfold _convert_lb_monitor. run.
    destruct (table_get _ _ _); [|exact Hzero]. cbn beta iota.
    destruct (vcns self (vcns_calls w) _) as [[header body]|e];
      cbn beta iota; [apply Hone|].
    destruct (is_VcnsApiException e); apply Hone.
Qed.

(** [X13] An update of a vip is sent to the backend vip of its binding, on the
    edge of the binding, and keeps the application profile created with
    the vip; the pool of the vip is looked up on that edge, and a vip
    whose pool is not bound there is not sent at all: [TypeError], and
    the world is as it was.  The appliance's exception reaches the
    caller as it is. *)
Theorem update_vip_targets_binding (self : EdgeLbDriver) (vip : dict)
    (id : value) (b : VcnsEdgeVipBinding) (w : world) :
  vip !! "id" = Some id →
  find_vip_binding (session w) id = Some b →
  (∀ pb,
     get_vcns_edge_pool_binding (session w) (get vip "pool_id")
       (vip_edge_id b) = Some pb →
     ∃ vip_new w',
       let call := Vcns.update_vip (vip_edge_id b) (vip_vseid b) vip_new in
       vip_new !! "applicationProfileId" = Some (VStr (app_profileid b))
       ∧ vip_new !! "defaultPoolId" = Some (VStr (pool_vseid pb))
       ∧ vip_new !! "ipAddress" = Some (get vip "address")
       ∧ vip_new !! "port" = Some (get vip "protocol_port")
       ∧ update_vip self vip w
         = (match vcns self (vcns_calls w) call with
            | Ok _ => Ok tt
            | Raise e => Raise e
            end, w')
       ∧ vcns_calls w' = vcns_calls w ++ [call]
       ∧ session w' = session w)
  ∧ (get_vcns_edge_pool_binding (session w) (get vip "pool_id")
       (vip_edge_id b) = None →
     update_vip self vip w = (Raise TypeError, w)).
Proof.
  intros Hid Hbound. split.
  - intros pb Hpool.
    set (vip_new :=
           <["applicationProfileId" := VStr (app_profileid b)]>
             (<["defaultPoolId" := VStr (pool_vseid pb)]>
                (<["port" := get vip "protocol_port"]>
                   (<["protocol" := get vip "protocol"]>
                      (<["ipAddress" := get vip "address"]>
                         (<["name" := get vip "name"]> ∅))))) : dict).
    set (call := Vcns.update_vip (vip_edge_id b) (vip_vseid b) vip_new).
    exists vip_new,
      {| session := session w;
         vcns_calls := vcns_calls w ++ [call];
         log := match vcns self (vcns_calls w) call with
                | Raise e =>
                    if is_VcnsApiException e
                    then log w ++ ["Failed to update vip on edge: "
                                   +:+ vip_edge_id b]
                    else log w
                | Ok _ => log w
                end |}.
    cbn zeta. fold call.
    split; [subst vip_new; lookup_key; reflexivity|].
    split; [subst vip_new; lookup_key; reflexivity|].
    split; [subst vip_new; lookup_key; reflexivity|].
    split; [subst vip_new; lookup_key; reflexivity|].
    split.
    { unfold update_vip, _convert_lb_vip, get_vcns_edge_vip_binding,
        getitem.
      run. rewrite Hid. cbn beta iota. rewrite Hbound. cbn beta iota.
      rewrite Hpool. cbn beta iota. fold vip_new. fold call.
      destruct (vcns self (vcns_calls w) call) as [[header body]|e];
        cbn beta iota; [reflexivity|].
      destruct (is_VcnsApiException e); reflexivity. }
    split; reflexivity.
  - intros Hpool.
    unfold update_vip, _convert_lb_vip, get_vcns_edge_vip_binding, getitem.
    run. rewrite Hid. cbn beta iota. rewrite Hbound. cbn beta iota.
    rewrite Hpool. reflexivity.
Qed.

(** The theorem at the bound vip [W] once it names the pool [P]. *)
Lemma update_vip_targets_binding_witness :
  ∃ vip_new w',
    vip_new !! "applicationProfileId"
    = Some (VStr "applicationProfile-7")
    ∧ vip_new !! "defaultPoolId" = Some (VStr "pool-1")
    ∧ update_vip Examples.edge_driver Examples.bound_vip
        Examples.edge_world = (Ok tt, w')
    ∧ vcns_calls w' = [Vcns.update_vip "edge-1" "virtualServer-7" vip_new].
Proof.
  destruct (proj1 (update_vip_targets_binding Examples.edge_driver
                     Examples.bound_vip (VStr "W")
                     Examples.vip_binding Examples.edge_world
                     eq_refl eq_refl)
              Examples.pool_binding eq_refl)
    as (vip_new & w' & Hprofile & Hpool & _ & _ & Hrun & Hcalls & _).
  exists vip_new, w'. repeat split; assumption.
Defined.

(** [X14] A vip whose pool has no binding on the edge is not created, and the
    application profile made for it stays on the appliance: the profile
    is created first, then the conversion of the vip raises [TypeError];
    the appliance is not asked to delete the profile, nothing is logged
    and no binding is written. *)
Theorem create_vip_unbound_pool_leaves_profile (self : EdgeLbDriver)
    (edge_id : string) (vip : dict) (name : value) (header : Vcns.header)
    (body : value) (objuri : string) (w : world) :
  let profile :=
    Vcns.create_app_profile edge_id
      (_convert_app_profile name (get vip "session_persistence")) in
  vip !! "name" = Some name →
  vcns self (vcns_calls w) profile = Ok (header, body) →
  header !! "location" = Some objuri →
  get_vcns_edge_pool_binding (session w) (get vip "pool_id") edge_id = None →
  create_vip self edge_id vip w
  = (Raise TypeError,
     {| session := session w;
        vcns_calls := vcns_calls w ++ [profile];
        log := log w |}).
Proof.
  cbn zeta. intros Hname Hcall Hloc Hpool.
  unfold create_vip, _convert_lb_vip, getitem. run.
  rewrite Hname. cbn beta iota. rewrite Hcall. cbn beta iota.
  rewrite Hloc. cbn beta iota. cbn [session]. rewrite Hpool. reflexivity.
Qed.

(** The theorem at a vip of a pool nothing is bound to. *)
Lemma create_vip_unbound_pool_leaves_profile_witness :
  ∃ profile,
    create_vip Examples.edge_driver "edge-1"
      Examples.stray_vip Examples.edge_world
    = (Raise TypeError,
       {| session := session Examples.edge_world;
          vcns_calls := [Vcns.create_app_profile "edge-1" profile];
          log := [] |}).
Proof.
  eexists.
  apply (create_vip_unbound_pool_leaves_profile Examples.edge_driver "edge-1"
           Examples.stray_vip (VStr "web")
           _ VNone _ Examples.edge_world eq_refl eq_refl eq_refl eq_refl).
Defined.

(** [X15] The session persistence asked for a vip is ignored: a vip is created
    the same way, with the same calls and the same binding, whatever its
    [session_persistence]; the application profile always persists by
    source address. *)
Theorem session_persistence_is_ignored (self : EdgeLbDriver)
    (edge_id : string) (vip : dict) (persistence : value) (w : world) :
  create_vip self edge_id (<["session_persistence" := persistence]> vip) w
  = create_vip self edge_id vip w
  ∧ ∀ name,
      _convert_app_profile name persistence !! "persistence"
      = Some (VDict (<["method" := VStr "sourceip"]> ∅)).
Proof.
  split; [|intros name; unfold _convert_app_profile; lookup_key;
           reflexivity].
  unfold create_vip, _convert_lb_vip, _convert_app_profile, getitem, get.
  rewrite !lookup_insert_ne by discriminate. reflexivity.
Qed.

End EdgeLbOperations.

(** ** More on the REST client *)

Module RestClientMore.
Import RestClient RestClientSetup.

Lemma nonempty_length (s : string) :
  (0 <? Z.of_nat (String.length s)) = negb (String.eqb s "").
Proof. destruct s; reflexivity. Qed.

(** [X16] The response dictionary always carries the status, the body and the
    headers of the response; it has a parsed body exactly when the
    status is below 400 and the body is not empty, so the body of an
    error is never handed to the deserializer; and building it fails
    only when the deserializer fails on such a body. *)
Theorem error_bodies_are_not_parsed `{Serializer} (response : HTTPResponse)
    (serializer : bool) :
  (∀ rd, _get_response_dict response serializer = Ok rd →
     rd_status rd = status response
     ∧ rd_body rd = body response
     ∧ rd_headers rd = headers response
     ∧ (rd_dict rd ≠ None ↔ status response < 400 ∧ body response ≠ ""))
  ∧ (400 <= status response ∨ body response = "" ∨ serializer = false →
     ∃ rd, _get_response_dict response serializer = Ok rd)
  ∧ (∀ e, _get_response_dict response serializer = Raise e →
       serializer = true ∧ status response < 400 ∧ body response ≠ ""
       ∧ deserialize (body response) = Raise e).
Proof.
  unfold _get_response_dict, _is_valid_response, BAD_REQUEST.
  rewrite nonempty_length.
  destruct (status response <? 400) eqn:Est;
    [apply Z.ltb_lt in Est | apply Z.ltb_ge in Est].
  2:{ split; [|split].
      - intros rd E. injection E as <-. cbn. repeat split; try tauto.
        intros [? _]. lia.
      - intros _. eexists. reflexivity.
      - intros e E. discriminate E. }
  destruct (String.eqb (body response) "") eqn:Eb; cbn [negb];
    [apply String.eqb_eq in Eb | apply String.eqb_neq in Eb].
  { split; [|split].
    - intros rd E. injection E as <-. cbn. repeat split; try tauto.
    - intros _. eexists. reflexivity.
    - intros e E. discriminate E. }
  destruct serializer.
  - destruct (deserialize (body response)) as [parsed|e0] eqn:Ed.
    + split; [|split].
      * intros rd E. injection E as <-. cbn.
        repeat split; auto; try discriminate.
      * intros _. eexists. reflexivity.
      * intros e E. discriminate E.
    + split; [|split].
      * intros rd E. discriminate E.
      * intros [?|[?|?]]; [lia | contradiction | discriminate].
      * intros e E. injection E as <-. repeat split; auto.
  - split; [|split].
    + intros rd E. injection E as <-. cbn.
      repeat split; auto; try discriminate.
    + intros _. eexists. reflexivity.
    + intros e E. discriminate E.
Qed.

(** The theorem at a response of status 500 with a body, for a
    deserializer that would fail on it. *)
Lemma error_bodies_are_not_parsed_witness :
  ∃ rd,
    @_get_response_dict
      {| serialize := fun _ _ => Raise LookupError;
         deserialize := fun _ => Raise LookupError |}
      {| status := 500; body := "<error/>"; headers := [] |} true
    = Ok rd.
Proof.
  apply (proj1 (proj2
    (@error_bodies_are_not_parsed
       {| serialize := fun _ _ => Raise LookupError;
          deserialize := fun _ => Raise LookupError |}
       {| status := 500; body := "<error/>"; headers := [] |} true))).
  left. cbn. lia.
Defined.

(** [X17] Outside proxy mode, [retrieve_resource] returns every status but
    401 to its caller, the statuses from 400 on included, with a
    response dictionary that has no parsed body; [remove_resource]
    raises [ServiceUnavailable] on the same answer. *)
Theorem retrieve_returns_failure_statuses `{Serializer} (self : RESTClient)
    (http : Http) (response : HTTPResponse) (resource_path : string)
    (parse_response : bool) :
  _get_connection self = Ok tt →
  is_proxy self = false →
  send http (request_of self "GET" resource_path "") = Ok tt →
  getresponse http (request_of self "GET" resource_path "") = Ok response →
  400 <= status response →
  status response ≠ 401 →
  retrieve_resource self http resource_path parse_response
  = Ok (status response,
        {| rd_status := status response;
           rd_body := body response;
           rd_headers := headers response;
           rd_dict := None |})
  ∧ (send http (request_of self "DELETE" resource_path "") = Ok tt →
     getresponse http (request_of self "DELETE" resource_path "")
     = Ok response →
     remove_resource self http resource_path parse_response
     = Raise ServiceUnavailable).
Proof.
  intros Hconn Hdirect Hsend Hget Hst H401.
  assert (Hdict : _get_response_dict response parse_response
                  = Ok {| rd_status := status response;
                          rd_body := body response;
                          rd_headers := headers response;
                          rd_dict := None |}).
  { unfold _get_response_dict, _is_valid_response, BAD_REQUEST.
    destruct (status response <? 400) eqn:E; [apply Z.ltb_lt in E; lia|].
    reflexivity. }
  split.
  - unfold retrieve_resource. unfold request_of in Hsend, Hget.
    rewrite Hconn. cbn. rewrite Hsend. cbn. rewrite Hget. cbn.
    rewrite Hdict. cbn. rewrite Hdirect.
    destruct (status response =? 401) eqn:E; [apply Z.eqb_eq in E; lia|].
    reflexivity.
  - intros Hsend' Hget'. unfold remove_resource.
    unfold request_of in Hsend', Hget'.
    rewrite Hconn. cbn. rewrite Hsend'. cbn. rewrite Hget'. cbn.
    rewrite Hdict. cbn. unfold check_status. rewrite Hdirect. cbn.
    destruct (status response =? 401); [reflexivity|].
    unfold _is_valid_response, BAD_REQUEST.
    destruct (status response <? 400) eqn:E; [apply Z.ltb_lt in E; lia|].
    reflexivity.
Qed.

(** The theorem at a server that answers 404. *)
Lemma retrieve_returns_failure_statuses_witness :
  @retrieve_resource Examples.plain_serializer (Examples.rest_client false)
    (Examples.answering 404) "lbvservers/web" true
  = Ok (404,
        {| rd_status := 404; rd_body := ""; rd_headers := [];
           rd_dict := None |})
  ∧ @remove_resource Examples.plain_serializer (Examples.rest_client false)
      (Examples.answering 404) "lbvservers/web" true
    = Raise ServiceUnavailable.
Proof.
  destruct (@retrieve_returns_failure_statuses Examples.plain_serializer
              (Examples.rest_client false) (Examples.answering 404)
              {| status := 404; body := ""; headers := [] |}
              "lbvservers/web" true eq_refl eq_refl eq_refl eq_refl)
    as (Hretrieve & Hremove).
  - cbn. lia.
  - cbn. lia.
  - split; [exact Hretrieve | exact (Hremove eq_refl eq_refl)].
Defined.

(** [X18] What becomes of an exception of the connection depends on the
    operation.  [create_resource] and [update_resource] turn a
    [LookupError] (a [KeyError] or an [IndexError] too) and an
    [ImportError] into [ServiceUnavailable], whether the request or the
    response failed; [retrieve_resource] does so for the response only,
    and [remove_resource] never: they raise the exception as it is.  Any
    other exception reaches the caller unchanged from all four. *)
Theorem connection_errors_by_operation `{Serializer} (self : RESTClient)
    (http : Http) (resource_path object_name text : string)
    (parse_response : bool) (e : exn) :
  _get_connection self = Ok tt →
  let converted : result (Z * response_dict) :=
    if is_LookupError_or_ImportError e then Raise ServiceUnavailable
    else Raise e in
  let request method body := request_of self method resource_path body in
  let create :=
    create_resource self http resource_path object_name (VStr text) in
  let update :=
    update_resource self http resource_path object_name (VStr text) in
  let retrieve := retrieve_resource self http resource_path parse_response in
  let remove := remove_resource self http resource_path parse_response in
  (send http (request "POST" text) = Raise e → create = converted)
  ∧ (send http (request "PUT" text) = Raise e → update = converted)
  ∧ (send http (request "GET" "") = Raise e → retrieve = Raise e)
  ∧ (send http (request "DELETE" "") = Raise e → remove = Raise e)
  ∧ (send http (request "POST" text) = Ok tt →
     getresponse http (request "POST" text) = Raise e → create = converted)
  ∧ (send http (request "PUT" text) = Ok tt →
     getresponse http (request "PUT" text) = Raise e → update = converted)
  ∧ (send http (request "GET" "") = Ok tt →
     getresponse http (request "GET" "") = Raise e → retrieve = converted)
  ∧ (send http (request "DELETE" "") = Ok tt →
     getresponse http (request "DELETE" "") = Raise e → remove = Raise e).
Proof.
  intros Hconn. cbn zeta.
  unfold create_resource, update_resource, retrieve_resource,
    remove_resource, request_of.
  cbn [choose_body and_then]. rewrite Hconn. cbn [and_then].
  change (default "" (Some text)) with text.
  repeat split.
  - intros ->. reflexivity.
  - intros ->. reflexivity.
  - intros ->. reflexivity.
  - intros ->. reflexivity.
  - intros -> ->. reflexivity.
  - intros -> ->. reflexivity.
  - intros -> ->. cbn. destruct (is_LookupError_or_ImportError e); reflexivity.
  - intros -> ->. reflexivity.
Qed.

(** The theorem at a connection whose request raises [IndexError]. *)
Lemma connection_errors_by_operation_witness :
  let failing : Http :=
    {| send := fun _ => Raise IndexError;
       getresponse := fun _ => Raise IndexError |} in
  @create_resource Examples.plain_serializer (Examples.rest_client false)
    failing "lbvservers" "lbvserver" (VStr "<lbvserver/>")
  = Raise ServiceUnavailable
  ∧ @remove_resource Examples.plain_serializer (Examples.rest_client false)
      failing "lbvservers" true
    = Raise IndexError.
Proof.
  cbv zeta.
  destruct (@connection_errors_by_operation Examples.plain_serializer
              (Examples.rest_client false)
              {| send := fun _ => Raise IndexError;
                 getresponse := fun _ => Raise IndexError |}
              "lbvservers" "lbvserver" "<lbvserver/>" true IndexError
              eq_refl)
    as (Hcreate & _ & _ & Hremove & _).
  split; [exact (Hcreate eq_refl) | exact (Hremove eq_refl)].
Defined.

(** [X19] An update with data that is neither a string nor true (no data, an
    empty dictionary) fails before any request is made: the body of the
    request was never bound.  A creation with the same data goes on with
    an empty body, as it does for the empty string. *)
Theorem update_without_data_fails `{Serializer} (self : RESTClient)
    (http : Http) (resource_path object_name : string)
    (object_data : value) :
  (∀ text, object_data ≠ VStr text) →
  truthy object_data = false →
  update_resource self http resource_path object_name object_data
  = Raise (OtherError "UnboundLocalError")
  ∧ create_resource self http resource_path object_name object_data
    = create_resource self http resource_path object_name (VStr "").
Proof.
  intros Hdata Hfalse.
  unfold update_resource, create_resource.
  destruct object_data as [| b | z | text | l | d]; cbn in Hfalse |- *;
    try rewrite Hfalse; try (split; reflexivity).
  destruct (Hdata text eq_refl).
Qed.

(** The theorem at an update and a creation without data. *)
Lemma update_without_data_fails_witness :
  @update_resource Examples.plain_serializer (Examples.rest_client false)
    (Examples.answering 200) "lbvservers/web" "lbvserver" VNone
  = Raise (OtherError "UnboundLocalError")
  ∧ ∃ resp_dict,
      @create_resource Examples.plain_serializer (Examples.rest_client false)
        (Examples.answering 200) "lbvservers" "lbvserver" VNone
      = Ok (200, resp_dict).
Proof.
  split.
  - apply (@update_without_data_fails Examples.plain_serializer
             (Examples.rest_client false) (Examples.answering 200)
             "lbvservers/web" "lbvserver" VNone);
      [discriminate | reflexivity].
  - eexists. reflexivity.
Defined.

(** [X20] Each operation makes one request, with its own method, on the path
    of the service followed by a slash and the path of the resource, and
    its outcome depends on the connection through that request only: two
    connections that treat the request alike give the same outcome. *)
Theorem one_request_decides `{Serializer} (self : RESTClient)
    (http http' : Http) (resource_path object_name text : string)
    (parse_response : bool) :
  let alike method body :=
    send http (request_of self method resource_path body)
    = send http' (request_of self method resource_path body)
    ∧ getresponse http (request_of self method resource_path body)
      = getresponse http' (request_of self method resource_path body) in
  (alike "POST" text →
   create_resource self http resource_path object_name (VStr text)
   = create_resource self http' resource_path object_name (VStr text))
  ∧ (alike "GET" "" →
     retrieve_resource self http resource_path parse_response
     = retrieve_resource self http' resource_path parse_response)
  ∧ (alike "PUT" text →
     update_resource self http resource_path object_name (VStr text)
     = update_resource self http' resource_path object_name (VStr text))
  ∧ (alike "DELETE" "" →
     remove_resource self http resource_path parse_response
     = remove_resource self http' resource_path parse_response).
Proof.
  cbn zeta.
  unfold create_resource, update_resource, retrieve_resource,
    remove_resource, request_of.
  cbn [choose_body and_then].
  change (default "" (Some text)) with text.
  repeat split; intros [-> ->]; reflexivity.
Qed.

(** The theorem at two servers that answer 200. *)
Lemma one_request_decides_witness :
  @retrieve_resource Examples.plain_serializer (Examples.rest_client false)
    (Examples.answering 200) "lbvservers" true
  = @retrieve_resource Examples.plain_serializer (Examples.rest_client false)
      {| send := fun _ => Ok tt;
         getresponse := fun req =>
           if String.eqb (method req) "GET"
           then getresponse (Examples.answering 200) req
           else Raise LookupError |}
      "lbvservers" true.
Proof.
  apply (proj1 (proj2
    (@one_request_decides Examples.plain_serializer
       (Examples.rest_client false) (Examples.answering 200)
       {| send := fun _ => Ok tt;
          getresponse := fun req =>
            if String.eqb (method req) "GET"
            then getresponse (Examples.answering 200) req
            else Raise LookupError |}
       "lbvservers" "lbvserver" "" true))).
  split; reflexivity.
Defined.

(** [X21] A header given to [update_headers] is sent with every later request
    in place of the header of the same name, [Authorization] included;
    the other headers, and the rest of the request, are as before. *)
Theorem updated_headers_are_sent (self : RESTClient)
    (headers : gmap string (option string)) (method resource_path body : string)
    (k : string) :
  let before := request_of self method resource_path body in
  let after :=
    request_of (update_headers self headers) method resource_path body in
  (∀ v, headers !! k = Some v → request_headers after !! k = Some v)
  ∧ (headers !! k = None →
     request_headers after !! k = request_headers before !! k)
  ∧ RestClient.method after = method
  ∧ url_path after = url_path before
  ∧ request_body after = body
  ∧ _get_connection (update_headers self headers) = _get_connection self.
Proof.
  cbn zeta. unfold update_headers, request_of, build_headers.
  destruct (Nat.eqb (size headers) 0) eqn:Esize; cbn [negb].
  - apply Nat.eqb_eq in Esize. apply map_size_empty_iff in Esize.
    subst headers. repeat split. intros v E. rewrite lookup_empty in E.
    discriminate E.
  - cbn. repeat split.
    + intros v E. rewrite <- !(assoc_L (∪)).
      apply lookup_union_Some_l. exact E.
    + intros E. rewrite <- !(assoc_L (∪)).
      rewrite lookup_union_r by exact E. reflexivity.
Qed.

(** The theorem at a client that is given a token in place of its
    credentials. *)
Lemma updated_headers_are_sent_witness :
  request_headers
    (request_of
       (update_headers (Examples.rest_client false)
          (<["Authorization" := Some "Token t0"]> ∅))
       "GET" "lbvservers" "")
    !! "Authorization"
  = Some (Some "Token t0").
Proof.
  apply (proj1 (updated_headers_are_sent (Examples.rest_client false)
                  (<["Authorization" := Some "Token t0"]> ∅)
                  "GET" "lbvservers" "" "Authorization")).
  apply lookup_insert_eq.
Defined.

Lemma split_nonempty (sep : ascii) (s : string) : split sep s ≠ [].
Proof.
  destruct s as [|c s]; cbn; [discriminate|].
  destruct (Ascii.eqb c sep); [discriminate|].
  destruct (split sep s); discriminate.
Qed.

Lemma split_without_separator (sep : ascii) (s : string) :
  occurs sep s = false → split sep s = [s].
Proof.
  induction s as [|c s IH]; cbn; [reflexivity|].
  intros Hno. apply orb_false_iff in Hno as [Hc Hs].
  rewrite Hc, (IH Hs). reflexivity.
Qed.

Lemma split_at_separator (sep : ascii) (s rest : string) :
  occurs sep s = false →
  split sep (s +:+ String sep rest) = s :: split sep rest.
Proof.
  induction s as [|c s IH]; intros Hno.
  - rewrite PyFacts.append_empty. cbn. rewrite Ascii.eqb_refl. reflexivity.
  - cbn in Hno. apply orb_false_iff in Hno as [Hc Hs].
    rewrite PyFacts.append_cons. cbn. rewrite Hc, (IH Hs). reflexivity.
Qed.

(** [X22] A client that the constructor returns can always connect: its
    protocol is [http] or [https], the lower-case scheme of its URI, and
    its port is set.  The constructor raises for an empty URI, and
    [ServiceUnavailable] for any other scheme; the client has
    credentials exactly when both a user name and a password are
    given. *)
Theorem built_client_connects `{Library} (uri : string)
    (username password : option string) (plurals : value)
    (headers : option (gmap string (option string))) (is_proxy : bool) :
  let built := __init__ uri username password plurals headers is_proxy in
  let scheme := lower (urlparse uri).1.1 in
  (∀ b, built = Ok b →
     _get_connection (client b) = Ok tt
     ∧ protocol (client b) = scheme
     ∧ truthy (port b) = true
     ∧ uri ≠ ""
     ∧ RestClient.uri (client b) = uri
     ∧ service_path (client b) = (urlparse uri).2
     ∧ RestClient.is_proxy (client b) = is_proxy
     ∧ (auth (client b) = None ↔ username = None ∨ password = None))
  ∧ (uri = "" → built = Raise (OtherError "No uri passed. Cannot connect"))
  ∧ (uri ≠ "" → scheme ≠ "http" → scheme ≠ "https" →
     built = Raise ServiceUnavailable)
  ∧ (uri ≠ "" → scheme = "http" ∨ scheme = "https" → ∃ b, built = Ok b).
Proof.
  cbn zeta. unfold __init__.
  destruct uri as [|c uri'] eqn:Euri.
  { cbn. repeat split; try discriminate; try congruence. }
  rewrite <- Euri. cbn [truthy negb String.eqb].
  replace (String.eqb uri "") with false by (rewrite Euri; reflexivity).
  cbn [negb].
  destruct (urlparse uri) as [[scheme netloc] path]. cbn [fst snd].
  set (parts := match split ":" netloc with
                | host :: port :: _ => (host, VStr port)
                | [host] => (host, VNone)
                | [] => (EmptyString, VNone)
                end).
  destruct parts as [host port].
  assert (Hport : ∀ n, n ≠ 0 →
            truthy (if truthy port then port else VInt n) = true).
  { intros n Hn. destruct (truthy port) eqn:E; [exact E|].
    cbn. apply negb_true_iff, Z.eqb_neq. exact Hn. }
  assert (Hauth : match username, password with
                  | Some u, Some p =>
                      Some ("Basic "
                            +:+ all_but_last (encodestring (u +:+ ":" +:+ p)))
                  | _, _ => None
                  end = None ↔ username = None ∨ password = None).
  { destruct username, password; split; try discriminate; auto;
      intros [E|E]; discriminate E. }
  destruct (String.eqb (lower scheme) "http") eqn:Ehttp.
  { apply String.eqb_eq in Ehttp. rewrite Ehttp.
    split; [|split; [|split]].
    - intros b E. injection E as <-. cbn.
      repeat split; try congruence; try apply Hauth.
      apply Hport. discriminate.
    - rewrite Euri. discriminate.
    - congruence.
    - intros _ _. eexists. reflexivity. }
  destruct (String.eqb (lower scheme) "https") eqn:Ehttps.
  { apply String.eqb_eq in Ehttps. rewrite Ehttps.
    split; [|split; [|split]].
    - intros b E. injection E as <-. cbn.
      repeat split; try congruence; try apply Hauth.
      apply Hport. discriminate.
    - rewrite Euri. discriminate.
    - congruence.
    - intros _ _. eexists. reflexivity. }
  apply String.eqb_neq in Ehttp, Ehttps.
  split; [|split; [|split]].
  - intros b E. discriminate E.
  - rewrite Euri. discriminate.
  - reflexivity.
  - intros _ [E|E]; congruence.
Qed.

(** The theorem at a URI in capitals, with a port. *)
Lemma built_client_connects_witness :
  ∃ b,
    @__init__ SetupExamples.library "HTTPS://ns.example:8443/api"
      (Some "user") (Some "pw") VNone None false = Ok b
    ∧ _get_connection (client b) = Ok tt
    ∧ protocol (client b) = "https".
Proof.
  destruct (@built_client_connects SetupExamples.library
              "HTTPS://ns.example:8443/api" (Some "user") (Some "pw") VNone
              None false)
    as (Hbuilt & _ & _ & Hsome).
  destruct Hsome as [b Hb]; [discriminate | right; reflexivity |].
  exists b. split; [exact Hb|].
  destruct (Hbuilt b Hb) as (Hconn & Hprotocol & _).
  split; [exact Hconn | exact Hprotocol].
Defined.

(** [X23] The host of a client is the network location of its URI up to the
    first colon.  Without a colon, or with nothing after it, the port is
    the number 80 for [http] and 443 for [https]; with a colon the port
    is the text that follows it, kept as text. *)
Theorem init_splits_host_and_port `{Library} (uri : string)
    (username password : option string) (plurals : value)
    (headers : option (gmap string (option string))) (is_proxy : bool)
    (host text : string) :
  let built := __init__ uri username password plurals headers is_proxy in
  let scheme := lower (urlparse uri).1.1 in
  let netloc := (urlparse uri).1.2 in
  let default_port := if String.eqb scheme "http" then 80 else 443 in
  uri ≠ "" →
  scheme = "http" ∨ scheme = "https" →
  occurs ":" host = false →
  (netloc = host ∨ netloc = host +:+ ":" →
   ∃ b, built = Ok b
        ∧ RestClient.host (client b) = host
        ∧ port b = VInt default_port)
  ∧ (netloc = host +:+ ":" +:+ text → text ≠ "" → occurs ":" text = false →
     ∃ b, built = Ok b
          ∧ RestClient.host (client b) = host
          ∧ port b = VStr text).
Proof.
  cbn zeta. intros Huri Hscheme Hhost. unfold __init__.
  replace (negb (truthy (VStr uri))) with false
    by (destruct uri; [congruence | reflexivity]).
  destruct (urlparse uri) as [[scheme netloc] path]. cbn [fst snd] in *.
  split.
  - intros Hnetloc.
    assert (Hparts : match split ":" netloc with
                     | h :: p :: _ => (h, VStr p)
                     | [h] => (h, VNone)
                     | [] => (EmptyString, VNone)
                     end = (host, VNone)
                     ∨ match split ":" netloc with
                       | h :: p :: _ => (h, VStr p)
                       | [h] => (h, VNone)
                       | [] => (EmptyString, VNone)
                       end = (host, VStr "")).
    { destruct Hnetloc as [-> | ->].
      - left. rewrite split_without_separator by exact Hhost. reflexivity.
      - right. rewrite split_at_separator by exact Hhost. reflexivity. }
    destruct Hscheme as [-> | ->]; cbn [String.eqb Ascii.eqb Bool.eqb];
      destruct Hparts as [-> | ->]; eexists; repeat split.
  - intros -> Htext Hno.
    change (host +:+ ":" +:+ text) with (host +:+ String ":" text).
    rewrite split_at_separator by exact Hhost.
    rewrite split_without_separator by exact Hno.
    assert (Htrue : truthy (VStr text) = true)
      by (destruct text; [congruence | reflexivity]).
    destruct Hscheme as [-> | ->]; cbn [String.eqb Ascii.eqb Bool.eqb];
      rewrite Htrue; eexists; repeat split.
Qed.

(** The theorem at a URI with the port 8443, and at one without a
    port. *)
Lemma init_splits_host_and_port_witness :
  (∃ b,
     @__init__ SetupExamples.library "HTTPS://ns.example:8443/api"
       (Some "user") (Some "pw") VNone None false = Ok b
     ∧ RestClient.host (client b) = "ns.example"
     ∧ port b = VStr "8443")
  ∧ (∃ b,
       @__init__ SetupExamples.library "http://ns.example/api"
         None None VNone None false = Ok b
       ∧ RestClient.host (client b) = "ns.example"
       ∧ port b = VInt 80).
Proof.
  split.
  - apply (proj2 (@init_splits_host_and_port SetupExamples.library
                    "HTTPS://ns.example:8443/api" (Some "user") (Some "pw")
                    VNone None false "ns.example" "8443"
                    ltac:(discriminate) (or_intror eq_refl) eq_refl));
      [reflexivity | discriminate | reflexivity].
  - apply (proj1 (@init_splits_host_and_port SetupExamples.library
                    "http://ns.example/api" None None VNone None false
                    "ns.example" ""
                    ltac:(discriminate) (or_introl eq_refl) eq_refl)).
    left. reflexivity.
Defined.

End RestClientMore.

(** ** More on the agent driver *)

Module NetScalerMore.
Import NetScaler.

(** [X24] Without an agent nothing is done for a pool.  A creation for which
    the scheduler has no agent raises [NoEligibleLbaasAgent]; an update
    or a deletion of a pool that no agent hosts raises
    [NoActiveLbaasAgent].  In each case the world is the one that the
    one question left: no network is looked up, no port is made or
    removed, no message is cast and no record is deleted. *)
Theorem pool_needs_an_agent {S} (self : NetScalerPluginDriver S)
    (old_pool pool : Pool) (w w1 : S) :
  (pool_scheduler self pool w = (Ok None, w1) →
   create_pool self pool w = (Raise (NoEligibleLbaasAgent (pool_id pool)), w1))
  ∧ (get_lbaas_agent_hosting_pool (plugin self) (pool_id pool) w
     = (Ok None, w1) →
     update_pool self old_pool pool w
     = (Raise (NoActiveLbaasAgent (pool_id pool)), w1)
     ∧ delete_pool self pool w
       = (Raise (NoActiveLbaasAgent (pool_id pool)), w1)).
Proof.
  split.
  - intros Hnone. unfold create_pool.
    rewrite PlatformFacts.bind_run, Hnone. reflexivity.
  - intros Hnone. unfold update_pool, delete_pool, get_pool_agent.
    rewrite !PlatformFacts.bind_run, Hnone. split; reflexivity.
Qed.

(** The theorem at the pool [A] once no agent hosts it. *)
Lemma pool_needs_an_agent_witness :
  let w := Examples.platform_unhosted in
  let out := delete_pool Platform.driver Examples.pool_A w in
  fst out = Raise (NoActiveLbaasAgent "A")
  ∧ Platform.pools (snd out) = [Examples.pool_A]
  ∧ Platform.ports (snd out) = Platform.ports w.
Proof.
  cbv zeta.
  destruct (proj2 (pool_needs_an_agent Platform.driver Examples.pool_A
                     Examples.pool_A
                     Examples.platform_unhosted
                     (Platform.record
                        (Platform.ev_get_lbaas_agent_hosting_pool "A")
                        Examples.platform_unhosted))
              eq_refl) as [_ Hdelete].
  rewrite Hdelete. repeat split.
Defined.

(** [X25] The network information of a pool has the subnet of the pool and
    the network of that subnet, the type and the segmentation of the
    network when the network has them, and no other key; it is made
    with one lookup of the subnet and one of the network. *)
Theorem pool_network_info_keys {S} (self : NetScalerPluginDriver S)
    (pool : Pool) (subnet : Subnet) (network : Network) (w w1 w2 : S) :
  get_subnet (_core_plugin (plugin self)) (pool_subnet_id pool) w
  = (Ok subnet, w1) →
  get_network (_core_plugin (plugin self)) (subnet_network_id subnet) w1
  = (Ok network, w2) →
  ∃ network_info,
    _get_pool_network_info self pool w = (Ok network_info, w2)
    ∧ network_info !! "subnet_id" = Some (VStr (pool_subnet_id pool))
    ∧ network_info !! "network_id" = Some (VStr (subnet_network_id subnet))
    ∧ network_info !! "network_type" = provider_network_type network
    ∧ network_info !! "segmentation_id" = provider_segmentation_id network
    ∧ ∀ key,
        key ∉ ["subnet_id"; "network_id"; "network_type"; "segmentation_id"]
        → network_info !! key = None.
Proof.
  intros Hsubnet Hnetwork. eexists. split.
  { unfold _get_pool_network_info.
    rewrite PlatformFacts.bind_run, Hsubnet.
    rewrite PlatformFacts.bind_run, Hnetwork. reflexivity. }
  unfold copy_if_present.
  destruct (provider_network_type network) as [type|],
    (provider_segmentation_id network) as [segmentation|];
    (repeat split;
     [ EdgeLbFacts.lookup_key; reflexivity ..
     | intros key Hkey;
       repeat (rewrite lookup_insert_ne
                 by (intros <-; apply Hkey; rewrite !elem_of_cons; auto));
       apply lookup_empty ]).
Qed.

(** The theorem at the pool [A], whose subnet is on a VLAN. *)
Lemma pool_network_info_keys_witness :
  ∃ network_info w',
    _get_pool_network_info Platform.driver Examples.pool_A
      Examples.bare_platform = (Ok network_info, w')
    ∧ network_info !! "network_id" = Some (VStr "N1")
    ∧ network_info !! "network_type" = Some (VStr "vlan")
    ∧ network_info !! "port_id" = None.
Proof.
  destruct (pool_network_info_keys Platform.driver Examples.pool_A
              _ _ Examples.bare_platform _ _ eq_refl eq_refl)
    as (network_info & Hrun & _ & Hnetwork & Htype & _ & Hothers).
  exists network_info. eexists. split; [exact Hrun|].
  split; [exact Hnetwork|]. split; [exact Htype|].
  apply Hothers. apply (bool_decide_unpack _). vm_compute. exact I.
Defined.

End NetScalerMore.

(** ** More on the agent driver on the platform *)

Module PlatformMore.
Import NetScaler Platform PlatformFacts.

Lemma filter_all {A} (P : A → Prop) `{∀ x, Decision (P x)} (l : list A) :
  (∀ x, x ∈ l → P x) → filter P l = l.
Proof.
  induction l as [|a l IH]; intros Hall; [reflexivity|].
  rewrite filter_cons_True by (apply Hall, elem_of_cons; auto).
  f_equal. apply IH. intros x Hx. apply Hall, elem_of_cons. auto.
Qed.

Lemma filter_none {A} (P : A → Prop) `{∀ x, Decision (P x)} (l : list A) :
  (∀ x, x ∈ l → ¬ P x) → filter P l = [].
Proof.
  induction l as [|a l IH]; intros Hall; [reflexivity|].
  rewrite filter_cons_False by (apply Hall, elem_of_cons; auto).
  apply IH. intros x Hx. apply Hall, elem_of_cons. auto.
Qed.

Lemma head_filter_none {A} (P : A → Prop) `{∀ x, Decision (P x)}
    (l : list A) :
  head (filter P l) = None → filter P l = [].
Proof. destruct (filter P l); [reflexivity | discriminate]. Qed.

Lemma new_snat_port_passes (network tenant subnet : string) (w : world) :
  passes port_attr (snat_filter network tenant subnet)
    (new_snat_port network tenant subnet w).
Proof. apply passes_snat_filter. repeat split. Qed.

(** Once a SNAT port is made sure of, the lookup finds it. *)
Lemma snat_port_found_again (network tenant subnet : string) (w : world) :
  head (snat_ports network tenant subnet w) = None →
  snat_ports network tenant subnet
    (set_ports (ports w ++ [new_snat_port network tenant subnet w]) w)
  = [new_snat_port network tenant subnet w].
Proof.
  intros Hnone. unfold snat_ports in *. cbn [ports set_ports].
  rewrite filter_app, (head_filter_none _ _ Hnone).
  rewrite filter_cons_True by apply new_snat_port_passes.
  reflexivity.
Qed.

(** [X26] Making sure of the SNAT port of a subnet is idempotent on the
    platform: after a call that returns, a second call returns the same
    port and address, creates nothing, and leaves the ports as they
    are; a call creates one port at most. *)
Theorem ensure_is_idempotent (tenant subnet : string)
    (network_info network_info' : dict) (w w1 : world) :
  _create_snatport_for_subnet_if_not_exists driver tenant subnet
    network_info w = (Ok network_info', w1) →
  (∃ w2,
     _create_snatport_for_subnet_if_not_exists driver tenant subnet
       network_info w1 = (Ok network_info', w2)
     ∧ ports w2 = ports w1
     ∧ ∃ network,
         events w2
         = events w1 ++ [ev_get_subnet subnet;
                         ev_get_ports (snat_filter network tenant subnet)])
  ∧ (ports w1 = ports w ∨ ∃ port, ports w1 = ports w ++ [port]).
Proof.
  intros Hrun. rewrite create_snatport_if_not_exists_run in Hrun.
  destruct (subnets w !! subnet) as [network|] eqn:Hsubnet;
    [|discriminate Hrun].
  cbv zeta in Hrun.
  destruct (head (snat_ports network tenant subnet w)) as [port|] eqn:Hhead.
  - injection Hrun as Hresult <-. split; [|left; reflexivity].
    eexists. split; [|split].
    + rewrite create_snatport_if_not_exists_run.
      cbn [subnets emit]. rewrite Hsubnet. cbv zeta.
      change (snat_ports network tenant subnet
                (emit [ev_get_subnet subnet;
                       ev_get_ports (snat_filter network tenant subnet)] w))
        with (snat_ports network tenant subnet w).
      rewrite Hhead, Hresult. reflexivity.
    + reflexivity.
    + exists network. reflexivity.
  - cbn [first_fixed_ip_address new_snat_port port_data fixed_ips
         fixed_ip_address port_id] in Hrun.
    injection Hrun as Hresult <-. split; [|right; eexists; reflexivity].
    eexists. split; [|split].
    + rewrite create_snatport_if_not_exists_run.
      cbn [subnets emit set_ports]. rewrite Hsubnet. cbv zeta.
      match goal with
      | |- context [head (snat_ports network tenant subnet ?w')] =>
          change (snat_ports network tenant subnet w')
            with (snat_ports network tenant subnet
                    (set_ports
                       (ports w ++ [new_snat_port network tenant subnet w])
                       w))
      end.
      rewrite (snat_port_found_again _ _ _ _ Hhead). cbn [head].
      cbn [first_fixed_ip_address new_snat_port port_data fixed_ips
           fixed_ip_address port_id].
      rewrite Hresult. reflexivity.
    + reflexivity.
    + exists network. reflexivity.
Qed.

(** The theorem at the first pool of a subnet. *)
Lemma ensure_is_idempotent_witness :
  let first :=
    _create_snatport_for_subnet_if_not_exists driver "T" "S1" ∅
      Examples.bare_platform in
  let second :=
    _create_snatport_for_subnet_if_not_exists driver "T" "S1" ∅
      (snd first) in
  fst second = fst first ∧ ports (snd second) = ports (snd first).
Proof.
  cbv zeta.
  destruct (ensure_is_idempotent "T" "S1" ∅ _ Examples.bare_platform _
              (surjective_pairing _))
    as [(w2 & Hsecond & Hports & _) _].
  rewrite Hsecond. split; [reflexivity | exact Hports].
Defined.

Lemma find_fresh_pool (id : string) (l : list Pool) :
  id ∉ (pool_id <$> l) →
  List.find (fun p => String.eqb (pool_id p) id) l = None.
Proof.
  induction l as [|a l IH]; intros Hfresh; [reflexivity|]. cbn.
  destruct (String.eqb_spec (pool_id a) id) as [E|_].
  - contradiction Hfresh. rewrite fmap_cons, <- E. apply elem_of_cons. auto.
  - apply IH. intros Hin. apply Hfresh. rewrite fmap_cons.
    apply elem_of_cons. auto.
Qed.

(** [X27] On a platform in order, a pool that is the first of its tenant on
    its subnet can always be created, when there is an agent and the
    subnet and its network are known, and can then be deleted; the
    creation makes the SNAT port, and after the deletion the ports and
    the pools are what they were before the creation. *)
Theorem pool_lifecycle_completes (pool : Pool) (network : string)
    (n : Network) (w : world) :
  consistent w →
  agents w ≠ [] →
  subnets w !! pool_subnet_id pool = Some network →
  networks w !! network = Some n →
  pool_id pool ∉ (pool_id <$> pools w) →
  ¬ pool_references w (pool_tenant_id pool) (pool_subnet_id pool) →
  ∃ w1 w2,
    service_create_pool pool w = (Ok tt, w1)
    ∧ ports w1
      = ports w ++ [new_snat_port network (pool_tenant_id pool)
                      (pool_subnet_id pool) w]
    ∧ service_delete_pool (pool_id pool) w1 = (Ok tt, w2)
    ∧ ports w2 = ports w
    ∧ pools w2 = pools w.
Proof.
  intros Hw Hagents Hsubnet Hnetwork Hfresh Hfirst.
  set (tenant := pool_tenant_id pool) in *.
  set (subnet := pool_subnet_id pool) in *.
  assert (Hnone : head (snat_ports network tenant subnet w) = None).
  { destruct (head (snat_ports network tenant subnet w)) as [port|] eqn:E;
      [|reflexivity].
    contradiction Hfirst. apply (consistent_iff w tenant subnet Hw).
    apply (snat_ports_found w network tenant subnet Hw Hsubnet).
    exists port. exact E. }
  destruct (agents w) as [|agent rest] eqn:Hagent; [congruence|].
  assert (Hcreate : ∃ w1,
            service_create_pool pool w = (Ok tt, w1)
            ∧ ports w1 = ports w ++ [new_snat_port network tenant subnet w]
            ∧ pools w1 = pools w ++ [pool]
            ∧ hosting w1 = <[pool_id pool := agent]> (hosting w)
            ∧ subnets w1 = subnets w
            ∧ networks w1 = networks w).
  { eexists. split.
    { unfold service_create_pool. rewrite bind_run. cbn [Py.gets].
    match goal with
    | |- context [decide ?P] => destruct (decide P) as [Hdup|_]
    end; [contradiction|].
    rewrite bind_run. cbn [Py.modify].
    unfold create_pool. rewrite bind_run.
    cbn [pool_scheduler driver]. unfold schedule.
    cbn [agents set_pools]. rewrite Hagent.
    rewrite bind_run, get_pool_network_info_run.
    cbn [subnets networks record set_hosting set_pools].
    fold subnet. rewrite Hsubnet, Hnetwork.
    rewrite bind_run, create_snatport_if_not_exists_run.
    cbn [subnets networks record set_hosting set_pools emit].
    fold subnet tenant. rewrite Hsubnet. cbv zeta.
    match goal with
    | |- context [head (snat_ports network tenant subnet ?w')] =>
        change (snat_ports network tenant subnet w')
          with (snat_ports network tenant subnet w)
    end.
    rewrite Hnone.
    cbn [first_fixed_ip_address new_snat_port port_data fixed_ips
         fixed_ip_address port_id].
    cbn [agent_create_pool agent_rpc driver messenger cast].
    reflexivity. }
    repeat split. }
  destruct Hcreate
    as (w1 & Hcreate & Hports1 & Hpools1 & Hhosting1 & Hsubnets1 & Hnetworks1).
  exists w1.
  assert (Hdelete : ∃ w2,
            service_delete_pool (pool_id pool) w1 = (Ok tt, w2)
            ∧ ports w2 = ports w ∧ pools w2 = pools w).
  { unfold service_delete_pool. rewrite bind_run. cbn [Py.gets].
    rewrite Hpools1.
    rewrite (EdgeLbOperations.find_app_new _ _ pool
               (find_fresh_pool _ _ Hfresh) (String.eqb_refl _)).
    unfold delete_pool.
    rewrite bind_run, get_pool_agent_run, Hhosting1, lookup_insert_eq.
    rewrite bind_run, get_pool_network_info_run.
    cbn [subnets networks emit]. fold subnet.
    rewrite Hsubnets1, Hsubnet, Hnetworks1, Hnetwork.
    rewrite bind_run.
    cbn [agent_delete_pool agent_rpc driver messenger cast].
    rewrite bind_run.
    cbn [_delete_db_pool plugin driver lb_plugin].
    rewrite remove_snatport_if_not_used_run.
    unfold pools_on, snat_ports.
    cbn [pools ports subnets record set_pools emit].
    fold subnet tenant.
    rewrite Hpools1, Hports1, Hsubnets1, Hsubnet.
    assert (Hothers : ∀ x, x ∈ pools w → pool_id x ≠ pool_id pool).
    { intros x Hx E. apply Hfresh. rewrite <- E.
      apply list_elem_of_fmap_2. exact Hx. }
    assert (Hkept :
              filter (λ p : Pool, pool_id p ≠ pool_id pool) (pools w ++ [pool])
              = pools w).
    { rewrite filter_app, (filter_all _ _ Hothers).
      rewrite filter_cons_False by (intros E; apply E; reflexivity).
      rewrite filter_nil. apply app_nil_r. }
    rewrite Hkept.
    rewrite (filter_none (passes pool_attr (pool_filter tenant subnet))
               (pools w))
      by (intros x Hx Hpass; apply Hfirst;
          apply passes_pool_filter in Hpass; exists x; tauto).
    unfold snat_ports in Hnone.
    rewrite filter_app, (head_filter_none _ _ Hnone).
    rewrite filter_cons_True by apply new_snat_port_passes.
    rewrite filter_nil. cbn [head app].
    eexists. split; [reflexivity|].
    cbn [ports pools record set_ports set_pools emit].
    split; [|reflexivity].
    rewrite filter_app, filter_all.
    - rewrite filter_cons_False by (intros E; apply E; reflexivity).
      rewrite filter_nil. apply app_nil_r.
    - intros x Hx E. cbn [new_snat_port port_id] in E.
      apply (infinite_is_fresh (port_id <$> ports w)). rewrite <- E.
      apply list_elem_of_fmap_2. exact Hx. }
  destruct Hdelete as (w2 & Hdelete & Hports2 & Hpools2).
  exists w2. repeat split; assumption.
Qed.

(** The theorem at the pool [A] on the bare platform. *)
Lemma pool_lifecycle_completes_witness :
  ∃ w1 w2,
    service_create_pool Examples.pool_A Examples.bare_platform = (Ok tt, w1)
    ∧ service_delete_pool "A" w1 = (Ok tt, w2)
    ∧ ports w2 = [] ∧ pools w2 = [].
Proof.
  destruct (pool_lifecycle_completes Examples.pool_A "N1"
              {| provider_network_type := Some (VStr "vlan");
                 provider_segmentation_id := Some (VInt 100) |}
              Examples.bare_platform)
    as (w1 & w2 & Hcreate & _ & Hdelete & Hports & Hpools).
  - apply consistent_without_pools; reflexivity.
  - discriminate.
  - reflexivity.
  - reflexivity.
  - cbn. apply not_elem_of_nil.
  - intros (q & Hq & _). cbn in Hq. inversion Hq.
  - exists w1, w2. repeat split; assumption.
Defined.


(** What the provider of the platform finds for an identifier after an
    update of the port with that identifier. *)
Lemma find_updated_port (id : string) (port : Port) (l : list Port)
    (p : Port) :
  port_id port = id →
  List.find (fun q => String.eqb (port_id q) id) l = Some p →
  List.find (fun q => String.eqb (port_id q) id)
    ((fun q => if decide (port_id q = id) then port else q) <$> l)
  = Some port.
Proof.
  intros Hport. induction l as [|a l IH]; [discriminate|].
  cbn. destruct (decide (port_id a = id)) as [E|E].
  - rewrite Hport, String.eqb_refl. reflexivity.
  - apply String.eqb_neq in E. rewrite E. exact IH.
Qed.

Lemma updated_port_ids (id : string) (port : Port) (l : list Port) :
  port_id port = id →
  port_id <$> ((fun q => if decide (port_id q = id) then port else q) <$> l)
  = port_id <$> l.
Proof.
  intros Hport. rewrite <- list_fmap_compose. apply list_fmap_ext.
  intros i q _. cbn. destruct (decide (port_id q = id)); congruence.
Qed.

Lemma found_port_id (id : string) (l : list Port) (p : Port) :
  List.find (fun q => String.eqb (port_id q) id) l = Some p →
  port_id p = id ∧ id ∈ port_id <$> l.
Proof.
  intros Hfind. apply List.find_some in Hfind as [Hin Hid].
  apply String.eqb_eq in Hid. split; [exact Hid|].
  rewrite <- Hid. apply list_elem_of_fmap_2, list_elem_of_In, Hin.
Qed.

(** [X28] On the platform, plugging the port of a vip marks it: the port is
    up, owned by the load balancer and on the device of the host, and
    its other attributes are kept.  Unplugging it afterwards clears the
    three marks, so that the ports are what unplugging alone would have
    left; neither adds or removes a port. *)
Theorem plug_then_unplug `{Runtime} (id : string) (host host' : option string)
    (p : Port) (w : world) :
  id ≠ "" →
  fst (get_port core_plugin id w) = Ok p →
  let plugged := plug_vip_port lb_plugin (Some id) host w in
  let unplugged := unplug_vip_port lb_plugin (Some id) host' (snd plugged) in
  fst plugged = Ok tt
  ∧ fst (get_port core_plugin id (snd plugged))
    = Ok (set_plugged p true ("neutron:" +:+ LOADBALANCER)
            (uuid5_NAMESPACE_DNS (str host)))
  ∧ fst unplugged = Ok tt
  ∧ fst (get_port core_plugin id (snd unplugged))
    = Ok (set_plugged p false "" "")
  ∧ ports (snd unplugged)
    = ports (snd (unplug_vip_port lb_plugin (Some id) host' w))
  ∧ port_id <$> ports (snd unplugged) = port_id <$> ports w.
Proof.
  intros Hid Hfound. cbn zeta. cbn [get_port core_plugin fst] in Hfound.
  destruct (List.find _ (ports w)) as [p'|] eqn:Hfind; [|discriminate].
  injection Hfound as ->.
  destruct (found_port_id _ _ _ Hfind) as [Hp Hin].
  set (marked := set_plugged p true ("neutron:" +:+ LOADBALANCER)
                   (uuid5_NAMESPACE_DNS (str host))).
  set (cleared := set_plugged p false "" "").
  assert (Hmarked : {| port_id := id; port_data := port_data marked |}
                    = marked)
    by (subst marked; unfold set_plugged; cbn; rewrite Hp; reflexivity).
  assert (Hcleared : {| port_id := id; port_data := port_data cleared |}
                     = cleared)
    by (subst cleared; unfold set_plugged; cbn; rewrite Hp; reflexivity).
  assert (Hplug : plug_vip_port lb_plugin (Some id) host w
                  = (Ok tt,
                     record (ev_update_port id marked)
                       (set_ports
                          ((fun q => if decide (port_id q = id)
                                     then marked else q) <$> ports w)
                          (record (ev_get_port id) w)))).
  { unfold plug_vip_port. rewrite (CallbackFacts.no_port_id_Some id Hid).
    change (default "" (Some id)) with id.
    unfold try_except, mbind, M_bind, mret, M_ret, Py.bind, Py.ret.
    cbn [get_port update_port _core_plugin lb_plugin core_plugin].
    rewrite Hfind. cbn [is_PortNotFound ports record].
    fold marked.
    destruct (decide (id ∈ port_id <$> ports w)) as [_|Hout];
      [|contradiction].
    rewrite Hmarked. reflexivity. }
  assert (Hunplug : ∀ w0 p0,
            List.find (fun q => String.eqb (port_id q) id) (ports w0)
            = Some p0 →
            set_plugged p0 false "" "" = cleared →
            unplug_vip_port lb_plugin (Some id) host' w0
            = (Ok tt,
               record (ev_update_port id cleared)
                 (set_ports
                    ((fun q => if decide (port_id q = id)
                               then cleared else q) <$> ports w0)
                    (record (ev_get_port id) w0)))).
  { intros w0 p0 Hfind0 Hp0.
    destruct (found_port_id _ _ _ Hfind0) as [_ Hin0].
    unfold unplug_vip_port. rewrite (CallbackFacts.no_port_id_Some id Hid).
    change (default "" (Some id)) with id.
    unfold try_except, mbind, M_bind, mret, M_ret, Py.bind, Py.ret.
    cbn [get_port update_port _core_plugin lb_plugin core_plugin].
    rewrite Hfind0. cbn [is_PortNotFound ports record].
    rewrite Hp0.
    destruct (decide (id ∈ port_id <$> ports w0)) as [_|Hout];
      [|contradiction].
    rewrite Hcleared. reflexivity. }
  assert (Hmarked_id : port_id marked = id) by exact Hp.
  assert (Hcleared_id : port_id cleared = id) by exact Hp.
  rewrite Hplug. cbn [fst snd].
  rewrite (Hunplug _ marked)
    by (first [ exact (find_updated_port id marked _ p Hmarked_id Hfind)
              | reflexivity ]).
  rewrite (Hunplug w p Hfind eq_refl).
  cbn [fst snd get_port core_plugin ports record set_ports].
  rewrite (find_updated_port id marked _ p Hmarked_id Hfind).
  rewrite (find_updated_port id cleared _ marked Hcleared_id
             (find_updated_port id marked _ p Hmarked_id Hfind)).
  repeat split.
  - rewrite <- list_fmap_compose. apply list_fmap_ext.
    intros i q _. cbn. destruct (decide (port_id q = id)) as [E|E].
    + rewrite Hmarked_id. destruct (decide (id = id)); congruence.
    + destruct (decide (port_id q = id)); congruence.
  - rewrite !updated_port_ids by assumption. reflexivity.
Qed.

(** The theorem at the port of a vip, on a platform that has it. *)
Lemma plug_then_unplug_witness :
  let w := set_ports [Examples.vip_port] Examples.bare_platform in
  let plugged :=
    @plug_vip_port _ Examples.runtime lb_plugin (Some "vip-port")
      (Some "h1") w in
  fst plugged = Ok tt
  ∧ fst (get_port core_plugin "vip-port" (snd plugged))
    = Ok (set_plugged Examples.vip_port true "neutron:LOADBALANCER"
            "uuid5:h1").
Proof.
  cbv zeta.
  destruct (@plug_then_unplug Examples.runtime "vip-port" (Some "h1") None
              Examples.vip_port
              (set_ports [Examples.vip_port] Examples.bare_platform)
              ltac:(discriminate) eq_refl)
    as (Hplug & Hmarked & _).
  split; [exact Hplug | exact Hmarked].
Defined.

End PlatformMore.

(** ** The agent driver: vips, members and health monitors *)

Module NetScalerServiceFacts.
Import NetScaler NetScalerService.

(** [X29] Every operation on a vip, a member or a health monitor asks first
    for the agent that hosts the pool: the pool of the vip, the pool of
    the member (the new one, for an update), the pool named.  When no
    agent hosts it the operation raises [NoActiveLbaasAgent] and the
    world is the one this question left: nothing is looked up, cast or
    deleted. *)
Theorem operations_need_the_pool_agent {S} (self : ServiceDriver S)
    (pool_id : string) (w w1 : S) :
  get_lbaas_agent_hosting_pool (plugin (pool_driver self)) pool_id w
  = (Ok None, w1) →
  let refused (m : M S unit) :=
    m w = (Raise (NoActiveLbaasAgent pool_id), w1) in
  (∀ old_vip vip,
     vip_pool_id vip = pool_id →
     refused (create_vip self vip)
     ∧ refused (update_vip self old_vip vip)
     ∧ refused (delete_vip self vip))
  ∧ (∀ old_member member,
       member_pool_id member = pool_id →
       refused (create_member self member)
       ∧ refused (update_member self old_member member)
       ∧ refused (delete_member self member))
  ∧ (∀ old_health_monitor health_monitor,
       refused (create_pool_health_monitor self health_monitor pool_id)
       ∧ refused
           (update_health_monitor self old_health_monitor health_monitor
              pool_id)
       ∧ refused (delete_pool_health_monitor self health_monitor pool_id)).
Proof.
  intros Hnone. cbn zeta.
  assert (Hagent : ∀ k : Agent → M S unit,
            (get_pool_agent (pool_driver self) pool_id ≫= k) w
            = (Raise (NoActiveLbaasAgent pool_id), w1)).
  { intros k. unfold get_pool_agent.
    rewrite !PlatformFacts.bind_run, Hnone. reflexivity. }
  split; [|split].
  - intros old_vip vip <-. repeat split; apply Hagent.
  - intros old_member member <-. repeat split; apply Hagent.
  - intros old_health_monitor health_monitor. repeat split; apply Hagent.
Qed.

(** The theorem at collaborators that know no agent. *)
Lemma operations_need_the_pool_agent_witness :
  let nobody : answers :=
    {| hosting_of := fun _ _ => Ok None;
       pool_of := fun _ id => Raise (OtherError id);
       subnet_of := fun _ id => Raise (SubnetNotFound id);
       network_of := fun _ id => Raise (NetworkNotFound id);
       cast_of := fun _ _ _ => Ok tt;
       deleted := fun _ _ => Ok tt |} in
  delete_member (recorder nobody)
    {| member_id := "m1"; member_pool_id := "A" |} []
  = (Raise (NoActiveLbaasAgent "A"), [c_hosting "A"]).
Proof.
  cbv zeta.
  apply (proj1 (proj2
    (operations_need_the_pool_agent
       (recorder
          {| hosting_of := fun _ _ => Ok None;
             pool_of := fun _ id => Raise (OtherError id);
             subnet_of := fun _ id => Raise (SubnetNotFound id);
             network_of := fun _ id => Raise (NetworkNotFound id);
             cast_of := fun _ _ _ => Ok tt;
             deleted := fun _ _ => Ok tt |})
       "A" [] [c_hosting "A"] eq_refl))
    {| member_id := "m1"; member_pool_id := "A" |}
    {| member_id := "m1"; member_pool_id := "A" |} eq_refl).
Defined.

Ltac run :=
  unfold delete_vip, delete_member, delete_pool_health_monitor,
    _get_vip_network_info, _get_pool_network_info, get_pool_agent, to_agent,
    topic_of, mbind, M_bind, mret, M_ret, Py.bind, Py.ret, Py.raise in *;
  cbn [recorder pool_driver plugin _core_plugin agent_rpc topic
       get_lbaas_agent_hosting_pool get_subnet get_network get_pool
       _delete_db_vip _delete_db_member _delete_db_pool_health_monitor
       service_cast] in *;
  unfold asked in *.

(** Closes a run that made [k] calls. *)
Ltac stopped Hsent Hrun k :=
  injection Hrun as <- <-;
  exists k;
  rewrite <- ?app_assoc;
  split; [split; [cbn; lia | rewrite (proj1 (Hsent _)); reflexivity]|];
  split; [apply Hsent|];
  split; [first [reflexivity | intros E; discriminate E]|];
  try (intros E; discriminate E).

(** Closes a run that made every call, the cast being [Hcast]. *)
Ltac completed Hcast :=
  intros _; rewrite <- ?app_assoc in Hcast;
  split; [exact Hcast | reflexivity].

(** [X30] The deletion of a vip, of a member and of a health monitor of a
    pool asks its collaborators in one fixed order and stops at the
    first that raises: the agent of the pool, (the pool,) the subnet,
    the network, the cast of the message to the host of the agent, and
    last the deletion of the record.  So the record is deleted only
    once the message is cast and the cast has returned, the deletion
    is the only call after the cast, and a deletion that returns has
    made every call; its outcome is then the one of the deletion of the
    record. *)
Theorem deletions_cast_before_delete (a : answers) (served : list call) :
  (∀ vip r served',
     delete_vip (recorder a) vip served = (r, served') →
     ∃ host network netinfo k,
       let topic := "lbaas_netscaler_agent." +:+ host in
       let msg := msg_delete_vip vip netinfo in
       let full :=
         [c_hosting (vip_pool_id vip);
          c_get_subnet (vip_subnet_id vip);
          c_get_network network;
          c_cast topic msg;
          c_delete_db_vip (vip_id vip)] in
       stops_within full (drop (length served) served') k
       ∧ take (length served) served' = served
       ∧ (r = Ok tt → k = 5%nat)
       ∧ (k = 5%nat →
          cast_of a (served ++ take 3 full) topic msg = Ok tt
          ∧ r = deleted a (served ++ take 4 full)
                  (c_delete_db_vip (vip_id vip))))
  ∧ (∀ member r served',
       delete_member (recorder a) member served = (r, served') →
       ∃ host subnet network netinfo k,
         let topic := "lbaas_netscaler_agent." +:+ host in
         let msg := msg_delete_member member netinfo in
         let full :=
           [c_hosting (member_pool_id member);
            c_get_pool (member_pool_id member);
            c_get_subnet subnet;
            c_get_network network;
            c_cast topic msg;
            c_delete_db_member (member_id member)] in
         stops_within full (drop (length served) served') k
         ∧ take (length served) served' = served
         ∧ (r = Ok tt → k = 6%nat)
         ∧ (k = 6%nat →
            cast_of a (served ++ take 4 full) topic msg = Ok tt
            ∧ r = deleted a (served ++ take 5 full)
                    (c_delete_db_member (member_id member))))
  ∧ (∀ health_monitor pool_id r served',
       delete_pool_health_monitor (recorder a) health_monitor pool_id served
       = (r, served') →
       ∃ host subnet network netinfo k,
         let topic := "lbaas_netscaler_agent." +:+ host in
         let msg :=
           msg_delete_pool_health_monitor health_monitor pool_id netinfo in
         let removal :=
           c_delete_db_pool_health_monitor (monitor_id health_monitor)
             pool_id in
         let full :=
           [c_hosting pool_id;
            c_get_pool pool_id;
            c_get_subnet subnet;
            c_get_network network;
            c_cast topic msg;
            removal] in
         stops_within full (drop (length served) served') k
         ∧ take (length served) served' = served
         ∧ (r = Ok tt → k = 6%nat)
         ∧ (k = 6%nat →
            cast_of a (served ++ take 4 full) topic msg = Ok tt
            ∧ r = deleted a (served ++ take 5 full) removal)).
Proof.
  assert (Hsent : ∀ sent : list call,
            drop (length served) (served ++ sent) = sent
            ∧ take (length served) (served ++ sent) = served).
  { intros sent. split; [apply drop_app_length | apply take_app_length]. }
  split; [|split].
  - intros vip r served' Hrun. run.
    destruct (hosting_of a served _) as [[agent|]|e]; cbn beta iota in Hrun;
      [| exists "", "", ∅; cbn zeta; stopped Hsent Hrun 1%nat ..].
    destruct (subnet_of a _ _) as [subnet|e]; cbn beta iota in Hrun;
      [| exists "", "", ∅; cbn zeta; stopped Hsent Hrun 2%nat].
    destruct (network_of a _ _) as [network|e]; cbn beta iota in Hrun;
      [| exists "", (subnet_network_id subnet), ∅; cbn zeta;
         stopped Hsent Hrun 3%nat].
    destruct (cast_of a _ _ _) as [[]|e] eqn:Hcast; cbn beta iota in Hrun;
      eexists (host agent), (subnet_network_id subnet), _; cbn zeta;
      [stopped Hsent Hrun 5%nat; completed Hcast | stopped Hsent Hrun 4%nat].
  - intros member r served' Hrun. run.
    destruct (hosting_of a served _) as [[agent|]|e]; cbn beta iota in Hrun;
      [| exists "", "", "", ∅; cbn zeta; stopped Hsent Hrun 1%nat ..].
    destruct (pool_of a _ _) as [pool|e]; cbn beta iota in Hrun;
      [| exists "", "", "", ∅; cbn zeta; stopped Hsent Hrun 2%nat].
    destruct (subnet_of a _ _) as [subnet|e]; cbn beta iota in Hrun;
      [| exists "", (pool_subnet_id pool), "", ∅; cbn zeta;
         stopped Hsent Hrun 3%nat].
    destruct (network_of a _ _) as [network|e]; cbn beta iota in Hrun;
      [| exists "", (pool_subnet_id pool), (subnet_network_id subnet), ∅;
         cbn zeta; stopped Hsent Hrun 4%nat].
    destruct (cast_of a _ _ _) as [[]|e] eqn:Hcast; cbn beta iota in Hrun;
      eexists (host agent), (pool_subnet_id pool),
        (subnet_network_id subnet), _; cbn zeta;
      [stopped Hsent Hrun 6%nat; completed Hcast | stopped Hsent Hrun 5%nat].
  - intros health_monitor pool_id r served' Hrun. run.
    destruct (hosting_of a served _) as [[agent|]|e]; cbn beta iota in Hrun;
      [| exists "", "", "", ∅; cbn zeta; stopped Hsent Hrun 1%nat ..].
    destruct (pool_of a _ _) as [pool|e]; cbn beta iota in Hrun;
      [| exists "", "", "", ∅; cbn zeta; stopped Hsent Hrun 2%nat].
    destruct (subnet_of a _ _) as [subnet|e]; cbn beta iota in Hrun;
      [| exists "", (pool_subnet_id pool), "", ∅; cbn zeta;
         stopped Hsent Hrun 3%nat].
    destruct (network_of a _ _) as [network|e]; cbn beta iota in Hrun;
      [| exists "", (pool_subnet_id pool), (subnet_network_id subnet), ∅;
         cbn zeta; stopped Hsent Hrun 4%nat].
    destruct (cast_of a _ _ _) as [[]|e] eqn:Hcast; cbn beta iota in Hrun;
      eexists (host agent), (pool_subnet_id pool),
        (subnet_network_id subnet), _; cbn zeta;
      [stopped Hsent Hrun 6%nat; completed Hcast | stopped Hsent Hrun 5%nat].
Qed.

(** The theorem at a member of the pool [A] when the message cannot be
    cast: five calls are made, and the record is not deleted. *)
Lemma deletions_cast_before_delete_witness :
  let out :=
    delete_member (recorder ServiceExamples.broker_down)
      ServiceExamples.member [] in
  fst out = Raise (OtherError "broker down")
  ∧ ∃ host subnet network netinfo k,
      stops_within
        [c_hosting "A"; c_get_pool "A"; c_get_subnet subnet;
         c_get_network network;
         c_cast ("lbaas_netscaler_agent." +:+ host)
           (msg_delete_member ServiceExamples.member netinfo);
         c_delete_db_member "m1"]
        (snd out) k
      ∧ (fst out = Ok tt → k = 6%nat).
Proof.
  cbv zeta. split; [reflexivity|].
  destruct (proj1 (proj2 (deletions_cast_before_delete
                            ServiceExamples.broker_down []))
              ServiceExamples.member _ _ (surjective_pairing _))
    as (host & subnet & network & netinfo & k & Hstops & _ & Hall & _).
  exists host, subnet, network, netinfo, k.
  split; [exact Hstops | exact Hall].
Defined.

End NetScalerServiceFacts.
